(** * Face-liveness capture front end: session state machine and capture geometry

    A shallow embedding of the two browser scripts of the repository:

    - [Part000]: the script whose loop is [startAuthentication] and whose
      state machine is [updateFacePosition] (module-level variables
      [isRunning], [liveFrameCount], [currentState], [lastStatusUpdate], ...);
    - [App]: [app.js], whose loop is [processFrame] and whose presenter is
      [updateUI] (a single [state] object).

    Conventions.  [Date.now()] is an integer number of milliseconds ([Z]).
    One handler of the event loop runs to completion and reads one clock
    value [now].  An [async] function is cut at the [await]s at which other
    handlers can run: each piece is a function on the state, and the calls
    that wait are kept beside the state ([startAuthentication] and
    [startAuthentication_resume] in [Part000]; [App.EventLoop] for the waits
    of [updateUI]).  Where [App] also gives a function in one piece
    ([updateUI], [processFrame], [handleSuccessfulAuthentication]), that is
    the call with nothing running between its pieces.  Numbers that the
    scripts compute with fractions (ratios, scale factors) are exact
    rationals ([Q]) standing for the doubles of the script, and [Math.round]
    is [round_half_up]: where the exact value is a tie or an integer the
    script's double may fall on the other side of it, so results that
    depend on a tie are stated as bounds.  Calls of [debug.log] and
    [debug.error] are left out: they write to the console and the debug
    panel only. *)

From Stdlib Require Import ZArith QArith Qround Qabs List String Ascii Bool Lia Lqa.
From Stdlib Require Import FunInd Recdef.
Import ListNotations.

Local Open Scope string_scope.
Local Open Scope list_scope.
Local Open Scope Z_scope.

(** ** JavaScript helpers shared by both scripts *)

(** [s |> f] applies the statement [f] to the state [s]; a handler body reads
    top to bottom as a pipeline of statements. *)
Notation "s |> f" := (f s) (at level 45, left associativity, only parsing).

(** A block guarded by [if (c) { ... }] without an [else]. *)
Definition when {S : Type} (c : bool) (body : S -> S) (s : S) : S :=
  if c then body s else s.

(** What a call produced: a value, or an exception with its message. *)
Inductive Outcome (A : Type) : Type :=
| Returned (a : A)
| Thrown (message : string).
Arguments Returned {A} & a.
Arguments Thrown {A} message.

(** [a || b] on strings: the empty string is falsy. *)
Definition str_or (a b : string) : string :=
  if String.eqb a "" then b else a.

(** [hay.includes(needle)]. *)
Definition includes (needle hay : string) : bool :=
  match String.index 0 needle hay with
  | Some _ => true
  | None => false
  end.

(** [hay.startsWith(p)]. *)
Definition startsWith (p hay : string) : bool := String.prefix p hay.

(** [DOMTokenList]: an ordered list of distinct class names. *)
Definition classList := list string.

Definition classList_contains (c : string) (l : classList) : bool :=
  existsb (String.eqb c) l.

Definition classList_add (c : string) (l : classList) : classList :=
  if classList_contains c l then l else l ++ [c].

Definition classList_remove (c : string) (l : classList) : classList :=
  filter (fun x => negb (String.eqb c x)) l.

Definition classList_remove_all (cs : list string) (l : classList) : classList :=
  fold_left (fun acc c => classList_remove c acc) cs l.

(** [arr.forEach((x, index) => ...)] rebuilding each element. *)
Fixpoint mapi_from {A B : Type} (i : Z) (f : Z -> A -> B) (l : list A) : list B :=
  match l with
  | [] => []
  | x :: r => f i x :: mapi_from (i + 1) f r
  end.

(** [Math.round]: the nearest integer, halves rounded up. *)
Definition round_half_up (q : Q) : Z := Qfloor (q + (1 # 2)).

(** [a < b] and [Math.min(a, b)] on fractions. *)
Definition Qlt_bool (a b : Q) : bool := negb (Qle_bool b a).
Definition Qmin (a b : Q) : Q := if Qle_bool a b then a else b.

(** A [DOMRect] as returned by [getBoundingClientRect]. *)
Module DOMRect.
Record t : Type := make {
  left : Q;
  top : Q;
  width : Q;
  height : Q
}.
End DOMRect.

(** [{x, y, width, height}] in video pixels after [Math.round]: the oval
    guide sent to the service. *)
Module Oval.
Record t : Type := make {
  x : Z;
  y : Z;
  width : Z;
  height : Z
}.
End Oval.

(** A camera stream: its tracks.  [track.stop()] ends a track and does
    nothing to an ended one. *)
Inductive TrackState : Type := live | ended.

Record MediaStreamTrack : Type := {
  kind : string;
  readyState : TrackState
}.

Definition MediaStream := list MediaStreamTrack.

Definition stop (t : MediaStreamTrack) : MediaStreamTrack :=
  {| kind := kind t; readyState := ended |}.

Definition is_ended (t : MediaStreamTrack) : bool :=
  match readyState t with ended => true | live => false end.

(** Pending [setTimeout] callbacks.  An entry keeps its handle, the
    callback, the delay and the time of the [setTimeout] call; the browser
    runs it no earlier than [armedAt + delay].  Handles are positive, so a
    variable holding one is truthy. *)
Section Timers.
Variable Callback : Type.

Record TimerEntry : Type := {
  handle : nat;
  callback : Callback;
  delay : Z;
  armedAt : Z
}.

Record TimerQueue : Type := {
  nextHandle : nat;
  pending : list TimerEntry
}.

Definition setTimeout (cb : Callback) (d : Z) (now : Z) (q : TimerQueue)
  : nat * TimerQueue :=
  (nextHandle q,
   {| nextHandle := S (nextHandle q);
      pending := pending q ++ [{| handle := nextHandle q; callback := cb;
                                  delay := d; armedAt := now |}] |}).

Definition clearTimeout (h : nat) (q : TimerQueue) : TimerQueue :=
  {| nextHandle := nextHandle q;
     pending := filter (fun e => negb (Nat.eqb (handle e) h)) (pending q) |}.

(** The callback of the pending timer [h], if it is due at [now]. *)
Definition timer_due (h : nat) (now : Z) (q : TimerQueue) : option Callback :=
  match find (fun e => Nat.eqb (handle e) h) (pending q) with
  | Some e => if armedAt e + delay e <=? now then Some (callback e) else None
  | None => None
  end.
End Timers.
Arguments handle {Callback} _.
Arguments callback {Callback} _.
Arguments delay {Callback} _.
Arguments armedAt {Callback} _.
Arguments nextHandle {Callback} _.
Arguments pending {Callback} _.
Arguments setTimeout {Callback} cb d now q.
Arguments clearTimeout {Callback} h q.
Arguments timer_due {Callback} h now q.

(** ** The script with [startAuthentication] / [updateFacePosition] *)
Module Part000.

(** [AUTH_STATE]. *)
Inductive AUTH_STATE : Type := MONITORING | AUTHENTICATED | TIMEOUT.

Definition AUTH_STATE_eqb (a b : AUTH_STATE) : bool :=
  match a, b with
  | MONITORING, MONITORING | AUTHENTICATED, AUTHENTICATED | TIMEOUT, TIMEOUT => true
  | _, _ => false
  end.

(** The script's constants.  They are static in the source
    ([source_config]); the functions take them as a record so that a scenario
    can be stated for another required-frame count. *)
Record Config : Type := {
  REQUIRED_LIVE_FRAMES : Z;
  FRAME_INTERVAL : Z;
  SESSION_TIMEOUT : Z;
  STATUS_DEBOUNCE_TIME : Z
}.

Definition source_config : Config :=
  {| REQUIRED_LIVE_FRAMES := 5;
     FRAME_INTERVAL := 200;
     SESSION_TIMEOUT := 10000;
     STATUS_DEBOUNCE_TIME := 1000 |}.

(** The parsed JSON body of a response of [/authenticate].  A missing or
    falsy field is [false] / the empty string. *)
Record Result : Type := {
  error : string;
  is_live : bool;
  message : string;
  liveness_message : string;
  confidence : Q;
  recognized_name : string;
  processed_image : string
}.

(** How the awaited [fetch] settles. *)
Inductive FetchOutcome : Type :=
| NetworkError (msg : string)
| HttpStatus (status : string)       (* [response.ok] is false *)
| Json (result : Result).

(** A message handed to [notifyFlutter]. *)
Record FlutterMessage : Type := {
  status : string;
  text : string;                     (* [message], or [method] for switch_auth *)
  timestamp : Z
}.

(** The body of the POST request. *)
Record Request : Type := {
  image : string;
  ovalGuide : Oval.t;
  req_timestamp : Z
}.

Inductive Callback : Type := CbStartAuthentication | CbSessionTimeout.

(** The elements the script writes to. *)
Record Dom : Type := {
  ovalBorder : classList;
  statusDisplay_className : classList;
  statusDisplay_textContent : string;
  statusHint_textContent : string;
  progressDots : list bool;          (* has the dot the class [active]? *)
  processedImageContainer : string;
  overlay_active : bool;
  canvas_size : Z * Z
}.

(** Module-level variables, the DOM, the timer queue and the log of what
    left the page.  [awaiting] counts the invocations of
    [startAuthentication] suspended at [await fetch]; [srcObject] is
    [video.srcObject], the camera stream. *)
Record State : Type := {
  isRunning : bool;
  authenticationLoop : option nat;
  liveFrameCount : Z;
  sessionTimer : option nat;
  currentState : AUTH_STATE;
  lastStatusUpdate : Z;
  dom : Dom;
  timers : TimerQueue Callback;
  notified : list FlutterMessage;
  fetched : list Request;
  awaiting : nat;
  srcObject : option MediaStream
}.

(** *** Assignments *)

Definition set_isRunning (v : bool) (s : State) : State :=
  {| isRunning := v; authenticationLoop := authenticationLoop s;
     liveFrameCount := liveFrameCount s; sessionTimer := sessionTimer s;
     currentState := currentState s; lastStatusUpdate := lastStatusUpdate s;
     dom := dom s; timers := timers s; notified := notified s;
     fetched := fetched s; awaiting := awaiting s; srcObject := srcObject s |}.

Definition set_authenticationLoop (v : option nat) (s : State) : State :=
  {| isRunning := isRunning s; authenticationLoop := v;
     liveFrameCount := liveFrameCount s; sessionTimer := sessionTimer s;
     currentState := currentState s; lastStatusUpdate := lastStatusUpdate s;
     dom := dom s; timers := timers s; notified := notified s;
     fetched := fetched s; awaiting := awaiting s; srcObject := srcObject s |}.

Definition set_liveFrameCount (v : Z) (s : State) : State :=
  {| isRunning := isRunning s; authenticationLoop := authenticationLoop s;
     liveFrameCount := v; sessionTimer := sessionTimer s;
     currentState := currentState s; lastStatusUpdate := lastStatusUpdate s;
     dom := dom s; timers := timers s; notified := notified s;
     fetched := fetched s; awaiting := awaiting s; srcObject := srcObject s |}.

Definition set_sessionTimer (v : option nat) (s : State) : State :=
  {| isRunning := isRunning s; authenticationLoop := authenticationLoop s;
     liveFrameCount := liveFrameCount s; sessionTimer := v;
     currentState := currentState s; lastStatusUpdate := lastStatusUpdate s;
     dom := dom s; timers := timers s; notified := notified s;
     fetched := fetched s; awaiting := awaiting s; srcObject := srcObject s |}.

Definition set_currentState (v : AUTH_STATE) (s : State) : State :=
  {| isRunning := isRunning s; authenticationLoop := authenticationLoop s;
     liveFrameCount := liveFrameCount s; sessionTimer := sessionTimer s;
     currentState := v; lastStatusUpdate := lastStatusUpdate s;
     dom := dom s; timers := timers s; notified := notified s;
     fetched := fetched s; awaiting := awaiting s; srcObject := srcObject s |}.

Definition set_lastStatusUpdate (v : Z) (s : State) : State :=
  {| isRunning := isRunning s; authenticationLoop := authenticationLoop s;
     liveFrameCount := liveFrameCount s; sessionTimer := sessionTimer s;
     currentState := currentState s; lastStatusUpdate := v;
     dom := dom s; timers := timers s; notified := notified s;
     fetched := fetched s; awaiting := awaiting s; srcObject := srcObject s |}.

Definition set_dom (v : Dom) (s : State) : State :=
  {| isRunning := isRunning s; authenticationLoop := authenticationLoop s;
     liveFrameCount := liveFrameCount s; sessionTimer := sessionTimer s;
     currentState := currentState s; lastStatusUpdate := lastStatusUpdate s;
     dom := v; timers := timers s; notified := notified s;
     fetched := fetched s; awaiting := awaiting s; srcObject := srcObject s |}.

Definition set_timers (v : TimerQueue Callback) (s : State) : State :=
  {| isRunning := isRunning s; authenticationLoop := authenticationLoop s;
     liveFrameCount := liveFrameCount s; sessionTimer := sessionTimer s;
     currentState := currentState s; lastStatusUpdate := lastStatusUpdate s;
     dom := dom s; timers := v; notified := notified s;
     fetched := fetched s; awaiting := awaiting s; srcObject := srcObject s |}.

Definition set_notified (v : list FlutterMessage) (s : State) : State :=
  {| isRunning := isRunning s; authenticationLoop := authenticationLoop s;
     liveFrameCount := liveFrameCount s; sessionTimer := sessionTimer s;
     currentState := currentState s; lastStatusUpdate := lastStatusUpdate s;
     dom := dom s; timers := timers s; notified := v;
     fetched := fetched s; awaiting := awaiting s; srcObject := srcObject s |}.

Definition set_fetched (v : list Request) (s : State) : State :=
  {| isRunning := isRunning s; authenticationLoop := authenticationLoop s;
     liveFrameCount := liveFrameCount s; sessionTimer := sessionTimer s;
     currentState := currentState s; lastStatusUpdate := lastStatusUpdate s;
     dom := dom s; timers := timers s; notified := notified s;
     fetched := v; awaiting := awaiting s; srcObject := srcObject s |}.

Definition set_srcObject (v : option MediaStream) (s : State) : State :=
  {| isRunning := isRunning s; authenticationLoop := authenticationLoop s;
     liveFrameCount := liveFrameCount s; sessionTimer := sessionTimer s;
     currentState := currentState s; lastStatusUpdate := lastStatusUpdate s;
     dom := dom s; timers := timers s; notified := notified s;
     fetched := fetched s; awaiting := awaiting s; srcObject := v |}.

Definition set_awaiting (v : nat) (s : State) : State :=
  {| isRunning := isRunning s; authenticationLoop := authenticationLoop s;
     liveFrameCount := liveFrameCount s; sessionTimer := sessionTimer s;
     currentState := currentState s; lastStatusUpdate := lastStatusUpdate s;
     dom := dom s; timers := timers s; notified := notified s;
     fetched := fetched s; awaiting := v; srcObject := srcObject s |}.


Definition set_ovalBorder (v : classList) (d : Dom) : Dom :=
  {| ovalBorder := v; statusDisplay_className := statusDisplay_className d;
     statusDisplay_textContent := statusDisplay_textContent d;
     statusHint_textContent := statusHint_textContent d;
     progressDots := progressDots d;
     processedImageContainer := processedImageContainer d;
     overlay_active := overlay_active d; canvas_size := canvas_size d |}.

Definition set_statusDisplay_className (v : classList) (d : Dom) : Dom :=
  {| ovalBorder := ovalBorder d; statusDisplay_className := v;
     statusDisplay_textContent := statusDisplay_textContent d;
     statusHint_textContent := statusHint_textContent d;
     progressDots := progressDots d;
     processedImageContainer := processedImageContainer d;
     overlay_active := overlay_active d; canvas_size := canvas_size d |}.

Definition set_statusDisplay_textContent (v : string) (d : Dom) : Dom :=
  {| ovalBorder := ovalBorder d;
     statusDisplay_className := statusDisplay_className d;
     statusDisplay_textContent := v;
     statusHint_textContent := statusHint_textContent d;
     progressDots := progressDots d;
     processedImageContainer := processedImageContainer d;
     overlay_active := overlay_active d; canvas_size := canvas_size d |}.

Definition set_statusHint_textContent (v : string) (d : Dom) : Dom :=
  {| ovalBorder := ovalBorder d;
     statusDisplay_className := statusDisplay_className d;
     statusDisplay_textContent := statusDisplay_textContent d;
     statusHint_textContent := v;
     progressDots := progressDots d;
     processedImageContainer := processedImageContainer d;
     overlay_active := overlay_active d; canvas_size := canvas_size d |}.

Definition set_progressDots (v : list bool) (d : Dom) : Dom :=
  {| ovalBorder := ovalBorder d;
     statusDisplay_className := statusDisplay_className d;
     statusDisplay_textContent := statusDisplay_textContent d;
     statusHint_textContent := statusHint_textContent d;
     progressDots := v;
     processedImageContainer := processedImageContainer d;
     overlay_active := overlay_active d; canvas_size := canvas_size d |}.

Definition set_processedImageContainer (v : string) (d : Dom) : Dom :=
  {| ovalBorder := ovalBorder d;
     statusDisplay_className := statusDisplay_className d;
     statusDisplay_textContent := statusDisplay_textContent d;
     statusHint_textContent := statusHint_textContent d;
     progressDots := progressDots d;
     processedImageContainer := v;
     overlay_active := overlay_active d; canvas_size := canvas_size d |}.

Definition set_overlay_active (v : bool) (d : Dom) : Dom :=
  {| ovalBorder := ovalBorder d;
     statusDisplay_className := statusDisplay_className d;
     statusDisplay_textContent := statusDisplay_textContent d;
     statusHint_textContent := statusHint_textContent d;
     progressDots := progressDots d;
     processedImageContainer := processedImageContainer d;
     overlay_active := v; canvas_size := canvas_size d |}.

Definition set_canvas_size (v : Z * Z) (d : Dom) : Dom :=
  {| ovalBorder := ovalBorder d;
     statusDisplay_className := statusDisplay_className d;
     statusDisplay_textContent := statusDisplay_textContent d;
     statusHint_textContent := statusHint_textContent d;
     progressDots := progressDots d;
     processedImageContainer := processedImageContainer d;
     overlay_active := overlay_active d; canvas_size := v |}.

(** A statement on the DOM, run on the state. *)
Definition on_dom (f : Dom -> Dom) (s : State) : State := set_dom (f (dom s)) s.

(** *** [notifyFlutter] *)

(** The message is handed to the first bridge the host offers; the model
    records the message. *)
Definition notifyFlutter (m : FlutterMessage) (s : State) : State :=
  set_notified (notified s ++ [m]) s.

(** *** [updateFacePosition] *)

Definition multiple_faces : string := "Keep only one face in the oval".

(** The inner [resetUI] of [updateFacePosition]. *)
Definition resetUI_inner (cfg : Config) (currentTime : Z) (s : State) : State :=
  if STATUS_DEBOUNCE_TIME cfg <=? currentTime - lastStatusUpdate s then
    s |> set_liveFrameCount 0
      |> on_dom (fun d => d
           |> set_ovalBorder
                (classList_remove_all ["analyzing"; "success"; "no-face"] (ovalBorder d))
           |> set_statusDisplay_className ["status"]
           |> set_statusHint_textContent ""
           |> set_progressDots (map (fun _ => false) (progressDots d)))
      |> set_lastStatusUpdate currentTime
  else s.

(** The inner [updateProgress]: dot [index] is active iff
    [index < Math.min(liveFrameCount, 4)]. *)
Definition updateProgress (s : State) : State :=
  let progress := Z.min (liveFrameCount s) 4 in
  on_dom (fun d =>
    set_progressDots (mapi_from 0 (fun index _ => index <? progress) (progressDots d)) d) s.

(** The block run when [liveFrameCount >= REQUIRED_LIVE_FRAMES]. *)
Definition authenticate (currentTime : Z) (s : State) : State :=
  s |> set_currentState AUTHENTICATED
    |> on_dom (fun d => d
         |> set_ovalBorder
              (classList_add "success" (classList_remove "analyzing" (ovalBorder d)))
         |> set_statusDisplay_textContent "Welcome!"
         |> set_statusDisplay_className ["status"; "success"]
         |> set_statusHint_textContent "Face verified successfully"
         |> set_progressDots (map (fun _ => true) (progressDots d)))
    |> notifyFlutter {| status := "success"; text := "Authentication successful";
                        timestamp := currentTime |}
    |> (fun s =>
          match authenticationLoop s with
          | Some h => s |> set_timers (clearTimeout h (timers s))
                        |> set_authenticationLoop None
          | None => s
          end).

(** Is the verdict carried by [result] a live one?  The negation of the
    test [!result.is_live || result.liveness_message === "Keep only one ..."]. *)
Definition verdict_live (result : Result) : bool :=
  is_live result && negb (String.eqb (liveness_message result) multiple_faces).

Definition updateFacePosition (cfg : Config) (currentTime : Z) (result : Result)
  (s : State) : State :=
  if negb (String.eqb (error result) "") then s
  else
    let s1 :=
      if negb (is_live result) || String.eqb (liveness_message result) multiple_faces then
        if STATUS_DEBOUNCE_TIME cfg <=? currentTime - lastStatusUpdate s then
          s |> resetUI_inner cfg currentTime
            |> on_dom (fun d => d
                 |> set_ovalBorder (classList_add "no-face" (ovalBorder d))
                 |> set_statusDisplay_className
                      (classList_add "error" (statusDisplay_className d))
                 |> set_statusDisplay_textContent
                      (str_or (liveness_message result) (message result)))
            |> when (String.eqb (liveness_message result) multiple_faces)
                 (on_dom (set_statusHint_textContent "Only one person should be in frame"))
            |> set_lastStatusUpdate currentTime
        else s
      else
        (* [currentTime - lastStatusUpdate >= STATUS_DEBOUNCE_TIME / 2] *)
        if STATUS_DEBOUNCE_TIME cfg <=? 2 * (currentTime - lastStatusUpdate s) then
          s |> on_dom (fun d => d
                 |> set_ovalBorder
                      (classList_remove "no-face" (classList_add "analyzing" (ovalBorder d)))
                 |> set_statusDisplay_className
                      (classList_add "analyzing" (statusDisplay_className d))
                 |> set_statusDisplay_textContent
                      (str_or (liveness_message result) (message result)))
            |> set_lastStatusUpdate currentTime
            |> (fun s =>
                  if negb (AUTH_STATE_eqb (currentState s) AUTHENTICATED) then
                    let s := s |> set_liveFrameCount (liveFrameCount s + 1)
                               |> updateProgress in
                    if REQUIRED_LIVE_FRAMES cfg <=? liveFrameCount s then
                      authenticate currentTime s
                    else
                      s |> on_dom (fun d => d
                             |> set_statusDisplay_textContent "Face Detected"
                             |> set_statusDisplay_className ["status"; "analyzing"]
                             |> set_statusHint_textContent "Verifying...")
                  else s)
        else s
    in
    (* [processedImageContainer] holds the base64 payload of the image shown *)
    when (negb (String.eqb (processed_image result) ""))
      (on_dom (set_processedImageContainer (processed_image result))) s1.

(** *** The module-level [resetUI] *)

Definition resetUI (s : State) : State :=
  on_dom (fun d => d
    |> set_ovalBorder
         (classList_remove_all ["analyzing"; "success"; "no-face"] (ovalBorder d))
    |> set_statusDisplay_className ["status"]
    |> set_statusDisplay_textContent ""
    |> set_statusHint_textContent ""
    |> set_progressDots (map (fun _ => false) (progressDots d))) s.

(** *** Session timer *)

Definition startSession (cfg : Config) (now : Z) (s : State) : State :=
  let s := match sessionTimer s with
           | Some h => set_timers (clearTimeout h (timers s)) s
           | None => s
           end in
  let s := set_currentState MONITORING s in
  let (h, q) := setTimeout CbSessionTimeout (SESSION_TIMEOUT cfg) now (timers s) in
  s |> set_timers q |> set_sessionTimer (Some h).

Definition handleTimeout (now : Z) (s : State) : State :=
  s |> set_currentState TIMEOUT
    |> set_isRunning false
    |> (fun s =>
          match authenticationLoop s with
          | Some h => s |> set_timers (clearTimeout h (timers s))
                        |> set_authenticationLoop None
          | None => s
          end)
    |> on_dom (set_overlay_active true)
    |> notifyFlutter {| status := "timeout"; text := "Face verification timeout";
                        timestamp := now |}.

(** The callback armed by [startSession]. *)
Definition sessionTimeout_callback (now : Z) (s : State) : State :=
  if negb (AUTH_STATE_eqb (currentState s) AUTHENTICATED) then handleTimeout now s
  else s.

(** *** [captureFrame] *)

(** What one cycle reads from the page: the video element, the layout and
    what the canvas produces. *)
Record Env : Type := {
  video_ready : bool;                  (* [readyState === HAVE_ENOUGH_DATA] *)
  videoWidth : Z;
  videoHeight : Z;
  videoRect : DOMRect.t;
  ovalRect : DOMRect.t;
  drawImage_throws : bool;
  dataUrl : string                     (* result of [canvas.toDataURL] *)
}.

Record FrameData : Type := {
  frame_image : string;
  frame_ovalGuide : Oval.t
}.

(** The geometry of [captureFrame]: [ovalData].  The fractions are exact;
    where the exact product is a tie of [Math.round], the script's double may
    lie just below it and give the integer below. *)
Definition ovalData (vw vh : Z) (vRect oRect : DOMRect.t) : Oval.t :=
  let videoAspect := (inject_Z vw / inject_Z vh)%Q in
  let containerAspect := (DOMRect.width vRect / DOMRect.height vRect)%Q in
  let scale := Qmin (inject_Z vw / DOMRect.width vRect)%Q
                    (inject_Z vh / DOMRect.height vRect)%Q in
  let '(xOffset, yOffset) :=
    if Qlt_bool videoAspect containerAspect then
      let actualWidth := (DOMRect.height vRect * videoAspect)%Q in
      (((DOMRect.width vRect - actualWidth) / 2)%Q, 0%Q)
    else
      let actualHeight := (DOMRect.width vRect / videoAspect)%Q in
      (0%Q, ((DOMRect.height vRect - actualHeight) / 2)%Q) in
  let '(targetOvalWidth, targetOvalHeight) :=
    if Qle_bool 1 videoAspect then
      let h := (inject_Z vh * (75 # 100))%Q in ((h * (75 # 100))%Q, h)
    else
      let w := (inject_Z vw * (75 # 100))%Q in (w, (w * (133 # 100))%Q) in
  let targetOvalWidth := Qmin targetOvalWidth (inject_Z vw * (85 # 100))%Q in
  let targetOvalHeight := Qmin targetOvalHeight (inject_Z vh * (85 # 100))%Q in
  {| Oval.x := Z.max 0 (round_half_up
                 ((DOMRect.left oRect - DOMRect.left vRect - xOffset) * scale)%Q);
     Oval.y := Z.max 0 (round_half_up
                 ((DOMRect.top oRect - DOMRect.top vRect - yOffset) * scale)%Q);
     Oval.width := round_half_up targetOvalWidth;
     Oval.height := round_half_up targetOvalHeight |}.

Definition captureFrame (env : Env) (s : State) : State * Outcome (option FrameData) :=
  if (videoWidth env =? 0) || (videoHeight env =? 0) then
    (s, Thrown "Video dimensions not available")
  else
    let od := ovalData (videoWidth env) (videoHeight env) (videoRect env) (ovalRect env) in
    let s := on_dom (set_canvas_size (videoWidth env, videoHeight env)) s in
    if drawImage_throws env then (s, Returned None)
    else if negb (startsWith "data:image/jpeg" (dataUrl env)) then (s, Returned None)
    else (s, Returned (Some {| frame_image := dataUrl env; frame_ovalGuide := od |})).

(** No frame can be had from the page: the video has no intrinsic size,
    drawing fails, or the encoder gives something that is not a JPEG data
    URL. *)
Definition capture_unavailable (env : Env) : bool :=
  (videoWidth env =? 0) || (videoHeight env =? 0)
  || drawImage_throws env || negb (startsWith "data:image/jpeg" (dataUrl env)).

(** *** [startAuthentication] *)

(** [authenticationLoop = setTimeout(startAuthentication, FRAME_INTERVAL)]. *)
Definition schedule_next (cfg : Config) (now : Z) (s : State) : State :=
  let (h, q) := setTimeout CbStartAuthentication (FRAME_INTERVAL cfg) now (timers s) in
  s |> set_timers q |> set_authenticationLoop (Some h).

(** The last statement of [startAuthentication]. *)
Definition schedule_if_running (cfg : Config) (now : Z) (s : State) : State :=
  when (isRunning s && negb (AUTH_STATE_eqb (currentState s) AUTHENTICATED))
    (schedule_next cfg now) s.

(** The [catch (err)] block of [startAuthentication]. *)
Definition catch_block (now : Z) (msg : string) (s : State) : State :=
  s |> notifyFlutter {| status := "error"; text := msg; timestamp := now |}
    |> when (includes "Server error:" msg) resetUI.

(** [startAuthentication] from its call up to the point where it is
    suspended at [await fetch(...)], or to its end when it does not get there. *)
Definition startAuthentication (cfg : Config) (env : Env) (now : Z) (s : State) : State :=
  if negb (isRunning s) then s
  else if negb (video_ready env) then schedule_next cfg now s
  else if AUTH_STATE_eqb (currentState s) AUTHENTICATED then s
  else
    match captureFrame env s with
    | (s, Thrown msg) => s |> catch_block now msg |> schedule_if_running cfg now
    | (s, Returned None) => schedule_next cfg now s
    | (s, Returned (Some frameData)) =>
        s |> set_fetched (fetched s ++ [{| image := frame_image frameData;
                                           ovalGuide := frame_ovalGuide frameData;
                                           req_timestamp := now |}])
          |> set_awaiting (S (awaiting s))
    end.

(** [startAuthentication] from the moment the awaited [fetch] settles. *)
Definition startAuthentication_resume (cfg : Config) (o : FetchOutcome) (now : Z)
  (s : State) : State :=
  match awaiting s with
  | O => s
  | S n =>
      let s := set_awaiting n s in
      match o with
      | NetworkError msg => s |> catch_block now msg |> schedule_if_running cfg now
      | HttpStatus st =>
          let msg := String.append "Server error: " st in
          s |> notifyFlutter {| status := "error"; text := msg; timestamp := now |}
            |> catch_block now msg
            |> schedule_if_running cfg now
      | Json result =>
          if negb (String.eqb (error result) "") then
            s |> notifyFlutter {| status := "error"; text := error result;
                                  timestamp := now |}
              |> schedule_next cfg now
          else
            s |> updateFacePosition cfg now result |> schedule_if_running cfg now
      end
  end.

(** *** Session start and retry *)

(** [initializeCamera] from the moment [getUserMedia] gave the stream; the
  waits for the metadata and for [video.play()] change nothing. *)
Definition initializeCamera_ready (cfg : Config) (stream : MediaStream) (env : Env)
  (now : Z) (s : State) : State :=
  s |> set_srcObject (Some stream)
    |> set_isRunning true
    |> set_currentState MONITORING
    |> set_liveFrameCount 0
    |> on_dom (fun d => d
         |> set_statusDisplay_textContent "Position your face in the oval"
         |> set_statusDisplay_className ["status"]
         |> set_processedImageContainer "")
    |> startSession cfg now
    |> startAuthentication cfg env now.

Definition resetSession (cfg : Config) (env : Env) (now : Z) (s : State) : State :=
  s |> set_isRunning true
    |> set_currentState MONITORING
    |> set_liveFrameCount 0
    |> resetUI
    |> startSession cfg now
    |> startAuthentication cfg env now.

(** *** The event loop *)

Inductive Event : Type :=
| CameraReady (stream : MediaStream) (env : Env) (now : Z)
| TimerFires (h : nat) (env : Env) (now : Z)
| FetchSettles (o : FetchOutcome) (now : Z)
| RetryClicked (env : Env) (now : Z).

Definition step (cfg : Config) (ev : Event) (s : State) : State :=
  match ev with
  | CameraReady stream env now => initializeCamera_ready cfg stream env now s
  | TimerFires h env now =>
      match timer_due h now (timers s) with
      | None => s
      | Some cb =>
          let s := set_timers (clearTimeout h (timers s)) s in
          match cb with
          | CbStartAuthentication => startAuthentication cfg env now s
          | CbSessionTimeout => sessionTimeout_callback now s
          end
      end
  | FetchSettles o now => startAuthentication_resume cfg o now s
  | RetryClicked env now =>
      s |> resetSession cfg env now |> on_dom (set_overlay_active false)
  end.

Definition run (cfg : Config) (evs : list Event) (s : State) : State :=
  fold_left (fun s ev => step cfg ev s) evs s.

(** The state of the page when the script is loaded. *)
Definition initial_dom (dots : nat) : Dom :=
  {| ovalBorder := ["oval-border"];
     statusDisplay_className := ["status"];
     statusDisplay_textContent := "";
     statusHint_textContent := "";
     progressDots := repeat false dots;
     processedImageContainer := "";
     overlay_active := false;
     canvas_size := (300, 150) |}.

Definition initial_state (dots : nat) : State :=
  {| isRunning := false; authenticationLoop := None; liveFrameCount := 0;
     sessionTimer := None; currentState := MONITORING; lastStatusUpdate := 0;
     dom := initial_dom dots;
     timers := {| nextHandle := 1; pending := [] |};
     notified := []; fetched := []; awaiting := 0; srcObject := None |}.

(** *** The phase a user observes *)

Inductive Phase : Type := Monitoring | Analyzing | Authenticated | TimedOut.

(** [AUTH_STATE] has no analyzing member: while [currentState] is
    [MONITORING] the script shows the analyzing phase through the status
    element's class. *)
Definition phase (s : State) : Phase :=
  match currentState s with
  | AUTHENTICATED => Authenticated
  | TIMEOUT => TimedOut
  | MONITORING =>
      if classList_contains "analyzing" (statusDisplay_className (dom s))
      then Analyzing else Monitoring
  end.

(** *** [updateOvalGuide] *)

(** The object stored in [window.ovalGuide]; the CSS custom properties
    [--oval-width], [--oval-height], [--oval-top] and [--oval-left] receive
    the same four rounded numbers. *)
Definition updateOvalGuide (videoWidth videoHeight : Z) : Oval.t :=
  let vw := inject_Z videoWidth in
  let vh := inject_Z videoHeight in
  let aspectRatio := (vw / vh)%Q in
  let '(targetOvalWidth, targetOvalHeight) :=
    if Qle_bool 1 aspectRatio then
      let h := (vh * (70 # 100))%Q in
      let w := (h * (80 # 100))%Q in
      if Qlt_bool (vw * (80 # 100))%Q w then
        ((vw * (80 # 100))%Q, (vw * (80 # 100) / (75 # 100))%Q)
      else (w, h)
    else
      let w := (vw * (70 # 100))%Q in
      let h := (w * (140 # 100))%Q in
      if Qlt_bool (vh * (80 # 100))%Q h then
        ((vh * (80 # 100) * (75 # 100))%Q, (vh * (80 # 100))%Q)
      else (w, h) in
  let targetOvalWidth := Qmin targetOvalWidth (vw * (80 # 100))%Q in
  let targetOvalHeight := Qmin targetOvalHeight (vh * (80 # 100))%Q in
  let left := ((vw - targetOvalWidth) / 2)%Q in
  let top := ((vh - targetOvalHeight) / 2)%Q in
  {| Oval.x := round_half_up left;
     Oval.y := round_half_up top;
     Oval.width := round_half_up targetOvalWidth;
     Oval.height := round_half_up targetOvalHeight |}.

(** *** What a run is observed by *)

(** Events that come from the loop itself: a timer or an answer. *)
Definition from_loop (ev : Event) : bool :=
  match ev with
  | TimerFires _ _ _ | FetchSettles _ _ => true
  | CameraReady _ _ _ | RetryClicked _ _ => false
  end.

(** How many success messages the host was given. *)
Definition successes (s : State) : nat :=
  List.length (filter (fun m => String.eqb (status m) "success") (notified s)).

(** The pending timers armed by [startSession]. *)
Definition is_session_timer (e : TimerEntry Callback) : bool :=
  match callback e with
  | CbSessionTimeout => true
  | CbStartAuthentication => false
  end.

Definition session_timers (s : State) : list (TimerEntry Callback) :=
  filter is_session_timer (pending (timers s)).

(** The timer queue as the browser keeps it (handles are fresh and
    distinct), with the variable [sessionTimer] naming every pending session
    timer. *)
Definition queue_wf (q : TimerQueue Callback) (sessionTimer : option nat) : Prop :=
  NoDup (map handle (pending q))
  /\ Forall (fun e => (handle e < nextHandle q)%nat) (pending q)
  /\ Forall (fun e => is_session_timer e = true -> sessionTimer = Some (handle e))
       (pending q).

Definition timers_wf (s : State) : Prop := queue_wf (timers s) (sessionTimer s).

(** The awaited [fetch] did not bring a verdict: it was rejected, the
    status was not a success, or the body carries an [error] field. *)
Definition failed (o : FetchOutcome) : bool :=
  match o with
  | NetworkError _ | HttpStatus _ => true
  | Json result => negb (String.eqb (error result) "")
  end.

(** The counter stays within the required number of frames and below it
    until the session is authenticated. *)
Definition counter_ok (cfg : Config) (s : State) : Prop :=
  0 <= liveFrameCount s <= REQUIRED_LIVE_FRAMES cfg
  /\ (currentState s <> AUTHENTICATED -> liveFrameCount s < REQUIRED_LIVE_FRAMES cfg).

(** What [updateFacePosition] paints besides the processed image. *)
Definition status_area (s : State) : classList * classList * string * string * list bool :=
  (ovalBorder (dom s), statusDisplay_className (dom s),
   statusDisplay_textContent (dom s), statusHint_textContent (dom s),
   progressDots (dom s)).

(** The message [notifyFlutter] is given last. *)
Definition last_status (s : State) : string :=
  status (last (notified s) {| status := ""; text := ""; timestamp := 0 |}).

End Part000.

(** ** [app.js] *)

(** A value that may be missing: [undefined], [null] or an object. *)
Inductive JsValue (A : Type) : Type :=
| js_undefined
| js_null
| js_object (a : A).
Arguments js_undefined {A}.
Arguments js_null {A}.
Arguments js_object {A} a.

(** [!v]: the value is missing. *)
Definition is_absent {A : Type} (v : JsValue A) : bool :=
  match v with
  | js_object _ => false
  | js_undefined | js_null => true
  end.

(** A JavaScript number: a finite value, negative zero, an infinity or
    [NaN].  Finite values are exact rationals; [Num q] with [q == 0] is
    [+0].  The operations are those of the script's doubles apart from the
    rounding of finite results. *)
Module JsNumber.

Inductive t : Type :=
| Num (q : Q)
| NegZero
| Infinity (negative : bool)
| NaN.

Definition value (a : t) : Q :=
  match a with
  | Num q => q
  | NegZero | Infinity _ | NaN => 0
  end.

Definition is_finite (a : t) : bool :=
  match a with
  | Num _ | NegZero => true
  | Infinity _ | NaN => false
  end.

Definition is_zero (a : t) : bool :=
  match a with
  | Num q => Qeq_bool q 0
  | NegZero => true
  | Infinity _ | NaN => false
  end.

(** The sign bit. *)
Definition negative (a : t) : bool :=
  match a with
  | Num q => Qlt_bool q 0
  | NegZero => true
  | Infinity s => s
  | NaN => false
  end.

Definition zero (negative : bool) : t := if negative then NegZero else Num 0.

(** A finite result with the sign rule of a product or a quotient. *)
Definition signed (negative : bool) (q : Q) : t :=
  if Qeq_bool q 0 then zero negative else Num q.

(** [-a]. *)
Definition neg (a : t) : t :=
  match a with
  | Num q => if Qeq_bool q 0 then NegZero else Num (- q)
  | NegZero => Num 0
  | Infinity s => Infinity (negb s)
  | NaN => NaN
  end.

(** [a + b] on numbers. *)
Definition add (a b : t) : t :=
  match a, b with
  | NaN, _ | _, NaN => NaN
  | Infinity s, Infinity s' => if Bool.eqb s s' then Infinity s else NaN
  | Infinity s, _ | _, Infinity s => Infinity s
  | NegZero, NegZero => NegZero
  | _, _ => Num (value a + value b)
  end.

(** [a - b]. *)
Definition sub (a b : t) : t := add a (neg b).

(** [a * b]. *)
Definition mul (a b : t) : t :=
  match a, b with
  | NaN, _ | _, NaN => NaN
  | Infinity s, _ => if is_zero b then NaN else Infinity (xorb s (negative b))
  | _, Infinity s => if is_zero a then NaN else Infinity (xorb (negative a) s)
  | _, _ => signed (xorb (negative a) (negative b)) (value a * value b)
  end.

(** [a / b]. *)
Definition div (a b : t) : t :=
  match a, b with
  | NaN, _ | _, NaN => NaN
  | Infinity _, Infinity _ => NaN
  | Infinity s, _ => Infinity (xorb s (negative b))
  | _, Infinity s => zero (xorb (negative a) s)
  | _, _ =>
      if is_zero b then
        if is_zero a then NaN else Infinity (xorb (negative a) (negative b))
      else signed (xorb (negative a) (negative b)) (value a / value b)
  end.

(** [Math.abs(a)]. *)
Definition abs (a : t) : t :=
  match a with
  | Num q => Num (Qabs.Qabs q)
  | NegZero => Num 0
  | Infinity _ => Infinity false
  | NaN => NaN
  end.

(** [a < b]: false as soon as one side is [NaN]. *)
Definition lt (a b : t) : bool :=
  match a, b with
  | NaN, _ | _, NaN => false
  | Infinity s, Infinity s' => s && negb s'
  | Infinity s, _ => s
  | _, Infinity s => negb s
  | _, _ => Qlt_bool (value a) (value b)
  end.

(** [a > b]. *)
Definition gt (a b : t) : bool := lt b a.

Definition of_Z (z : Z) : t := Num (inject_Z z).

(** The number is finite and its value is the fraction [q]. *)
Definition represents (a : t) (q : Q) : Prop :=
  is_finite a = true /\ (value a == q)%Q.

End JsNumber.

(** A fraction written where a number is expected is that number. *)
Coercion JsNumber.Num : Q >-> JsNumber.t.
Bind Scope Q_scope with JsNumber.t.

(** A face rectangle reported by the service.  A field the object does not
    have reads as [undefined], which every use in [checkFacePosition] and
    [calculateHeadSizeRatio] turns into [NaN]: such a field is [NaN] here. *)
Module FaceRect.
Record t : Type := make {
  x : JsNumber.t;
  y : JsNumber.t;
  width : JsNumber.t;
  height : JsNumber.t
}.
End FaceRect.

Module App.

(** [CONFIG]. *)
Definition FRAMES_REQUIRED : Z := 3.
Definition MIN_FRAME_INTERVAL : Z := 200.
Definition MAX_RETRIES : Z := 3.
Definition RETRY_DELAY : Z := 1000.
Definition SESSION_TIMEOUT : Z := 30000.
Definition MIN_LIVENESS_CONFIDENCE : Q := 6 # 10.

(** [AUTH_STATE]. *)
Inductive AUTH_STATE : Type := WAITING | ANALYZING | AUTHENTICATED | ERROR.

Definition AUTH_STATE_eqb (a b : AUTH_STATE) : bool :=
  match a, b with
  | WAITING, WAITING | ANALYZING, ANALYZING
  | AUTHENTICATED, AUTHENTICATED | ERROR, ERROR => true
  | _, _ => false
  end.

(** [state.ovalState]. *)
Record OvalState : Type := {
  current : string;
  transitioning : bool;
  lastUpdate : Z
}.

(** The members of [elements] the script writes to. *)
Record Elements : Type := {
  ovalBorder : classList;
  statusDisplay_classList : classList;
  statusDisplay_textContent : string;
  statusHint_textContent : string;
  canvas_size : Z * Z
}.

(** A request body as the commented-out [fetch] would build it. *)
Record Request : Type := {
  image : string;
  oval_guide : Oval.t;
  session_id : string
}.

(** An [authenticationComplete] call on the host bridge. *)
Record HandlerCall : Type := {
  status : string;
  name : string;
  timestamp : Z
}.

(** The [state] object, the elements, and what left the page:
    [scheduled] holds the delay of every
    [setTimeout(() => requestAnimationFrame(processFrame), delay)],
    [fetched] every request sent to the service, [handlerCalls] every
    message to the host. *)
Record State : Type := {
  isRunning : bool;
  isProcessing : bool;
  currentState : AUTH_STATE;
  framesCollected : Z;
  stream : option MediaStream;
  lastProcessedTime : Z;
  lastUIUpdate : Z;
  ovalState : OvalState;
  sessionId : string;
  elements : Elements;
  scheduled : list Z;
  fetched : list Request;
  handlerCalls : list HandlerCall
}.

(** *** Assignments *)

Definition set_ovalBorder (v : classList) (e : Elements) : Elements :=
  {| ovalBorder := v; statusDisplay_classList := statusDisplay_classList e;
     statusDisplay_textContent := statusDisplay_textContent e;
     statusHint_textContent := statusHint_textContent e;
     canvas_size := canvas_size e |}.

Definition set_statusDisplay_classList (v : classList) (e : Elements) : Elements :=
  {| ovalBorder := ovalBorder e; statusDisplay_classList := v;
     statusDisplay_textContent := statusDisplay_textContent e;
     statusHint_textContent := statusHint_textContent e;
     canvas_size := canvas_size e |}.

Definition set_statusDisplay_textContent (v : string) (e : Elements) : Elements :=
  {| ovalBorder := ovalBorder e;
     statusDisplay_classList := statusDisplay_classList e;
     statusDisplay_textContent := v;
     statusHint_textContent := statusHint_textContent e;
     canvas_size := canvas_size e |}.

Definition set_statusHint_textContent (v : string) (e : Elements) : Elements :=
  {| ovalBorder := ovalBorder e;
     statusDisplay_classList := statusDisplay_classList e;
     statusDisplay_textContent := statusDisplay_textContent e;
     statusHint_textContent := v; canvas_size := canvas_size e |}.

Definition set_canvas_size (v : Z * Z) (e : Elements) : Elements :=
  {| ovalBorder := ovalBorder e;
     statusDisplay_classList := statusDisplay_classList e;
     statusDisplay_textContent := statusDisplay_textContent e;
     statusHint_textContent := statusHint_textContent e; canvas_size := v |}.

Definition set_isRunning (v : bool) (s : State) : State :=
  {| isRunning := v; isProcessing := isProcessing s;
     currentState := currentState s; framesCollected := framesCollected s;
     stream := stream s; lastProcessedTime := lastProcessedTime s;
     lastUIUpdate := lastUIUpdate s; ovalState := ovalState s;
     sessionId := sessionId s; elements := elements s;
     scheduled := scheduled s; fetched := fetched s;
     handlerCalls := handlerCalls s |}.

Definition set_isProcessing (v : bool) (s : State) : State :=
  {| isRunning := isRunning s; isProcessing := v;
     currentState := currentState s; framesCollected := framesCollected s;
     stream := stream s; lastProcessedTime := lastProcessedTime s;
     lastUIUpdate := lastUIUpdate s; ovalState := ovalState s;
     sessionId := sessionId s; elements := elements s;
     scheduled := scheduled s; fetched := fetched s;
     handlerCalls := handlerCalls s |}.

Definition set_currentState (v : AUTH_STATE) (s : State) : State :=
  {| isRunning := isRunning s; isProcessing := isProcessing s;
     currentState := v; framesCollected := framesCollected s;
     stream := stream s; lastProcessedTime := lastProcessedTime s;
     lastUIUpdate := lastUIUpdate s; ovalState := ovalState s;
     sessionId := sessionId s; elements := elements s;
     scheduled := scheduled s; fetched := fetched s;
     handlerCalls := handlerCalls s |}.

Definition set_framesCollected (v : Z) (s : State) : State :=
  {| isRunning := isRunning s; isProcessing := isProcessing s;
     currentState := currentState s; framesCollected := v;
     stream := stream s; lastProcessedTime := lastProcessedTime s;
     lastUIUpdate := lastUIUpdate s; ovalState := ovalState s;
     sessionId := sessionId s; elements := elements s;
     scheduled := scheduled s; fetched := fetched s;
     handlerCalls := handlerCalls s |}.

Definition set_stream (v : option MediaStream) (s : State) : State :=
  {| isRunning := isRunning s; isProcessing := isProcessing s;
     currentState := currentState s; framesCollected := framesCollected s;
     stream := v; lastProcessedTime := lastProcessedTime s;
     lastUIUpdate := lastUIUpdate s; ovalState := ovalState s;
     sessionId := sessionId s; elements := elements s;
     scheduled := scheduled s; fetched := fetched s;
     handlerCalls := handlerCalls s |}.

Definition set_lastProcessedTime (v : Z) (s : State) : State :=
  {| isRunning := isRunning s; isProcessing := isProcessing s;
     currentState := currentState s; framesCollected := framesCollected s;
     stream := stream s; lastProcessedTime := v;
     lastUIUpdate := lastUIUpdate s; ovalState := ovalState s;
     sessionId := sessionId s; elements := elements s;
     scheduled := scheduled s; fetched := fetched s;
     handlerCalls := handlerCalls s |}.

Definition set_lastUIUpdate (v : Z) (s : State) : State :=
  {| isRunning := isRunning s; isProcessing := isProcessing s;
     currentState := currentState s; framesCollected := framesCollected s;
     stream := stream s; lastProcessedTime := lastProcessedTime s;
     lastUIUpdate := v; ovalState := ovalState s; sessionId := sessionId s;
     elements := elements s; scheduled := scheduled s; fetched := fetched s;
     handlerCalls := handlerCalls s |}.

Definition set_ovalState (v : OvalState) (s : State) : State :=
  {| isRunning := isRunning s; isProcessing := isProcessing s;
     currentState := currentState s; framesCollected := framesCollected s;
     stream := stream s; lastProcessedTime := lastProcessedTime s;
     lastUIUpdate := lastUIUpdate s; ovalState := v;
     sessionId := sessionId s; elements := elements s;
     scheduled := scheduled s; fetched := fetched s;
     handlerCalls := handlerCalls s |}.

Definition set_sessionId (v : string) (s : State) : State :=
  {| isRunning := isRunning s; isProcessing := isProcessing s;
     currentState := currentState s; framesCollected := framesCollected s;
     stream := stream s; lastProcessedTime := lastProcessedTime s;
     lastUIUpdate := lastUIUpdate s; ovalState := ovalState s;
     sessionId := v; elements := elements s; scheduled := scheduled s;
     fetched := fetched s; handlerCalls := handlerCalls s |}.

Definition set_elements (v : Elements) (s : State) : State :=
  {| isRunning := isRunning s; isProcessing := isProcessing s;
     currentState := currentState s; framesCollected := framesCollected s;
     stream := stream s; lastProcessedTime := lastProcessedTime s;
     lastUIUpdate := lastUIUpdate s; ovalState := ovalState s;
     sessionId := sessionId s; elements := v; scheduled := scheduled s;
     fetched := fetched s; handlerCalls := handlerCalls s |}.

Definition set_scheduled (v : list Z) (s : State) : State :=
  {| isRunning := isRunning s; isProcessing := isProcessing s;
     currentState := currentState s; framesCollected := framesCollected s;
     stream := stream s; lastProcessedTime := lastProcessedTime s;
     lastUIUpdate := lastUIUpdate s; ovalState := ovalState s;
     sessionId := sessionId s; elements := elements s; scheduled := v;
     fetched := fetched s; handlerCalls := handlerCalls s |}.

Definition set_fetched (v : list Request) (s : State) : State :=
  {| isRunning := isRunning s; isProcessing := isProcessing s;
     currentState := currentState s; framesCollected := framesCollected s;
     stream := stream s; lastProcessedTime := lastProcessedTime s;
     lastUIUpdate := lastUIUpdate s; ovalState := ovalState s;
     sessionId := sessionId s; elements := elements s;
     scheduled := scheduled s; fetched := v;
     handlerCalls := handlerCalls s |}.

Definition set_handlerCalls (v : list HandlerCall) (s : State) : State :=
  {| isRunning := isRunning s; isProcessing := isProcessing s;
     currentState := currentState s; framesCollected := framesCollected s;
     stream := stream s; lastProcessedTime := lastProcessedTime s;
     lastUIUpdate := lastUIUpdate s; ovalState := ovalState s;
     sessionId := sessionId s; elements := elements s;
     scheduled := scheduled s; fetched := fetched s; handlerCalls := v |}.

Definition on_elements (f : Elements -> Elements) (s : State) : State :=
  set_elements (f (elements s)) s.

(** *** [updateUI] *)

(** [updateUI] up to its first wait: the two guards and the stamp.  [None]
    is the early [return]. *)
Definition updateUI_enter (now : Z) (s : State) : option State :=
  if AUTH_STATE_eqb (currentState s) AUTHENTICATED then None
  else if now - lastUIUpdate s <? 300 then None
  else Some (set_lastUIUpdate now s).

(** From [state.ovalState.transitioning = true] to the 50 ms wait. *)
Definition updateUI_begin (s : State) : State :=
  s |> set_ovalState {| current := current (ovalState s); transitioning := true;
                        lastUpdate := lastUpdate (ovalState s) |}
    |> on_elements (fun e => e
         |> set_ovalBorder
              (classList_remove_all
                 ["analyzing"; "success"; "no-face"; "detected"; "error"] (ovalBorder e))
         |> set_statusDisplay_classList
              (classList_remove_all
                 ["analyzing"; "success"; "error"; "no-face"; "visible"]
                 (statusDisplay_classList e))).

(** The [switch], the assignments after it, and the [finally]. *)
Definition updateUI_finish (now : Z) (newState : AUTH_STATE) (message hint : string)
  (s : State) : State :=
  let '(newOvalState, statusClasses) :=
    match newState with
    | ANALYZING => ("analyzing", ["analyzing"; "visible"])
    | AUTHENTICATED => ("success", ["success"; "visible"])
    | ERROR => ("error", ["error"; "visible"])
    | WAITING =>
        ((if includes "Processing" message then "detected" else "no-face"), ["visible"])
    end in
  s |> on_elements (fun e => e
         |> set_ovalBorder (classList_add newOvalState (ovalBorder e))
         |> set_statusDisplay_classList
              (fold_left (fun l c => classList_add c l) statusClasses
                 (statusDisplay_classList e))
         |> set_statusDisplay_textContent (str_or message "Position your face in the oval")
         |> set_statusHint_textContent (str_or hint ""))
    |> set_currentState newState
    |> set_ovalState {| current := newOvalState; transitioning := false;
                        lastUpdate := now |}.

(** A call of [updateUI] with nothing running between its pieces: it does
    not find another call in its transition, and no other handler runs during
    its two waits.  The pieces themselves, and the calls that wait, are in
    [EventLoop] below. *)
Definition updateUI (now : Z) (newState : AUTH_STATE) (message hint : string)
  (s : State) : State :=
  match updateUI_enter now s with
  | None => s
  | Some s => s |> updateUI_begin |> updateUI_finish now newState message hint
  end.

(** *** Position evaluation *)

(** [Math.PI], the double nearest to pi. *)
Definition Math_PI : Q := 884279719003555 # 281474976710656.

Record PositionCheck : Type := {
  isValid : bool;
  message : string
}.

Definition type_error : string := "TypeError: Cannot read properties of undefined".

(** [calculateHeadSizeRatio]. *)
Definition calculateHeadSizeRatio (ovalData : JsValue Oval.t)
  (faceRect : JsValue FaceRect.t) : Outcome JsNumber.t :=
  match faceRect with
  | js_undefined | js_null => Returned 0%Q
  | js_object f =>
      match ovalData with
      | js_object o =>
          let ow := JsNumber.of_Z (Oval.width o) in
          let oh := JsNumber.of_Z (Oval.height o) in
          let ovalArea :=
            JsNumber.mul (JsNumber.mul Math_PI (JsNumber.div ow 2)) (JsNumber.div oh 2) in
          let faceArea := JsNumber.mul (FaceRect.width f) (FaceRect.height f) in
          Returned (JsNumber.div faceArea ovalArea)
      | _ => Thrown type_error
      end
  end.

(** [checkFacePosition]. *)
Definition checkFacePosition (ovalData : JsValue Oval.t)
  (faceRect : JsValue FaceRect.t) : Outcome PositionCheck :=
  match faceRect with
  | js_undefined | js_null =>
      Returned {| isValid := false; message := "No face detected" |}
  | js_object f =>
      match ovalData with
      | js_object o =>
          let ow := JsNumber.of_Z (Oval.width o) in
          let oh := JsNumber.of_Z (Oval.height o) in
          let ovalCenterX := JsNumber.add (JsNumber.of_Z (Oval.x o)) (JsNumber.div ow 2) in
          let ovalCenterY := JsNumber.add (JsNumber.of_Z (Oval.y o)) (JsNumber.div oh 2) in
          let faceCenterX := JsNumber.add (FaceRect.x f) (JsNumber.div (FaceRect.width f) 2) in
          let faceCenterY := JsNumber.add (FaceRect.y f) (JsNumber.div (FaceRect.height f) 2) in
          let xDistancePercent :=
            JsNumber.mul
              (JsNumber.div (JsNumber.abs (JsNumber.sub faceCenterX ovalCenterX))
                            (JsNumber.div ow 2)) 100 in
          let yDistancePercent :=
            JsNumber.mul
              (JsNumber.div (JsNumber.abs (JsNumber.sub faceCenterY ovalCenterY))
                            (JsNumber.div oh 2)) 100 in
          let ovalArea :=
            JsNumber.mul (JsNumber.mul Math_PI (JsNumber.div ow 2)) (JsNumber.div oh 2) in
          let faceArea := JsNumber.mul (FaceRect.width f) (FaceRect.height f) in
          let areaRatio := JsNumber.div faceArea ovalArea in
          let maxDistancePercent : JsNumber.t := 50%Q in
          let minAreaRatio : JsNumber.t := (15 # 100)%Q in
          let maxAreaRatio : JsNumber.t := (85 # 100)%Q in
          if JsNumber.gt xDistancePercent maxDistancePercent then
            Returned {| isValid := false;
                        message := String.append "Move your face "
                          (if JsNumber.lt faceCenterX ovalCenterX then "right" else "left") |}
          else if JsNumber.gt yDistancePercent maxDistancePercent then
            Returned {| isValid := false;
                        message := String.append "Move your face "
                          (if JsNumber.lt faceCenterY ovalCenterY then "down" else "up") |}
          else if JsNumber.lt areaRatio minAreaRatio then
            Returned {| isValid := false; message := "Move closer to the camera" |}
          else if JsNumber.gt areaRatio maxAreaRatio then
            Returned {| isValid := false; message := "Move back from the camera" |}
          else
            Returned {| isValid := true; message := "Face position is good" |}
      | _ => Thrown type_error
      end
  end.

(** *** [captureFrame] *)

(** What one cycle reads from the page. *)
Record Env : Type := {
  videoWidth : Z;
  videoHeight : Z;
  videoRect : DOMRect.t;
  ovalRect : DOMRect.t;
  innerWidth : Z;
  innerHeight : Z;
  drawImage_throws : option string;
  dataUrl : string                     (* result of [canvas.toDataURL] *)
}.

Record Frame : Type := {
  imageData : string;
  frame_ovalData : Oval.t
}.

(** The geometry of [captureFrame]: [ovalData], with exact fractions as in
    [Part000.ovalData]. *)
Definition ovalData (env : Env) : Oval.t :=
  let screenWidth := inject_Z (innerWidth env) in
  let screenHeight := inject_Z (innerHeight env) in
  let screenAspectRatio := (screenWidth / screenHeight)%Q in
  let basePadding :=
    if Z.min (innerWidth env) (innerHeight env) <? 768 then (5 # 100)%Q else (1 # 10)%Q in
  let dynamicPadding :=
    (basePadding * (if Qlt_bool 1 screenAspectRatio then 1 else screenAspectRatio))%Q in
  let scaleX := (inject_Z (videoWidth env) / DOMRect.width (videoRect env))%Q in
  let scaleY := (inject_Z (videoHeight env) / DOMRect.height (videoRect env))%Q in
  {| Oval.x := round_half_up
                 ((DOMRect.left (ovalRect env) - DOMRect.left (videoRect env)) * scaleX)%Q;
     Oval.y := round_half_up
                 ((DOMRect.top (ovalRect env) - DOMRect.top (videoRect env)) * scaleY)%Q;
     Oval.width := round_half_up
                 (DOMRect.width (ovalRect env) * scaleX * (1 + dynamicPadding))%Q;
     Oval.height := round_half_up
                 (DOMRect.height (ovalRect env) * scaleY * (1 + dynamicPadding))%Q |}.

Definition captureFrame (env : Env) (s : State) : State * Outcome Frame :=
  if (videoWidth env =? 0) || (videoHeight env =? 0) then
    (s, Thrown "Video dimensions not available")
  else
    let s := on_elements (set_canvas_size (videoWidth env, videoHeight env)) s in
    match drawImage_throws env with
    | Some msg => (s, Thrown msg)
    | None => (s, Returned {| imageData := dataUrl env; frame_ovalData := ovalData env |})
    end.

(** [captureFrame] throws: the video has no intrinsic size or drawing
    fails.  The encoder's output is not looked at. *)
Definition capture_throws (env : Env) : bool :=
  (videoWidth env =? 0) || (videoHeight env =? 0)
  || match drawImage_throws env with Some _ => true | None => false end.

(** *** [processFrame] *)

(** One call of [processFrame].  After a successful capture the body of
    the [try] is at its end: everything that follows in the source is
    commented out. *)
Definition processFrame (env : Env) (now : Z) (s : State) : State :=
  if negb (isRunning s) || isProcessing s then s
  else
    let s := set_isProcessing true s in
    if now - lastProcessedTime s <? MIN_FRAME_INTERVAL then
      s |> set_isProcessing false
        |> when (isRunning s) (fun s => set_scheduled (scheduled s ++ [MIN_FRAME_INTERVAL]) s)
    else
      match captureFrame env s with
      | (s, Returned _) => s
      | (s, Thrown _) =>
          s |> set_framesCollected 0
            |> updateUI now ERROR "Error processing frame" ""
            |> set_isProcessing false
            |> (fun s =>
                  when (isRunning s && negb (AUTH_STATE_eqb (currentState s) AUTHENTICATED))
                    (fun s => set_scheduled (scheduled s ++ [RETRY_DELAY]) s) s)
      end.

(** *** [handleSuccessfulAuthentication] *)

(** [name.split(' ')[0]]. *)
Fixpoint first_word (name : string) : string :=
  match name with
  | EmptyString => EmptyString
  | String c rest => if Ascii.eqb c " "%char then EmptyString else String c (first_word rest)
  end.

(** [handleSuccessfulAuthentication] from the return of the awaited
    [updateUI] on (lines 604-616); [now] is the clock read there. *)
Definition handleSuccessfulAuthentication_resume (has_flutter_inappwebview : bool)
  (now : Z) (name : string) (s : State) : State :=
  s |> (fun s =>
          match stream s with
          | Some tracks => set_stream (Some (map stop tracks)) s
          | None => s
          end)
    |> when has_flutter_inappwebview
         (fun s => set_handlerCalls
                     (handlerCalls s ++ [{| status := "success"; name := name;
                                            timestamp := now |}]) s).

(** The call in one piece.  [now] is the clock [updateUI] reads, [later] the
    clock read for the message to the host once [updateUI] has returned: the
    same instant when [updateUI] returns at one of its guards, at least
    350 ms after [now] when it repaints. *)
Definition handleSuccessfulAuthentication (has_flutter_inappwebview : bool)
  (now later : Z) (name : string) (s : State) : State :=
  if String.eqb name "" then s
  else
    s |> set_isRunning false
      |> set_isProcessing false
      |> updateUI now AUTHENTICATED
           (String.append "Welcome, " (String.append (first_word name) "!")) ""
      |> handleSuccessfulAuthentication_resume has_flutter_inappwebview later name.

(** *** Session start *)

(** [startCamera] from the moment the stream is there. *)
Definition startCamera_ready (stream : MediaStream) (sessionId : string) (env : Env)
  (now now' : Z) (s : State) : State :=
  s |> set_stream (Some stream)
    |> set_isRunning true
    |> set_sessionId sessionId
    |> updateUI now WAITING "Position your face in the oval" ""
    |> processFrame env now'.

(** The [state] object as the script creates it. *)
Definition initial_state : State :=
  {| isRunning := false; isProcessing := false; currentState := WAITING;
     framesCollected := 0; stream := None; lastProcessedTime := 0;
     lastUIUpdate := 0;
     ovalState := {| current := "no-face"; transitioning := false; lastUpdate := 0 |};
     sessionId := "";
     elements := {| ovalBorder := ["oval-border"]; statusDisplay_classList := ["status"];
                    statusDisplay_textContent := ""; statusHint_textContent := "";
                    canvas_size := (300, 150) |};
     scheduled := []; fetched := []; handlerCalls := [] |}.

(** *** What [updateUI] paints *)

(** The classes [updateUI] removes from the oval and from the status line
    before it paints. *)
Definition oval_state_classes : list string :=
  ["analyzing"; "success"; "no-face"; "detected"; "error"].
Definition status_state_classes : list string :=
  ["analyzing"; "success"; "error"; "no-face"; "visible"].

(** The [switch] of [updateUI]: the class of the oval and the classes of
    the status line for a state and a message. *)
Definition painted (newState : AUTH_STATE) (message : string) : string * list string :=
  match newState with
  | ANALYZING => ("analyzing", ["analyzing"; "visible"])
  | AUTHENTICATED => ("success", ["success"; "visible"])
  | ERROR => ("error", ["error"; "visible"])
  | WAITING =>
      ((if includes "Processing" message then "detected" else "no-face"), ["visible"])
  end.

(** *** [debug.log] *)

(** [while (debugPanel.children.length > 5) removeChild(lastChild)]. *)
Function trim_panel (children : list string) {measure List.length children}
  : list string :=
  if Nat.ltb 5 (List.length children) then trim_panel (removelast children)
  else children.
Proof.
  intros children H. apply Nat.ltb_lt in H.
  rewrite removelast_firstn_len, length_firstn. lia.
Defined.

(** [CONFIG.DEBUG]. *)
Definition DEBUG : bool := true.

(** The children of the debug panel after [debug.log(message, data)]; the
    panel is [None] while the element is not in the page, and [data] is what
    [JSON.stringify] makes of the second argument ([None] for a falsy one). *)
Definition debug_log (message : string) (data : option string)
  (debugPanel : option (list string)) : option (list string) :=
  if negb DEBUG then debugPanel
  else
    match debugPanel with
    | None => None
    | Some children =>
        let logEntry :=
          String.append message
            (String.append " " (match data with Some json => json | None => "" end)) in
        Some (trim_panel (logEntry :: children))
    end.

(** *** [initializeElements] *)

(** Which of the elements the page has, and whether the canvas gives a 2d
    context. *)
Record Page : Type := {
  has_video : bool;
  has_canvas : bool;
  has_status : bool;
  has_statusHint : bool;
  has_ovalBorder : bool;
  has_context : bool
}.

(** [Object.entries(elements)] after the look-ups: [ctx] is still [null]. *)
Definition entries (p : Page) : list (string * bool) :=
  [("video", has_video p); ("canvas", has_canvas p); ("ctx", false);
   ("statusDisplay", has_status p); ("statusHint", has_statusHint p);
   ("ovalBorder", has_ovalBorder p)].

Definition missingElements (p : Page) : list string :=
  map fst (filter (fun e => negb (snd e) && negb (String.eqb (fst e) "ctx")) (entries p)).

(** The value [initializeElements] returns, and the message it hands to
    [showError] when it fails. *)
Definition initializeElements (p : Page) : bool * option string :=
  let thrown :=
    if (0 <? List.length (missingElements p))%nat then
      Some (String.append "Missing required elements: "
              (String.concat ", " (missingElements p)))
    else if negb (has_context p) then Some "Failed to get canvas context"
    else None in
  match thrown with
  | None => (true, None)
  | Some msg =>
      (false, Some (String.append "Initialization Error: "
                      (String.append msg ". Please refresh the page.")))
  end.

(** *** The entry points as calls *)

Inductive Call : Type :=
| UpdateUI (now : Z) (newState : AUTH_STATE) (message hint : string)
| ProcessFrame (env : Env) (now : Z)
| SuccessfulAuthentication (has_flutter_inappwebview : bool) (now later : Z)
    (name : string).

Definition call (c : Call) (s : State) : State :=
  match c with
  | UpdateUI now newState message hint => updateUI now newState message hint s
  | ProcessFrame env now => processFrame env now s
  | SuccessfulAuthentication flutter now later name =>
      handleSuccessfulAuthentication flutter now later name s
  end.

Definition calls (cs : list Call) (s : State) : State :=
  fold_left (fun s c => call c s) cs s.

(** What the presenter shows. *)
Definition shown (s : State) : classList * classList * string * string :=
  (ovalBorder (elements s), statusDisplay_classList (elements s),
   statusDisplay_textContent (elements s), statusHint_textContent (elements s)).

(** *** The waits of [updateUI] *)

(** [updateUI] after its 50 ms wait: the [switch] and the assignments that
    follow it (lines 241-275).  [now] is the constant of line 221. *)
Definition updateUI_paint (now : Z) (newState : AUTH_STATE) (message hint : string)
  (s : State) : State :=
  let '(newOvalState, statusClasses) := painted newState message in
  s |> on_elements (fun e => e
         |> set_ovalBorder (classList_add newOvalState (ovalBorder e))
         |> set_statusDisplay_classList
              (fold_left (fun l c => classList_add c l) statusClasses
                 (statusDisplay_classList e))
         |> set_statusDisplay_textContent (str_or message "Position your face in the oval")
         |> set_statusHint_textContent (str_or hint ""))
    |> set_currentState newState
    |> set_ovalState {| current := newOvalState;
                        transitioning := transitioning (ovalState s);
                        lastUpdate := now |}.

(** The [finally] of [updateUI] (line 279), after its 300 ms wait. *)
Definition updateUI_finally (s : State) : State :=
  set_ovalState {| current := current (ovalState s); transitioning := false;
                   lastUpdate := lastUpdate (ovalState s) |} s.

(** Who awaits a call of [updateUI], that is, what runs when it returns:
    nothing more ([updateUI] called for itself, or by [startCamera], whose
    next statement is the call of [processFrame]), the rest of
    [handleSuccessfulAuthentication], or the rest of the [catch] block of
    [processFrame]. *)
Inductive Caller : Type :=
| Detached
| Greeting (has_flutter_inappwebview : bool) (name : string)
| CaptureFailed.

(** [processFrame] from the return of the [updateUI] awaited in its
    [catch] block on (lines 583-587). *)
Definition processFrame_resume (s : State) : State :=
  s |> set_isProcessing false
    |> (fun s =>
          when (isRunning s && negb (AUTH_STATE_eqb (currentState s) AUTHENTICATED))
            (fun s => set_scheduled (scheduled s ++ [RETRY_DELAY]) s) s).

(** What runs when the awaited [updateUI] has returned; [now] is the clock
    then. *)
Definition returned (caller : Caller) (now : Z) (s : State) : State :=
  match caller with
  | Detached => s
  | Greeting flutter name => handleSuccessfulAuthentication_resume flutter now name s
  | CaptureFailed => processFrame_resume s
  end.

(** A call of [updateUI] at one of its three waits, with what it has yet to
    do: at line 228 (another call was in its transition), at line 239
    (classes removed, not yet painted), at line 277 (painted). *)
Inductive Suspended : Type :=
| Deferred (now : Z) (newState : AUTH_STATE) (message hint : string) (caller : Caller)
| Stripped (now : Z) (newState : AUTH_STATE) (message hint : string) (caller : Caller)
| Painted (caller : Caller).

(** The call and the time its timer is due. *)
Record Waiting : Type := {
  due : Z;
  suspended : Suspended
}.

(** [updateUI] from its call to its first wait or, when it returns at a
    guard, to the end of what its caller does then.  [later] is the clock the
    caller reads in that case. *)
Definition updateUI_call (now : Z) (newState : AUTH_STATE) (message hint : string)
  (caller : Caller) (later : Z) (s : State) : State * option Waiting :=
  match updateUI_enter now s with
  | None => (returned caller later s, None)
  | Some s =>
      if transitioning (ovalState s) then
        (s, Some {| due := now + 300;
                    suspended := Deferred now newState message hint caller |})
      else
        (updateUI_begin s,
         Some {| due := now + 50;
                 suspended := Stripped now newState message hint caller |})
  end.

(** The call goes on when its timer has fired, at time [now]. *)
Definition resume (w : Suspended) (now : Z) (s : State) : State * option Waiting :=
  match w with
  | Deferred now0 newState message hint caller =>
      (updateUI_begin s,
       Some {| due := now + 50;
               suspended := Stripped now0 newState message hint caller |})
  | Stripped now0 newState message hint caller =>
      (updateUI_paint now0 newState message hint s,
       Some {| due := now + 300; suspended := Painted caller |})
  | Painted caller => (returned caller now (updateUI_finally s), None)
  end.

(** [processFrame] up to the wait of the [updateUI] of its [catch] block,
    or to its end. *)
Definition processFrame_call (env : Env) (now : Z) (s : State) : State * option Waiting :=
  if negb (isRunning s) || isProcessing s then (s, None)
  else
    let s := set_isProcessing true s in
    if now - lastProcessedTime s <? MIN_FRAME_INTERVAL then
      (s |> set_isProcessing false
         |> when (isRunning s) (fun s => set_scheduled (scheduled s ++ [MIN_FRAME_INTERVAL]) s),
       None)
    else
      match captureFrame env s with
      | (s, Returned _) => (s, None)
      | (s, Thrown _) =>
          s |> set_framesCollected 0
            |> updateUI_call now ERROR "Error processing frame" "" CaptureFailed now
      end.

(** [handleSuccessfulAuthentication] up to the wait of its [updateUI], or
    to its end. *)
Definition handleSuccessfulAuthentication_call (has_flutter_inappwebview : bool)
  (now later : Z) (name : string) (s : State) : State * option Waiting :=
  if String.eqb name "" then (s, None)
  else
    s |> set_isRunning false
      |> set_isProcessing false
      |> updateUI_call now AUTHENTICATED
           (String.append "Welcome, " (String.append (first_word name) "!")) ""
           (Greeting has_flutter_inappwebview name) later.

Definition start (c : Call) (s : State) : State * option Waiting :=
  match c with
  | UpdateUI now newState message hint =>
      updateUI_call now newState message hint Detached now s
  | ProcessFrame env now => processFrame_call env now s
  | SuccessfulAuthentication flutter now later name =>
      handleSuccessfulAuthentication_call flutter now later name s
  end.

(** The [state] object and the page, and the calls of [updateUI] that wait
    for a timer. *)
Record EventLoop : Type := {
  state : State;
  waiting : list Waiting
}.

(** One turn of the event loop: an entry point is called, or the timer of
    the [i]-th waiting call fires at time [now]. *)
Inductive Turn : Type :=
| Calls (c : Call)
| Wakes (i : nat) (now : Z).

Definition option_list {A : Type} (o : option A) : list A :=
  match o with
  | Some a => [a]
  | None => []
  end.

(** A timer does not fire before it is due; the call that goes on keeps its
    place among the waiting ones. *)
Definition turn (t : Turn) (l : EventLoop) : EventLoop :=
  match t with
  | Calls c =>
      let '(s, w) := start c (state l) in
      {| state := s; waiting := waiting l ++ option_list w |}
  | Wakes i now =>
      match nth_error (waiting l) i with
      | None => l
      | Some w =>
          if due w <=? now then
            let '(s, w') := resume (suspended w) now (state l) in
            {| state := s;
               waiting := firstn i (waiting l) ++ option_list w' ++ skipn (S i) (waiting l) |}
          else l
      end
  end.

Definition turns (ts : list Turn) (l : EventLoop) : EventLoop :=
  fold_left (fun l t => turn t l) ts l.

(** The event loops a sequence of turns leads through, the first one
    first. *)
Fixpoint visited (ts : list Turn) (l : EventLoop) : list EventLoop :=
  match ts with
  | [] => [l]
  | t :: rest => l :: visited rest (turn t l)
  end.

(** The state classes the oval carries. *)
Definition state_classes (l : classList) : list string :=
  filter (fun k => existsb (String.eqb k) oval_state_classes) l.

(** The classes of the oval that [updateUI] never names. *)
Definition other_classes (l : classList) : list string :=
  filter (fun k => negb (existsb (String.eqb k) oval_state_classes)) l.

(** The call is between the removal of the classes and its paint. *)
Definition in_transition (w : Waiting) : bool :=
  match suspended w with
  | Stripped _ _ _ _ _ => true
  | Deferred _ _ _ _ _ | Painted _ => false
  end.

(** No two calls are between removal and paint at the same time. *)
Definition one_transition_at_a_time (l : EventLoop) : bool :=
  (List.length (filter in_transition (waiting l)) <=? 1)%nat.

(** The oval carries no state class while a call is between removal and
    paint, and exactly the class recorded in [state.ovalState.current]
    otherwise. *)
Definition oval_shows_current (l : EventLoop) : Prop :=
  state_classes (ovalBorder (elements (state l))) =
    if existsb in_transition (waiting l) then []
    else [current (ovalState (state l))].

End App.

(** ** Sessions used as examples *)

Module Session.
Import Part000.

(** A live verdict with the given confidence, and a verdict without a face. *)
Definition Live (c : Q) : Result :=
  {| error := ""; is_live := true; message := "Face detected";
     liveness_message := ""; confidence := c; recognized_name := "";
     processed_image := "" |}.

Definition NoFace : Result :=
  {| error := ""; is_live := false; message := "No face detected";
     liveness_message := ""; confidence := 0; recognized_name := "";
     processed_image := "" |}.

(** A result that carries a live verdict. *)
Definition live_result (r : Result) : Prop := error r = "" /\ verdict_live r = true.

(** A 640x480 camera shown at its own size, the guide centred on it. *)
Definition env0 : Env :=
  {| video_ready := true; videoWidth := 640; videoHeight := 480;
     videoRect := DOMRect.make 0 0 640 480;
     ovalRect := DOMRect.make 185 60 270 360;
     drawImage_throws := false;
     dataUrl := "data:image/jpeg;base64,AAAA" |}.

Definition camera : MediaStream := [{| kind := "video"; readyState := live |}].

Definition t0 : Z := 1700000000000.

(** The states a verdict sequence leads through, the start state first. *)
Fixpoint feed (cfg : Config) (inputs : list (Z * Result)) (s : State) : list State :=
  match inputs with
  | [] => [s]
  | (now, result) :: rest => s :: feed cfg rest (updateFacePosition cfg now result s)
  end.

(** What the three-live-frames scenario expects of the states it visits. *)
Definition reaches_authenticated_in_three (visited : list State) : Prop :=
  map phase visited = [Monitoring; Analyzing; Analyzing; Authenticated]
  /\ liveFrameCount (last visited (initial_state 0)) = 3.

(** Each verdict arrives at least [STATUS_DEBOUNCE_TIME / 2] after the one
    before it, the first one after the time stamp [since]. *)
Fixpoint spaced (cfg : Config) (since : Z) (times : list Z) : Prop :=
  match times with
  | [] => True
  | t :: rest => STATUS_DEBOUNCE_TIME cfg <= 2 * (t - since) /\ spaced cfg t rest
  end.

(** The states visited by [n] verdicts that authenticate with the last one:
    the analyzing phase in between, the counter one higher at each state. *)
Definition authenticates_with_the_last (n : nat) (visited : list State) : Prop :=
  map phase visited = Monitoring :: repeat Analyzing (n - 1) ++ [Authenticated]
  /\ map liveFrameCount visited = map Z.of_nat (seq 0 (S n)).

(** The session is started; its first request is on its way. *)
Definition started (cfg : Config) : State :=
  run cfg [CameraReady camera env0 t0] (initial_state 4).

(** Three capture cycles of the script, 100 ms for each answer and
    [FRAME_INTERVAL] between cycles: the verdicts arrive at +100, +400 and
    +700 ms. *)
Definition cycle1 : State :=
  run source_config [FetchSettles (Json (Live (8 # 10))) (t0 + 100)]
    (started source_config).
Definition cycle2 : State :=
  run source_config [TimerFires 2 env0 (t0 + 300);
                     FetchSettles (Json (Live (7 # 10))) (t0 + 400)] cycle1.
Definition cycle3 : State :=
  run source_config [TimerFires 3 env0 (t0 + 600);
                     FetchSettles (Json (Live (9 # 10))) (t0 + 700)] cycle2.

(** The three verdicts of the scenario, 500 ms apart, and five of them. *)
Definition three_spaced : list (Z * Result) :=
  [(t0 + 100, Live (8 # 10)); (t0 + 600, Live (7 # 10)); (t0 + 1100, Live (9 # 10))].

Definition five_spaced : list (Z * Result) :=
  three_spaced ++ [(t0 + 1600, Live (8 # 10)); (t0 + 2100, Live (9 # 10))].

(** Two live frames, then a frame without a face 200 ms later. *)
Definition two_live_then_no_face : list (Z * Result) :=
  [(t0 + 100, Live (8 # 10)); (t0 + 700, Live (9 # 10)); (t0 + 900, NoFace)].

(** A session whose first request is answered only after everything else:
    the session times out, the user retries, five live frames authenticate,
    and then the first request's answer arrives. *)
Definition late_answer_events : list Event :=
  [CameraReady camera env0 t0;
   TimerFires 1 env0 (t0 + 10000);
   RetryClicked env0 (t0 + 12000);
   FetchSettles (Json (Live (8 # 10))) (t0 + 12100);
   TimerFires 3 env0 (t0 + 12300);
   FetchSettles (Json (Live (8 # 10))) (t0 + 12700);
   TimerFires 4 env0 (t0 + 12900);
   FetchSettles (Json (Live (8 # 10))) (t0 + 13300);
   TimerFires 5 env0 (t0 + 13500);
   FetchSettles (Json (Live (8 # 10))) (t0 + 13900);
   TimerFires 6 env0 (t0 + 14100);
   FetchSettles (Json (Live (8 # 10))) (t0 + 14500)].

Definition authenticated_with_late_answer : State :=
  run source_config late_answer_events (initial_state 4).

(** No live verdict within the session time; a request is on its way when
    the session timer fires. *)
Definition timeout_events : list Event :=
  [CameraReady camera env0 t0;
   FetchSettles (Json NoFace) (t0 + 4800);
   TimerFires 2 env0 (t0 + 5000);
   TimerFires 1 env0 (t0 + 10000)].

Definition timed_out : State := run source_config timeout_events (initial_state 4).

(** A 480x502 portrait camera shown at its own size; the guide's box starts
    400 px from the left edge. *)
Definition portrait_vw : Z := 480.
Definition portrait_vh : Z := 502.
Definition portrait_videoRect : DOMRect.t := DOMRect.make 0 0 480 502.
Definition portrait_ovalRect : DOMRect.t := DOMRect.make 400 0 60 80.

(** The region lies within the video and is at most 85% of it. *)
Definition region_within (vw vh : Z) (r : Oval.t) : Prop :=
  0 <= Oval.x r /\ 0 <= Oval.y r
  /\ Oval.x r + Oval.width r <= vw /\ Oval.y r + Oval.height r <= vh
  /\ (inject_Z (Oval.width r) <= (85 # 100) * inject_Z vw)%Q
  /\ (inject_Z (Oval.height r) <= (85 # 100) * inject_Z vh)%Q.

(** A session in which five live verdicts, 600 ms apart, authenticate. *)
Definition plain_authentication_events : list Event :=
  [CameraReady camera env0 t0;
   FetchSettles (Json (Live (8 # 10))) (t0 + 400);
   TimerFires 2 env0 (t0 + 600);
   FetchSettles (Json (Live (8 # 10))) (t0 + 1000);
   TimerFires 3 env0 (t0 + 1200);
   FetchSettles (Json (Live (8 # 10))) (t0 + 1600);
   TimerFires 4 env0 (t0 + 1800);
   FetchSettles (Json (Live (8 # 10))) (t0 + 2200);
   TimerFires 5 env0 (t0 + 2400);
   FetchSettles (Json (Live (8 # 10))) (t0 + 2800)].

Definition plainly_authenticated : State :=
  run source_config plain_authentication_events (initial_state 4).

(** The same page for [app.js], on a 1280x720 window. *)
Definition app_env0 : App.Env :=
  {| App.videoWidth := 640; App.videoHeight := 480;
     App.videoRect := DOMRect.make 0 0 640 480;
     App.ovalRect := DOMRect.make 185 60 270 360;
     App.innerWidth := 1280; App.innerHeight := 720;
     App.drawImage_throws := None;
     App.dataUrl := "data:image/jpeg;base64,AAAA" |}.

(** The video has no intrinsic size yet. *)
Definition app_env_no_video : App.Env :=
  {| App.videoWidth := 0; App.videoHeight := 0;
     App.videoRect := DOMRect.make 0 0 640 480;
     App.ovalRect := DOMRect.make 185 60 270 360;
     App.innerWidth := 1280; App.innerHeight := 720;
     App.drawImage_throws := None;
     App.dataUrl := "data:," |}.

Definition env_no_video : Env :=
  {| video_ready := true; videoWidth := 0; videoHeight := 0;
     videoRect := DOMRect.make 0 0 640 480;
     ovalRect := DOMRect.make 185 60 270 360;
     drawImage_throws := false;
     dataUrl := "data:," |}.

(** [app.js] with the camera started and waiting for a cycle. *)
Definition app_waiting : App.State :=
  App.initial_state
    |> App.set_stream (Some camera)
    |> App.set_isRunning true
    |> App.set_sessionId "session_1700000000000_abc123def"
    |> App.updateUI t0 App.WAITING "Position your face in the oval" "".

(** [app.js] while it shows the analyzing phase. *)
Definition app_analyzing : App.State :=
  App.updateUI (t0 + 1000) App.ANALYZING "Verifying..." "Keep still (2/3)" app_waiting.

(** The event loop of [app.js] with no call of [updateUI] waiting. *)
Definition loop_waiting : App.EventLoop :=
  {| App.state := app_waiting; App.waiting := [] |}.

Definition loop_analyzing : App.EventLoop :=
  {| App.state := app_analyzing; App.waiting := [] |}.

(** A request for the analyzing phase, then the greeting 400 ms later; each
    timer fires when it is due. *)
Definition greeting_turns : list App.Turn :=
  [App.Calls (App.UpdateUI (t0 + 1000) App.ANALYZING "Verifying..." "Keep still (2/3)");
   App.Wakes 0 (t0 + 1050);
   App.Wakes 0 (t0 + 1350);
   App.Calls (App.SuccessfulAuthentication true (t0 + 1400) (t0 + 1400) "Ann Lee");
   App.Wakes 0 (t0 + 1450);
   App.Wakes 0 (t0 + 1750)].

(** Two calls in their transition at once.  A second request for the
    analyzing phase comes 300 ms after the first one, finds it in its
    transition and waits 300 ms; the greeting comes at the end of that wait,
    before the timer of the waiting call has fired, and removes the classes
    at once; then the waiting call removes them again, and both paint. *)
Definition overlapping_turns : list App.Turn :=
  [App.Calls (App.UpdateUI (t0 + 1000) App.ANALYZING "Verifying..." "Keep still (1/3)");
   App.Wakes 0 (t0 + 1050);
   App.Calls (App.UpdateUI (t0 + 1300) App.ANALYZING "Verifying..." "Keep still (2/3)");
   App.Wakes 0 (t0 + 1350);
   App.Calls (App.SuccessfulAuthentication true (t0 + 1600) (t0 + 1600) "Ann Lee");
   App.Wakes 0 (t0 + 1600);
   App.Wakes 1 (t0 + 1650);
   App.Wakes 0 (t0 + 1650);
   App.Wakes 1 (t0 + 1950);
   App.Wakes 0 (t0 + 1950)].

End Session.

(** * Properties *)

(** ** The state machine of [updateFacePosition] *)

Section UpdateFacePosition.
Import Part000 Session.

Variable cfg : Config.

(** Case analysis over the tests of [updateFacePosition]. *)
Ltac reduce := cbn -[Z.add Z.mul Z.sub Z.leb Z.min].

Ltac split_tests now result s :=
  unfold updateFacePosition, verdict_live, resetUI_inner, authenticate,
    updateProgress, notifyFlutter, on_dom, when;
  destruct (String.eqb (error result) "");
  destruct (is_live result);
  destruct (String.eqb (liveness_message result) multiple_faces);
  destruct (negb (String.eqb (processed_image result) ""));
  reduce; try reflexivity;
  destruct (STATUS_DEBOUNCE_TIME cfg <=? now - lastStatusUpdate s);
  reduce; try reflexivity;
  destruct (STATUS_DEBOUNCE_TIME cfg <=? 2 * (now - lastStatusUpdate s));
  reduce; try reflexivity;
  destruct (AUTH_STATE_eqb (currentState s) AUTHENTICATED);
  reduce; try reflexivity;
  destruct (REQUIRED_LIVE_FRAMES cfg <=? liveFrameCount s + 1);
  reduce; try reflexivity;
  destruct (authenticationLoop s); reflexivity.

(** The counter after one result, by cases on the script's own tests. *)
Lemma updateFacePosition_liveFrameCount (now : Z) (result : Result) (s : State) :
  liveFrameCount (updateFacePosition cfg now result s) =
    if negb (String.eqb (error result) "") then liveFrameCount s
    else if negb (verdict_live result) then
      if STATUS_DEBOUNCE_TIME cfg <=? now - lastStatusUpdate s then 0
      else liveFrameCount s
    else if (STATUS_DEBOUNCE_TIME cfg <=? 2 * (now - lastStatusUpdate s))
            && negb (AUTH_STATE_eqb (currentState s) AUTHENTICATED)
    then liveFrameCount s + 1
    else liveFrameCount s.
Proof.
  split_tests now result s.
Qed.

(** The only assignment to [currentState] is the one to [AUTHENTICATED]. *)
Lemma updateFacePosition_currentState (now : Z) (result : Result) (s : State) :
  currentState (updateFacePosition cfg now result s) =
    if String.eqb (error result) "" && verdict_live result
       && (STATUS_DEBOUNCE_TIME cfg <=? 2 * (now - lastStatusUpdate s))
       && negb (AUTH_STATE_eqb (currentState s) AUTHENTICATED)
       && (REQUIRED_LIVE_FRAMES cfg <=? liveFrameCount s + 1)
    then AUTHENTICATED
    else currentState s.
Proof.
  split_tests now result s.
Qed.

(** The time stamp moves exactly when a result is applied. *)
Lemma updateFacePosition_lastStatusUpdate (now : Z) (result : Result) (s : State) :
  lastStatusUpdate (updateFacePosition cfg now result s) =
    if negb (String.eqb (error result) "") then lastStatusUpdate s
    else if negb (verdict_live result) then
      if STATUS_DEBOUNCE_TIME cfg <=? now - lastStatusUpdate s then now
      else lastStatusUpdate s
    else if STATUS_DEBOUNCE_TIME cfg <=? 2 * (now - lastStatusUpdate s) then now
    else lastStatusUpdate s.
Proof.
  split_tests now result s.
Qed.

(** A live result that is applied below the threshold shows the analyzing
    phase. *)
Lemma updateFacePosition_analyzing (now : Z) (result : Result) (s : State) :
  error result = "" ->
  verdict_live result = true ->
  STATUS_DEBOUNCE_TIME cfg <= 2 * (now - lastStatusUpdate s) ->
  currentState s = MONITORING ->
  liveFrameCount s + 1 < REQUIRED_LIVE_FRAMES cfg ->
  phase (updateFacePosition cfg now result s) = Analyzing.
Proof.
  intros He Hv Hd Hc Hn.
  apply andb_true_iff in Hv as [Hl Hm]. apply negb_true_iff in Hm.
  apply Z.leb_le in Hd.
  assert (Hr : (REQUIRED_LIVE_FRAMES cfg <=? liveFrameCount s + 1) = false)
    by (apply Z.leb_gt; lia).
  unfold phase, updateFacePosition, when, on_dom, updateProgress.
  rewrite He, Hl, Hm. reduce. rewrite Hd. reduce. rewrite Hc. reduce.
  rewrite Hr.
  destruct (negb (String.eqb (processed_image result) "")); reduce;
    rewrite Hc; reflexivity.
Qed.

End UpdateFacePosition.

Section SessionClaims.
Import Part000 Session.

Lemma phase_Monitoring_currentState (s : State) :
  phase s = Monitoring -> currentState s = MONITORING.
Proof.
  unfold phase. destruct (currentState s); [reflexivity | discriminate | discriminate].
Qed.

(** One applied live result below the threshold: the counter moves by one,
    the time stamp is the result's time, and the script stays in
    [MONITORING] while showing the analyzing phase. *)
Lemma live_result_below_threshold (cfg : Config) (now : Z) (r : Result) (s : State) :
  live_result r ->
  STATUS_DEBOUNCE_TIME cfg <= 2 * (now - lastStatusUpdate s) ->
  currentState s = MONITORING ->
  liveFrameCount s + 1 < REQUIRED_LIVE_FRAMES cfg ->
  let s' := updateFacePosition cfg now r s in
  liveFrameCount s' = liveFrameCount s + 1
  /\ lastStatusUpdate s' = now
  /\ currentState s' = MONITORING
  /\ phase s' = Analyzing.
Proof.
  intros [He Hv] Hd Hc Hn s'. subst s'.
  rewrite updateFacePosition_liveFrameCount, updateFacePosition_lastStatusUpdate,
    updateFacePosition_currentState.
  rewrite He, Hv, Hc. cbn -[Z.mul Z.leb Z.add Z.sub].
  replace (STATUS_DEBOUNCE_TIME cfg <=? 2 * (now - lastStatusUpdate s)) with true
    by (symmetry; apply Z.leb_le; exact Hd).
  replace (REQUIRED_LIVE_FRAMES cfg <=? liveFrameCount s + 1) with false
    by (symmetry; apply Z.leb_gt; exact Hn).
  repeat split.
  apply updateFacePosition_analyzing; assumption.
Qed.

(** One applied live result that reaches the threshold authenticates. *)
Lemma live_result_at_threshold (cfg : Config) (now : Z) (r : Result) (s : State) :
  live_result r ->
  STATUS_DEBOUNCE_TIME cfg <= 2 * (now - lastStatusUpdate s) ->
  currentState s = MONITORING ->
  REQUIRED_LIVE_FRAMES cfg <= liveFrameCount s + 1 ->
  let s' := updateFacePosition cfg now r s in
  liveFrameCount s' = liveFrameCount s + 1 /\ phase s' = Authenticated.
Proof.
  intros [He Hv] Hd Hc Hn s'. subst s'. unfold phase.
  rewrite updateFacePosition_liveFrameCount, updateFacePosition_currentState.
  rewrite He, Hv, Hc. cbn -[Z.mul Z.leb Z.add Z.sub].
  replace (STATUS_DEBOUNCE_TIME cfg <=? 2 * (now - lastStatusUpdate s)) with true
    by (symmetry; apply Z.leb_le; exact Hd).
  replace (REQUIRED_LIVE_FRAMES cfg <=? liveFrameCount s + 1) with true
    by (symmetry; apply Z.leb_le; exact Hn).
  split; reflexivity.
Qed.

(** A live result that comes less than [STATUS_DEBOUNCE_TIME / 2] after the
    last applied status change is dropped: the counter and the phase stay. *)
Lemma live_result_too_soon (cfg : Config) (now : Z) (r : Result) (s : State) :
  live_result r ->
  2 * (now - lastStatusUpdate s) < STATUS_DEBOUNCE_TIME cfg ->
  liveFrameCount (updateFacePosition cfg now r s) = liveFrameCount s
  /\ phase (updateFacePosition cfg now r s) = phase s.
Proof.
  intros [He Hv] Hw.
  assert (Hd : (STATUS_DEBOUNCE_TIME cfg <=? 2 * (now - lastStatusUpdate s)) = false)
    by (apply Z.leb_gt; exact Hw).
  split.
  - rewrite updateFacePosition_liveFrameCount, He, Hv, Hd. reflexivity.
  - unfold phase. rewrite updateFacePosition_currentState, He, Hv, Hd.
    cbn [andb negb String.eqb].
    replace (statusDisplay_className (dom (updateFacePosition cfg now r s)))
      with (statusDisplay_className (dom s)); [reflexivity |].
    apply andb_true_iff in Hv as [Hl Hm]. apply negb_true_iff in Hm.
    unfold updateFacePosition, when, on_dom. rewrite He, Hl, Hm, Hd.
    cbn [negb orb String.eqb].
    destruct (negb (String.eqb (processed_image r) "")); reflexivity.
Qed.

(** Live results that are all applied, from a state in [MONITORING] that
    lacks as many frames as there are results: every result adds one to the
    counter, the last one authenticates, the ones before it show the
    analyzing phase. *)
Lemma spaced_live_results (cfg : Config) (inputs : list (Z * Result)) :
  forall s : State,
    currentState s = MONITORING ->
    inputs <> [] ->
    liveFrameCount s + Z.of_nat (List.length inputs) = REQUIRED_LIVE_FRAMES cfg ->
    Forall (fun i => live_result (snd i)) inputs ->
    spaced cfg (lastStatusUpdate s) (map fst inputs) ->
    map phase (tl (feed cfg inputs s))
      = repeat Analyzing (List.length inputs - 1) ++ [Authenticated]
    /\ map liveFrameCount (tl (feed cfg inputs s))
       = map (fun k => liveFrameCount s + Z.of_nat k) (seq 1 (List.length inputs)).
Proof.
  induction inputs as [| [t r] rest IH]; intros s Hc Hne Hn Hl Hs; [contradiction |].
  inversion Hl as [| ? ? Hr Hl']; subst. cbn [snd] in Hr.
  cbn [map fst spaced] in Hs. destruct Hs as [Hd Hs].
  cbn [feed tl]. destruct rest as [| i rest].
  - cbn [List.length] in Hn.
    destruct (live_result_at_threshold cfg t r s Hr Hd Hc ltac:(lia)) as (Hn1 & Hp1).
    cbn. rewrite Hp1, Hn1. split; reflexivity.
  - cbn [List.length] in Hn.
    destruct (live_result_below_threshold cfg t r s Hr Hd Hc ltac:(lia))
      as (Hn1 & Hl1 & Hc1 & Hp1).
    set (s1 := updateFacePosition cfg t r s) in *.
    destruct (IH s1 Hc1 ltac:(discriminate) ltac:(cbn [List.length]; lia) Hl'
                 ltac:(rewrite Hl1; exact Hs)) as (IHp & IHn).
    assert (E : feed cfg (i :: rest) s1 = s1 :: tl (feed cfg (i :: rest) s1))
      by (destruct i; reflexivity).
    rewrite E. cbn [map]. rewrite IHp, IHn, Hp1, Hn1.
    split.
    + cbn [List.length Nat.sub repeat app]. rewrite Nat.sub_0_r. reflexivity.
    + change (seq 1 (List.length ((t, r) :: i :: rest)))
        with (1%nat :: seq 2 (List.length (i :: rest))).
      cbn [map]. f_equal; try lia.
      rewrite <- (seq_shift (List.length (i :: rest)) 1), map_map.
      apply map_ext. intros k. lia.
Qed.

(** C1, as stated, fails of the script: its constant is
    [REQUIRED_LIVE_FRAMES = 5], not 3.  Three capture cycles that each bring
    a live verdict (answers at +100, +400 and +700 ms of the session) leave
    the counter at 2, because the second verdict arrives less than
    [STATUS_DEBOUNCE_TIME / 2] after the first one was applied; and the three
    verdicts 500 ms apart, which are all applied, leave the counter at 3 and
    the session in the analyzing phase. *)
Lemma three_live_cycles_do_not_authenticate :
  REQUIRED_LIVE_FRAMES source_config = 5
  /\ ~ reaches_authenticated_in_three [started source_config; cycle1; cycle2; cycle3]
  /\ map phase [started source_config; cycle1; cycle2; cycle3]
     = [Monitoring; Analyzing; Analyzing; Analyzing]
  /\ map liveFrameCount [started source_config; cycle1; cycle2; cycle3] = [0; 1; 1; 2]
  /\ List.length (fetched cycle3) = 3%nat
  /\ ~ reaches_authenticated_in_three
         (feed source_config three_spaced (started source_config))
  /\ map phase (feed source_config three_spaced (started source_config))
     = [Monitoring; Analyzing; Analyzing; Analyzing]
  /\ map liveFrameCount (feed source_config three_spaced (started source_config))
     = [0; 1; 2; 3].
Proof.
  split; [reflexivity |]. split; [intros [Hp _]; vm_compute in Hp; discriminate Hp |].
  split; [vm_compute; reflexivity |]. split; [vm_compute; reflexivity |].
  split; [vm_compute; reflexivity |].
  split; [intros [Hp _]; vm_compute in Hp; discriminate Hp |].
  split; vm_compute; reflexivity.
Qed.

(** C1 (amended): from the monitoring phase with a zero counter, as many
    live verdicts as [REQUIRED_LIVE_FRAMES] (5 in the script), each arriving
    at least [STATUS_DEBOUNCE_TIME / 2] after the last applied status change,
    lead through Monitoring, the analyzing phase after every verdict but the
    last, and Authenticated after the last; the counter goes up by one with
    every verdict and ends at [REQUIRED_LIVE_FRAMES].  A live verdict that
    arrives sooner is dropped: it changes neither the counter nor the phase.
    Analyzing is what the status element shows while [currentState] is still
    [MONITORING]. *)
Theorem spaced_live_verdicts_authenticate
  (cfg : Config) (s : State) (inputs : list (Z * Result)) :
  1 <= REQUIRED_LIVE_FRAMES cfg ->
  phase s = Monitoring ->
  liveFrameCount s = 0 ->
  Z.of_nat (List.length inputs) = REQUIRED_LIVE_FRAMES cfg ->
  Forall (fun i => live_result (snd i)) inputs ->
  spaced cfg (lastStatusUpdate s) (map fst inputs) ->
  authenticates_with_the_last (List.length inputs) (feed cfg inputs s)
  /\ liveFrameCount (last (feed cfg inputs s) s) = REQUIRED_LIVE_FRAMES cfg
  /\ (forall (now : Z) (r : Result) (s' : State),
        live_result r ->
        2 * (now - lastStatusUpdate s') < STATUS_DEBOUNCE_TIME cfg ->
        liveFrameCount (updateFacePosition cfg now r s') = liveFrameCount s'
        /\ phase (updateFacePosition cfg now r s') = phase s').
Proof.
  intros Hreq Hp Hn Hlen Hl Hs.
  pose proof (phase_Monitoring_currentState s Hp) as Hc.
  assert (Hne : inputs <> []) by (intros ->; cbn in Hlen; lia).
  destruct (spaced_live_results cfg inputs s Hc Hne ltac:(lia) Hl Hs) as (Hph & Hcn).
  assert (E : feed cfg inputs s = s :: tl (feed cfg inputs s))
    by (destruct inputs as [| [t r] rest]; reflexivity).
  assert (Hall : map liveFrameCount (feed cfg inputs s)
                 = map Z.of_nat (seq 0 (S (List.length inputs)))).
  { rewrite E. cbn [map seq]. rewrite Hcn, Hn.
    f_equal; apply map_ext; intros k; lia. }
  split; [| split].
  - split; [| exact Hall].
    rewrite E. cbn [map]. rewrite Hph, Hp. reflexivity.
  - assert (Hlast : forall (l : list State) (d : State),
              l <> [] -> liveFrameCount (last l d) = last (map liveFrameCount l) 0).
    { induction l as [| a l IHl]; intros d Hl0; [contradiction |].
      destruct l as [| b l]; [reflexivity |].
      change (last (a :: b :: l) d) with (last (b :: l) d).
      change (map liveFrameCount (a :: b :: l))
        with (liveFrameCount a :: map liveFrameCount (b :: l)).
      change (last (liveFrameCount a :: map liveFrameCount (b :: l)) 0)
        with (last (map liveFrameCount (b :: l)) 0).
      apply IHl. discriminate. }
    rewrite Hlast by (rewrite E; discriminate).
    rewrite Hall, seq_S, map_app. cbn [map]. rewrite last_last. lia.
  - intros now r s' Hr Hw. apply live_result_too_soon; assumption.
Qed.

Lemma spaced_live_verdicts_authenticate_witness :
  authenticates_with_the_last 5 (feed source_config five_spaced (started source_config))
  /\ liveFrameCount (last (feed source_config five_spaced (started source_config))
                       (started source_config)) = 5.
Proof.
  assert (Hl : Forall (fun i => live_result (snd i)) five_spaced)
    by (repeat constructor).
  assert (Hs : spaced source_config (lastStatusUpdate (started source_config))
                 (map fst five_spaced))
    by (vm_compute; intuition discriminate).
  destruct (spaced_live_verdicts_authenticate source_config (started source_config)
              five_spaced ltac:(vm_compute; discriminate) eq_refl eq_refl eq_refl Hl Hs)
    as (H1 & H2 & _).
  exact (conj H1 H2).
Defined.

(** In the authenticated state [updateFacePosition] keeps [currentState]
    and never increments the counter; what it still does is the reset of the
    not-live branch. *)
Lemma updateFacePosition_when_authenticated (cfg : Config) (now : Z) (r : Result)
  (s : State) :
  currentState s = AUTHENTICATED ->
  let s' := updateFacePosition cfg now r s in
  currentState s' = AUTHENTICATED
  /\ liveFrameCount s' =
       if String.eqb (error r) "" && negb (verdict_live r)
          && (STATUS_DEBOUNCE_TIME cfg <=? now - lastStatusUpdate s)
       then 0 else liveFrameCount s.
Proof.
  intros Hc s'. subst s'.
  rewrite updateFacePosition_currentState, updateFacePosition_liveFrameCount, Hc.
  cbn -[Z.mul Z.leb Z.add Z.sub]. rewrite !andb_false_r.
  destruct (String.eqb (error r) ""), (verdict_live r),
    (STATUS_DEBOUNCE_TIME cfg <=? now - lastStatusUpdate s); split; reflexivity.
Qed.

(** In the timed-out state a live result still counts. *)
Lemma updateFacePosition_when_timed_out (cfg : Config) (now : Z) (r : Result)
  (s : State) :
  currentState s = TIMEOUT ->
  live_result r ->
  STATUS_DEBOUNCE_TIME cfg <= 2 * (now - lastStatusUpdate s) ->
  liveFrameCount (updateFacePosition cfg now r s) = liveFrameCount s + 1.
Proof.
  intros Hc [He Hv] Hd.
  rewrite updateFacePosition_liveFrameCount, He, Hv, Hc.
  cbn -[Z.mul Z.leb Z.add Z.sub].
  replace (STATUS_DEBOUNCE_TIME cfg <=? 2 * (now - lastStatusUpdate s)) with true
    by (symmetry; apply Z.leb_le; exact Hd).
  reflexivity.
Qed.

(** C2: the code departs from the claim.  The session below is
    authenticated with the counter at 5 while one request is still
    unanswered; when its answer (no face) arrives, [updateFacePosition]
    resets the counter to 0 and repaints the status, although the phase is
    Authenticated. *)
Theorem authenticated_counter_reset_by_late_answer :
  let s := authenticated_with_late_answer in
  let s' := step source_config (FetchSettles (Json NoFace) (t0 + 16000)) s in
  phase s = Authenticated /\ liveFrameCount s = 5 /\ awaiting s = 1%nat
  /\ phase s' = Authenticated /\ liveFrameCount s' = 0
  /\ statusDisplay_textContent (dom s') = "No face detected".
Proof.
  vm_compute. repeat split; reflexivity.
Qed.

(** C3, as stated, fails: after two live frames the counter is 2; a frame
    without a face 200 ms later leaves it at 2. *)
Lemma no_face_within_debounce_keeps_counter :
  map liveFrameCount (feed source_config two_live_then_no_face (started source_config))
  = [0; 1; 2; 2]
  /\ verdict_live NoFace = false.
Proof.
  vm_compute. split; reflexivity.
Qed.

(** C3 (amended): a frame whose verdict is not live resets the counter to 0
    when at least [STATUS_DEBOUNCE_TIME] ms have passed since the last
    applied status change and leaves it as it is otherwise; a frame with a
    live verdict never decreases the counter. *)
Theorem counter_reset_is_debounced (cfg : Config) (now : Z) (r : Result) (s : State) :
  error r = "" ->
  let s' := updateFacePosition cfg now r s in
  if verdict_live r then liveFrameCount s <= liveFrameCount s'
  else liveFrameCount s' =
         if STATUS_DEBOUNCE_TIME cfg <=? now - lastStatusUpdate s then 0
         else liveFrameCount s.
Proof.
  intros He s'. subst s'. rewrite updateFacePosition_liveFrameCount, He.
  cbn -[Z.mul Z.leb Z.add Z.sub].
  destruct (verdict_live r); cbn -[Z.mul Z.leb Z.add Z.sub]; [| reflexivity].
  destruct (_ && _); lia.
Qed.

Lemma counter_reset_is_debounced_witness :
  liveFrameCount (updateFacePosition source_config (t0 + 1100) NoFace cycle1) = 0.
Proof.
  exact (counter_reset_is_debounced source_config (t0 + 1100) NoFace cycle1 eq_refl).
Defined.

(** C4: the code departs from the claim.  No live verdict arrives within
    the session time; the session timer sets the phase to TimedOut, stops the
    loop and clears its timer.  The answer of the request that was on its
    way is then still processed: the counter goes from 0 to 1 and the status
    is repainted under the timeout overlay. *)
Theorem answer_after_timeout_is_processed :
  let s := timed_out in
  let s' := step source_config (FetchSettles (Json (Live (8 # 10))) (t0 + 10100)) s in
  phase s = TimedOut /\ isRunning s = false /\ pending (timers s) = []
  /\ liveFrameCount s = 0 /\ awaiting s = 1%nat
  /\ phase s' = TimedOut /\ liveFrameCount s' = 1
  /\ statusDisplay_textContent (dom s') = "Face Detected"
  /\ pending (timers s') = [].
Proof.
  vm_compute. repeat split; reflexivity.
Qed.

End SessionClaims.

(** ** The capture region *)

Section CaptureRegion.
Import Session.

Lemma Qmin_le_r (a b : Q) : (Qmin a b <= b)%Q.
Proof.
  unfold Qmin. destruct (Qle_bool a b) eqn:E.
  - apply Qle_bool_iff. exact E.
  - apply Qle_refl.
Qed.

Lemma Qmin_nonneg (a b : Q) : (0 <= a)%Q -> (0 <= b)%Q -> (0 <= Qmin a b)%Q.
Proof.
  intros Ha Hb. unfold Qmin. destruct (Qle_bool a b); assumption.
Qed.

Lemma round_half_up_nonneg (q : Q) : (0 <= q)%Q -> 0 <= round_half_up q.
Proof.
  intros Hq. unfold round_half_up.
  change 0 with (Qfloor 0). apply Qfloor_resp_le. lra.
Qed.

(** Rounding adds at most one half: a value of at most 85% of [v] rounds
    to [w] with [20 w <= 17 v + 10]. *)
Lemma round_half_up_85 (q : Q) (v : Z) :
  (q <= inject_Z v * (85 # 100))%Q -> 20 * round_half_up q <= 17 * v + 10.
Proof.
  intros Hq. unfold round_half_up.
  pose proof (Qfloor_le (q + (1 # 2))) as Hf.
  rewrite Zle_Qle, inject_Z_plus, !inject_Z_mult.
  change (inject_Z 20) with 20%Q. change (inject_Z 17) with 17%Q.
  change (inject_Z 10) with 10%Q.
  lra.
Qed.

(** The size of the region: not negative, and clamped before it is rounded. *)
Lemma ovalData_width_height (vw vh : Z) (vRect oRect : DOMRect.t) :
  0 < vw -> 0 < vh ->
  let r := Part000.ovalData vw vh vRect oRect in
  0 <= Oval.width r /\ 0 <= Oval.height r
  /\ 20 * Oval.width r <= 17 * vw + 10 /\ 20 * Oval.height r <= 17 * vh + 10.
Proof.
  intros Hw Hh r. subst r. unfold Part000.ovalData.
  assert (Hqw : (0 < inject_Z vw)%Q)
    by (change 0%Q with (inject_Z 0); rewrite <- Zlt_Qlt; exact Hw).
  assert (Hqh : (0 < inject_Z vh)%Q)
    by (change 0%Q with (inject_Z 0); rewrite <- Zlt_Qlt; exact Hh).
  destruct (Qlt_bool _ _); destruct (Qle_bool 1 _); cbn [Oval.width Oval.height];
    (repeat split;
     [ apply round_half_up_nonneg, Qmin_nonneg; nra
     | apply round_half_up_nonneg, Qmin_nonneg; nra
     | apply round_half_up_85, Qmin_le_r
     | apply round_half_up_85, Qmin_le_r ]).
Qed.

(** C5, as stated, fails: for a 480x502 video shown at its own size with
    the guide's box 400 px from the left edge, the region is
    [{x: 400, y: 0, width: 360, height: 427}]; it ends at 760 > 480, and its
    height exceeds 85% of 502. *)
Lemma portrait_region_leaves_video :
  let r := Part000.ovalData portrait_vw portrait_vh portrait_videoRect portrait_ovalRect in
  ~ region_within portrait_vw portrait_vh r
  /\ r = Oval.make 400 0 360 427
  /\ ~ Oval.x r + Oval.width r <= portrait_vw
  /\ ~ (inject_Z (Oval.height r) <= (85 # 100) * inject_Z portrait_vh)%Q.
Proof.
  cbv zeta. repeat split.
  - intros (_ & _ & H & _). vm_compute in H. apply H. reflexivity.
  - intros H. vm_compute in H. apply H. reflexivity.
  - intros H. vm_compute in H. apply H. reflexivity.
Qed.

(** C5 (amended): for a video of positive intrinsic size shown in a box of
    positive size, the region computed by [captureFrame] has non-negative
    [x], [y], [width] and [height], and the size is clamped to 85% of the
    video before it is rounded: [width <= 0.85 vw + 1/2] and
    [height <= 0.85 vh + 1/2].  Where the region starts follows the guide's
    place on the screen.  (With a box of size zero the script's quotients are
    [Infinity] or [NaN], which the fractions here do not follow.) *)
Theorem capture_region_bounds (vw vh : Z) (vRect oRect : DOMRect.t) :
  0 < vw -> 0 < vh ->
  (0 < DOMRect.width vRect)%Q -> (0 < DOMRect.height vRect)%Q ->
  let r := Part000.ovalData vw vh vRect oRect in
  0 <= Oval.x r /\ 0 <= Oval.y r
  /\ 0 <= Oval.width r /\ 0 <= Oval.height r
  /\ 20 * Oval.width r <= 17 * vw + 10
  /\ 20 * Oval.height r <= 17 * vh + 10.
Proof.
  intros Hw Hh _ _ r.
  destruct (ovalData_width_height vw vh vRect oRect Hw Hh) as (H1 & H2 & H3 & H4).
  fold r in H1, H2, H3, H4.
  repeat split; try assumption.
  - subst r. unfold Part000.ovalData.
    destruct (Qlt_bool _ _); destruct (Qle_bool 1 _); cbn [Oval.x]; apply Z.le_max_l.
  - subst r. unfold Part000.ovalData.
    destruct (Qlt_bool _ _); destruct (Qle_bool 1 _); cbn [Oval.y]; apply Z.le_max_l.
Qed.

Lemma capture_region_bounds_witness :
  let r := Part000.ovalData 640 480 (DOMRect.make 0 0 640 480)
             (DOMRect.make 185 60 270 360) in
  0 <= Oval.x r /\ 0 <= Oval.y r
  /\ 0 <= Oval.width r /\ 0 <= Oval.height r
  /\ 20 * Oval.width r <= 17 * 640 + 10
  /\ 20 * Oval.height r <= 17 * 480 + 10.
Proof.
  apply capture_region_bounds; reflexivity.
Defined.

(** The region of [app.js] is neither clamped nor kept non-negative: with
    the guide's box to the left of the video's box, [x] is negative. *)
Lemma app_region_can_start_left_of_video :
  Oval.x (App.ovalData
            {| App.videoWidth := 640; App.videoHeight := 480;
               App.videoRect := DOMRect.make 100 0 640 480;
               App.ovalRect := DOMRect.make 50 60 270 360;
               App.innerWidth := 1280; App.innerHeight := 720;
               App.drawImage_throws := None; App.dataUrl := "" |}) = -50.
Proof.
  reflexivity.
Qed.

End CaptureRegion.

(** ** [app.js]: presenter, evaluator, loop *)

Section AppClaims.
Import App Session.

Lemma AUTH_STATE_eqb_eq (a b : AUTH_STATE) : AUTH_STATE_eqb a b = true <-> a = b.
Proof.
  destruct a, b; simpl; split; intros H; try reflexivity; discriminate H.
Qed.

Lemma AUTH_STATE_eqb_neq (a b : AUTH_STATE) : a <> b -> AUTH_STATE_eqb a b = false.
Proof.
  intros H. destruct (AUTH_STATE_eqb a b) eqn:E; [| reflexivity].
  apply AUTH_STATE_eqb_eq in E. contradiction.
Qed.

(** A request inside the window changes nothing, whatever its target. *)
Lemma updateUI_suppressed (now : Z) (n : AUTH_STATE) (m h : string) (s : State) :
  now - lastUIUpdate s < 300 -> updateUI now n m h s = s.
Proof.
  intros Hw. unfold updateUI, updateUI_enter.
  destruct (AUTH_STATE_eqb (currentState s) AUTHENTICATED); [reflexivity |].
  replace (now - lastUIUpdate s <? 300) with true by (symmetry; apply Z.ltb_lt; exact Hw).
  reflexivity.
Qed.

(** Nothing is repainted once the state is [AUTHENTICATED]. *)
Lemma updateUI_authenticated (now : Z) (n : AUTH_STATE) (m h : string) (s : State) :
  currentState s = AUTHENTICATED -> updateUI now n m h s = s.
Proof.
  intros Hc. unfold updateUI, updateUI_enter. rewrite Hc. reflexivity.
Qed.

(** A request outside the window is applied. *)
Lemma updateUI_applied (now : Z) (n : AUTH_STATE) (m h : string) (s : State) :
  currentState s <> AUTHENTICATED ->
  300 <= now - lastUIUpdate s ->
  let s' := updateUI now n m h s in
  currentState s' = n
  /\ lastUIUpdate s' = now
  /\ statusDisplay_textContent (elements s') = str_or m "Position your face in the oval"
  /\ statusHint_textContent (elements s') = h.
Proof.
  intros Hc Hw s'. subst s'. unfold updateUI, updateUI_enter.
  rewrite (AUTH_STATE_eqb_neq _ _ Hc).
  replace (now - lastUIUpdate s <? 300) with false by (symmetry; apply Z.ltb_ge; exact Hw).
  unfold updateUI_finish, updateUI_begin, on_elements.
  destruct n; cbn; repeat split; unfold str_or; destruct h; reflexivity.
Qed.

(** [updateUI] touches the presenter's part of the state only. *)
Lemma updateUI_frame (now : Z) (n : AUTH_STATE) (m h : string) (s : State) :
  let s' := updateUI now n m h s in
  isRunning s' = isRunning s /\ isProcessing s' = isProcessing s
  /\ framesCollected s' = framesCollected s /\ stream s' = stream s
  /\ lastProcessedTime s' = lastProcessedTime s
  /\ scheduled s' = scheduled s /\ fetched s' = fetched s
  /\ handlerCalls s' = handlerCalls s.
Proof.
  cbv zeta. unfold updateUI, updateUI_enter.
  destruct (AUTH_STATE_eqb (currentState s) AUTHENTICATED); [repeat split |].
  destruct (now - lastUIUpdate s <? 300); [repeat split |].
  unfold updateUI_finish, updateUI_begin, on_elements.
  destruct n; cbn; repeat split.
Qed.

(** While a first call waits in its transition, a second call inside the
    window returns at once: the order of the two is immaterial. *)
Lemma updateUI_overlapping (now1 now2 : Z) (n2 : AUTH_STATE) (m2 h2 : string)
  (s s1 : State) :
  updateUI_enter now1 s = Some s1 ->
  now2 - now1 < 300 ->
  updateUI now2 n2 m2 h2 s1 = s1
  /\ updateUI now2 n2 m2 h2 (updateUI_begin s1) = updateUI_begin s1.
Proof.
  intros He Hw. unfold updateUI_enter in He.
  destruct (AUTH_STATE_eqb (currentState s) AUTHENTICATED); [discriminate |].
  destruct (now1 - lastUIUpdate s <? 300); [discriminate |].
  injection He as <-.
  split; apply updateUI_suppressed; cbn; exact Hw.
Qed.




(** The evaluator on faces that are there: centred, off to the left, far
    away; and without an oval to compare with. *)
Example checkFacePosition_centred :
  checkFacePosition (js_object (Oval.make 185 60 270 360))
    (js_object (FaceRect.make 245 165 150 150))
  = Returned {| isValid := true; message := "Face position is good" |}.
Proof. vm_compute. reflexivity. Qed.

Example checkFacePosition_left :
  checkFacePosition (js_object (Oval.make 185 60 270 360))
    (js_object (FaceRect.make 100 165 150 150))
  = Returned {| isValid := false; message := "Move your face right" |}.
Proof. vm_compute. reflexivity. Qed.

Example checkFacePosition_far :
  checkFacePosition (js_object (Oval.make 185 60 270 360))
    (js_object (FaceRect.make 290 210 60 60))
  = Returned {| isValid := false; message := "Move closer to the camera" |}.
Proof. vm_compute. reflexivity. Qed.

Example checkFacePosition_without_oval :
  checkFacePosition js_undefined (js_object (FaceRect.make 245 165 150 150))
  = Thrown type_error.
Proof. reflexivity. Qed.

(** C7: a detection result without [faceRect] (missing, [null] or
    [undefined]) is classified as "No face detected" with an invalid
    position, and the area ratio is 0; both calls return, whatever the oval
    is. *)
Theorem missing_faceRect_is_no_face
  (ovalData : JsValue Oval.t) (faceRect : JsValue FaceRect.t) :
  is_absent faceRect = true ->
  checkFacePosition ovalData faceRect
    = Returned {| isValid := false; message := "No face detected" |}
  /\ calculateHeadSizeRatio ovalData faceRect = Returned 0%Q.
Proof.
  intros Ha. destruct faceRect; [split; reflexivity | split; reflexivity | discriminate Ha].
Qed.

Lemma missing_faceRect_is_no_face_witness :
  checkFacePosition (js_object (Oval.make 185 60 270 360)) js_undefined
    = Returned {| isValid := false; message := "No face detected" |}
  /\ calculateHeadSizeRatio (js_object (Oval.make 185 60 270 360)) js_undefined
     = Returned 0%Q.
Proof.
  apply missing_faceRect_is_no_face. reflexivity.
Defined.

End AppClaims.

(** ** Capture failures, the camera stream and the loop of [app.js] *)

(** Splits every test of a handler; for goals that hold branch by branch. *)
Ltac by_branches :=
  repeat (cbn -[Z.add Z.mul Z.sub Z.leb Z.ltb Z.min includes startsWith];
          match goal with
          | |- context [if ?c then _ else _] => destruct c
          | |- context [match ?x with _ => _ end] => destruct x
          end);
  cbn -[Z.add Z.mul Z.sub Z.leb Z.ltb Z.min includes startsWith];
  try reflexivity.

Section StreamAndLoop.
Import Session.

(** *** The script of [Part000] never touches the stream *)

Lemma updateFacePosition_srcObject (cfg : Part000.Config) (now : Z)
  (r : Part000.Result) (s : Part000.State) :
  Part000.srcObject (Part000.updateFacePosition cfg now r s) = Part000.srcObject s.
Proof.
  unfold Part000.updateFacePosition, Part000.resetUI_inner, Part000.authenticate,
    Part000.updateProgress, Part000.notifyFlutter, Part000.on_dom, when.
  by_branches.
Qed.

Lemma startAuthentication_srcObject (cfg : Part000.Config) (env : Part000.Env)
  (now : Z) (s : Part000.State) :
  Part000.srcObject (Part000.startAuthentication cfg env now s) = Part000.srcObject s.
Proof.
  unfold Part000.startAuthentication, Part000.captureFrame, Part000.catch_block,
    Part000.schedule_if_running, Part000.schedule_next, Part000.resetUI,
    Part000.notifyFlutter, Part000.on_dom, when.
  by_branches.
Qed.

Lemma startAuthentication_resume_srcObject (cfg : Part000.Config)
  (o : Part000.FetchOutcome) (now : Z) (s : Part000.State) :
  Part000.srcObject (Part000.startAuthentication_resume cfg o now s) = Part000.srcObject s.
Proof.
  unfold Part000.startAuthentication_resume.
  destruct (Part000.awaiting s); [reflexivity |].
  destruct o.
  - unfold Part000.catch_block, Part000.schedule_if_running, Part000.schedule_next,
      Part000.resetUI, Part000.notifyFlutter, Part000.on_dom, when.
    by_branches.
  - unfold Part000.catch_block, Part000.schedule_if_running, Part000.schedule_next,
      Part000.resetUI, Part000.notifyFlutter, Part000.on_dom, when.
    by_branches.
  - destruct (negb (String.eqb (Part000.error result) "")).
    + reflexivity.
    + unfold Part000.schedule_if_running, Part000.schedule_next, when.
      destruct (_ && _); cbn [Part000.srcObject Part000.set_timers
        Part000.set_authenticationLoop setTimeout];
        rewrite updateFacePosition_srcObject; reflexivity.
Qed.

(** No event stops a track: only a new camera stream replaces the one held. *)
Lemma step_srcObject (cfg : Part000.Config) (ev : Part000.Event) (s : Part000.State) :
  Part000.srcObject (Part000.step cfg ev s) =
    match ev with
    | Part000.CameraReady stream _ _ => Some stream
    | _ => Part000.srcObject s
    end.
Proof.
  destruct ev; unfold Part000.step.
  - unfold Part000.initializeCamera_ready. rewrite startAuthentication_srcObject.
    unfold Part000.startSession. by_branches.
  - destruct (timer_due h now (Part000.timers s)) as [[|]|]; [| | reflexivity].
    + rewrite startAuthentication_srcObject. reflexivity.
    + unfold Part000.sessionTimeout_callback, Part000.handleTimeout,
        Part000.notifyFlutter, Part000.on_dom.
      by_branches.
  - apply startAuthentication_resume_srcObject.
  - unfold Part000.resetSession, Part000.on_dom. cbn.
    rewrite startAuthentication_srcObject.
    unfold Part000.startSession, Part000.resetUI, Part000.on_dom. by_branches.
Qed.

End StreamAndLoop.

Section CaptureFailureAndRelease.
Import Session.

(** The stream held after a run is the one the last [CameraReady] brought,
    with its tracks as [getUserMedia] gave them. *)
Lemma run_srcObject (cfg : Part000.Config) (evs : list Part000.Event) (s : Part000.State) :
  Part000.srcObject (Part000.run cfg evs s) =
    fold_left (fun held ev =>
                 match ev with
                 | Part000.CameraReady stream _ _ => Some stream
                 | _ => held
                 end) evs (Part000.srcObject s).
Proof.
  unfold Part000.run. revert s.
  induction evs as [| ev evs IH]; intros s; [reflexivity |].
  cbn [fold_left]. rewrite IH, step_srcObject. destruct ev; reflexivity.
Qed.

Lemma includes_no_server_error :
  includes "Server error:" "Video dimensions not available" = false.
Proof. reflexivity. Qed.

(** *** A cycle of [startAuthentication] without a frame *)

Lemma startAuthentication_capture_unavailable (cfg : Part000.Config)
  (env : Part000.Env) (now : Z) (s : Part000.State) :
  Part000.isRunning s = true ->
  Part000.video_ready env = true ->
  Part000.currentState s <> Part000.AUTHENTICATED ->
  Part000.capture_unavailable env = true ->
  let s' := Part000.startAuthentication cfg env now s in
  Part000.fetched s' = Part000.fetched s
  /\ Part000.awaiting s' = Part000.awaiting s
  /\ Part000.currentState s' = Part000.currentState s
  /\ Part000.liveFrameCount s' = Part000.liveFrameCount s
  /\ pending (Part000.timers s') =
       pending (Part000.timers s)
       ++ [{| handle := nextHandle (Part000.timers s);
              callback := Part000.CbStartAuthentication;
              delay := Part000.FRAME_INTERVAL cfg; armedAt := now |}].
Proof.
  intros Hr Hv Hc Hu s'. subst s'.
  assert (Hne : Part000.AUTH_STATE_eqb (Part000.currentState s) Part000.AUTHENTICATED = false)
    by (destruct (Part000.currentState s); [reflexivity | contradiction | reflexivity]).
  unfold Part000.startAuthentication, Part000.captureFrame.
  rewrite Hr, Hv, Hne. cbn [negb].
  unfold Part000.capture_unavailable in Hu.
  destruct ((Part000.videoWidth env =? 0) || (Part000.videoHeight env =? 0)) eqn:Ed.
  - unfold Part000.catch_block, when. rewrite includes_no_server_error.
    unfold Part000.schedule_if_running, Part000.notifyFlutter, when.
    cbn. rewrite Hr, Hne. cbn. repeat split; reflexivity.
  - cbn [orb] in Hu.
    destruct (Part000.drawImage_throws env); [cbn; repeat split; reflexivity |].
    cbn [orb] in Hu. rewrite Hu. cbn. repeat split; reflexivity.
Qed.

(** *** A cycle of [processFrame] in which [captureFrame] throws *)

Lemma captureFrame_throws (env : App.Env) (s : App.State) :
  App.capture_throws env = true ->
  exists s1 msg,
    App.captureFrame env s = (s1, Thrown msg)
    /\ (s1 = s \/ s1 = App.on_elements
                        (App.set_canvas_size (App.videoWidth env, App.videoHeight env)) s).
Proof.
  unfold App.capture_throws, App.captureFrame. intros Ht.
  destruct ((App.videoWidth env =? 0) || (App.videoHeight env =? 0)).
  - eexists _, _. split; [reflexivity | left; reflexivity].
  - destruct (App.drawImage_throws env); [| discriminate Ht].
    eexists _, _. split; [reflexivity | right; reflexivity].
Qed.

Lemma processFrame_capture_throws (env : App.Env) (now : Z) (s : App.State) :
  App.isRunning s = true ->
  App.isProcessing s = false ->
  App.MIN_FRAME_INTERVAL <= now - App.lastProcessedTime s ->
  App.capture_throws env = true ->
  let s' := App.processFrame env now s in
  App.fetched s' = App.fetched s
  /\ App.isProcessing s' = false
  /\ App.framesCollected s' = 0
  /\ App.currentState s' =
       (if App.AUTH_STATE_eqb (App.currentState s) App.AUTHENTICATED
           || (now - App.lastUIUpdate s <? 300)
        then App.currentState s else App.ERROR)
  /\ App.scheduled s' =
       App.scheduled s
       ++ (if App.AUTH_STATE_eqb (App.currentState s) App.AUTHENTICATED then []
           else [App.RETRY_DELAY]).
Proof.
  intros Hr Hp Hi Ht s'. subst s'. unfold App.processFrame.
  rewrite Hr, Hp. cbn [negb orb App.lastProcessedTime App.set_isProcessing].
  replace (now - App.lastProcessedTime s <? App.MIN_FRAME_INTERVAL) with false
    by (symmetry; apply Z.ltb_ge; exact Hi).
  destruct (captureFrame_throws env (App.set_isProcessing true s) Ht)
    as (s1 & msg & -> & Hs1).
  assert (Hsame : App.isRunning s1 = true /\ App.currentState s1 = App.currentState s
                  /\ App.lastUIUpdate s1 = App.lastUIUpdate s
                  /\ App.fetched s1 = App.fetched s
                  /\ App.scheduled s1 = App.scheduled s)
    by (destruct Hs1 as [-> | ->]; cbn; rewrite Hr; repeat split).
  destruct Hsame as (Hr1 & Hc1 & Hl1 & Hf1 & Hq1).
  set (s2 := App.set_framesCollected 0 s1).
  assert (H2 : App.isRunning s2 = true /\ App.currentState s2 = App.currentState s
               /\ App.lastUIUpdate s2 = App.lastUIUpdate s
               /\ App.fetched s2 = App.fetched s
               /\ App.scheduled s2 = App.scheduled s
               /\ App.framesCollected s2 = 0)
    by (subst s2; cbn; repeat split; assumption).
  destruct H2 as (Hr2 & Hc2 & Hl2 & Hf2 & Hq2 & Hn2).
  pose proof (updateUI_frame now App.ERROR "Error processing frame" "" s2) as Hfr.
  cbv zeta in Hfr. destruct Hfr as (Fr & _ & Fn & _ & _ & Fq & Ff & _).
  set (s3 := App.updateUI now App.ERROR "Error processing frame" "" s2) in *.
  assert (Hc3 : App.currentState s3 =
                  if App.AUTH_STATE_eqb (App.currentState s) App.AUTHENTICATED
                     || (now - App.lastUIUpdate s <? 300)
                  then App.currentState s else App.ERROR).
  { subst s3. destruct (App.AUTH_STATE_eqb (App.currentState s) App.AUTHENTICATED) eqn:Ea.
    - apply AUTH_STATE_eqb_eq in Ea.
      rewrite updateUI_authenticated by (rewrite Hc2; exact Ea). exact Hc2.
    - destruct (now - App.lastUIUpdate s <? 300) eqn:Ew; cbn [orb].
      + rewrite updateUI_suppressed; [assumption | rewrite Hl2; apply Z.ltb_lt; exact Ew].
      + apply updateUI_applied.
        * rewrite Hc2. intros E. rewrite E in Ea. discriminate Ea.
        * rewrite Hl2. apply Z.ltb_ge. exact Ew. }
  unfold when. cbn [App.isRunning App.currentState App.set_isProcessing].
  rewrite Fr, Hr2, Hc3. cbn [andb].
  destruct (App.AUTH_STATE_eqb (App.currentState s) App.AUTHENTICATED) eqn:Ea; cbn [orb negb].
  - rewrite Ea. cbn. rewrite Ff, Fn, Fq, Hf2, Hq2, Hn2, app_nil_r.
    repeat split; exact Hc3.
  - destruct (now - App.lastUIUpdate s <? 300); rewrite ?Ea; cbn;
      rewrite Ff, Fn, Fq, Hf2, Hq2, Hn2; repeat split; exact Hc3.
Qed.

End CaptureFailureAndRelease.

Section LoopClaims.
Import Session.

Lemma stop_idempotent (tracks : MediaStream) :
  map stop (map stop tracks) = map stop tracks.
Proof.
  rewrite map_map. apply map_ext. intros t. reflexivity.
Qed.

Lemma stopped_tracks_are_ended (tracks : MediaStream) :
  forallb is_ended (map stop tracks) = true.
Proof.
  induction tracks as [| t tracks IH]; [reflexivity | exact IH].
Qed.

Lemma handleSuccessfulAuthentication_stream (flutter : bool) (now later : Z)
  (name : string) (s : App.State) :
  name <> "" ->
  let s' := App.handleSuccessfulAuthentication flutter now later name s in
  App.stream s' = option_map (map stop) (App.stream s) /\ App.isRunning s' = false.
Proof.
  intros Hn. cbv zeta.
  unfold App.handleSuccessfulAuthentication, App.handleSuccessfulAuthentication_resume.
  apply String.eqb_neq in Hn. rewrite Hn.
  set (m := String.append "Welcome, " _).
  set (s0 := App.set_isProcessing false (App.set_isRunning false s)).
  pose proof (updateUI_frame now App.AUTHENTICATED m "" s0) as Hfr.
  cbv zeta in Hfr. destruct Hfr as (Fr & _ & _ & Fs & _).
  set (s1 := App.updateUI now App.AUTHENTICATED m "" s0) in *.
  assert (Es : App.stream s1 = App.stream s) by (rewrite Fs; reflexivity).
  assert (Er : App.isRunning s1 = false) by (rewrite Fr; reflexivity).
  unfold when. destruct (App.stream s1) as [tracks |] eqn:E1;
    destruct flutter; cbn; rewrite <- Es; cbn; split; try reflexivity; try exact Er;
    rewrite E1; reflexivity.
Qed.

(** C8, as stated, fails: in [app.js] a cycle in which the video has no
    intrinsic size ends in the [catch] block, which puts the session into
    the [ERROR] phase before it schedules the retry. *)
Lemma app_capture_failure_shows_error :
  let s' := App.processFrame app_env_no_video (t0 + 500) app_waiting in
  App.capture_throws app_env_no_video = true
  /\ App.currentState app_waiting = App.WAITING
  /\ App.currentState s' = App.ERROR
  /\ App.statusDisplay_textContent (App.elements s') = "Error processing frame"
  /\ App.scheduled s' = [App.RETRY_DELAY]
  /\ App.fetched s' = [].
Proof.
  vm_compute. repeat split; reflexivity.
Qed.

(** C8 (amended): a cycle in which no frame can be captured sends no
    request to the service.  In the script of [Part000] (no intrinsic size,
    failed draw, or a payload that is not a JPEG data URL) the cycle leaves
    [currentState] and the counter as they are and arms a retry after
    [FRAME_INTERVAL].  In [app.js], where [captureFrame] fails by throwing
    (no intrinsic size or failed draw), the cycle resets [framesCollected],
    asks the presenter for the [ERROR] phase, which is applied unless the
    request falls into the debounce window or the state is
    [AUTHENTICATED], and schedules a retry after [RETRY_DELAY] unless the
    state is [AUTHENTICATED]. *)
Theorem capture_failure_retries
  (cfg : Part000.Config) (env : Part000.Env) (now : Z) (s : Part000.State)
  (env' : App.Env) (now' : Z) (a : App.State) :
  Part000.isRunning s = true ->
  Part000.video_ready env = true ->
  Part000.currentState s <> Part000.AUTHENTICATED ->
  Part000.capture_unavailable env = true ->
  App.isRunning a = true ->
  App.isProcessing a = false ->
  App.MIN_FRAME_INTERVAL <= now' - App.lastProcessedTime a ->
  App.capture_throws env' = true ->
  let s' := Part000.startAuthentication cfg env now s in
  let a' := App.processFrame env' now' a in
  (Part000.fetched s' = Part000.fetched s
   /\ Part000.awaiting s' = Part000.awaiting s
   /\ Part000.currentState s' = Part000.currentState s
   /\ Part000.liveFrameCount s' = Part000.liveFrameCount s
   /\ pending (Part000.timers s') =
        pending (Part000.timers s)
        ++ [{| handle := nextHandle (Part000.timers s);
               callback := Part000.CbStartAuthentication;
               delay := Part000.FRAME_INTERVAL cfg; armedAt := now |}])
  /\ (App.fetched a' = App.fetched a
      /\ App.isProcessing a' = false
      /\ App.framesCollected a' = 0
      /\ App.currentState a' =
           (if App.AUTH_STATE_eqb (App.currentState a) App.AUTHENTICATED
               || (now' - App.lastUIUpdate a <? 300)
            then App.currentState a else App.ERROR)
      /\ App.scheduled a' =
           App.scheduled a
           ++ (if App.AUTH_STATE_eqb (App.currentState a) App.AUTHENTICATED then []
               else [App.RETRY_DELAY])).
Proof.
  intros H1 H2 H3 H4 H5 H6 H7 H8 s' a'. split.
  - apply startAuthentication_capture_unavailable; assumption.
  - apply processFrame_capture_throws; assumption.
Qed.

Lemma capture_failure_retries_witness :
  let s' := Part000.startAuthentication Part000.source_config env_no_video (t0 + 300) cycle1 in
  let a' := App.processFrame app_env_no_video (t0 + 500) app_waiting in
  (Part000.fetched s' = Part000.fetched cycle1
   /\ Part000.awaiting s' = Part000.awaiting cycle1
   /\ Part000.currentState s' = Part000.currentState cycle1
   /\ Part000.liveFrameCount s' = Part000.liveFrameCount cycle1
   /\ pending (Part000.timers s') =
        pending (Part000.timers cycle1)
        ++ [{| handle := nextHandle (Part000.timers cycle1);
               callback := Part000.CbStartAuthentication;
               delay := 200; armedAt := t0 + 300 |}])
  /\ (App.fetched a' = App.fetched app_waiting
      /\ App.isProcessing a' = false
      /\ App.framesCollected a' = 0
      /\ App.currentState a' = App.ERROR
      /\ App.scheduled a' = App.scheduled app_waiting ++ [App.RETRY_DELAY]).
Proof.
  apply (capture_failure_retries Part000.source_config env_no_video (t0 + 300) cycle1
           app_env_no_video (t0 + 500) app_waiting);
    try reflexivity; vm_compute; discriminate.
Defined.

(** C9, as stated, fails: the session of the script of [Part000] that five
    live verdicts authenticate still holds the camera stream with its track
    live; no event of that script stops a track (see [step_srcObject]). *)
Lemma authentication_leaves_camera_running :
  Part000.phase plainly_authenticated = Part000.Authenticated
  /\ Part000.srcObject plainly_authenticated = Some camera
  /\ forallb is_ended camera = false.
Proof.
  vm_compute. repeat split; reflexivity.
Qed.

(** C9 (amended): in [app.js], [handleSuccessfulAuthentication] called with
    a name stops every track of the stream held and stops the loop, and a
    second call leaves the stopped tracks as they are.  The script of
    [Part000] never stops a track. *)
Theorem successful_authentication_stops_tracks
  (flutter flutter' : bool) (now later now' later' : Z) (name name' : string)
  (tracks : MediaStream) (s : App.State) :
  name <> "" ->
  App.stream s = Some tracks ->
  let s1 := App.handleSuccessfulAuthentication flutter now later name s in
  let s2 := App.handleSuccessfulAuthentication flutter' now' later' name' s1 in
  App.stream s1 = Some (map stop tracks)
  /\ forallb is_ended (map stop tracks) = true
  /\ App.isRunning s1 = false
  /\ App.stream s2 = App.stream s1.
Proof.
  intros Hn Hs s1 s2.
  destruct (handleSuccessfulAuthentication_stream flutter now later name s Hn)
    as (E1 & R1).
  fold s1 in E1, R1. rewrite Hs in E1. cbn in E1.
  repeat split; [exact E1 | apply stopped_tracks_are_ended | exact R1 |].
  destruct (String.eqb name' "") eqn:En.
  - subst s2. unfold App.handleSuccessfulAuthentication. rewrite En. reflexivity.
  - apply String.eqb_neq in En.
    destruct (handleSuccessfulAuthentication_stream flutter' now' later' name' s1 En)
      as (E2 & _).
    fold s2 in E2. rewrite E2, E1. cbn. rewrite stop_idempotent. reflexivity.
Qed.

Lemma successful_authentication_stops_tracks_witness :
  let s1 := App.handleSuccessfulAuthentication true (t0 + 1500) (t0 + 1850) "Ann Lee"
              app_analyzing in
  let s2 := App.handleSuccessfulAuthentication true (t0 + 1900) (t0 + 1900) "Ann Lee" s1 in
  App.stream s1 = Some (map stop camera)
  /\ forallb is_ended (map stop camera) = true
  /\ App.isRunning s1 = false
  /\ App.stream s2 = App.stream s1.
Proof.
  apply successful_authentication_stops_tracks; [discriminate | reflexivity].
Defined.

(** C10: in [app.js], a cycle of [processFrame] whose capture succeeds
    ends right after the capture: no request is sent, [framesCollected],
    [currentState] and [lastProcessedTime] keep their values, no next cycle
    is scheduled and [isProcessing] stays true, so that every later call of
    [processFrame] returns at its first test. *)
Theorem processFrame_after_capture_does_nothing (env : App.Env) (now : Z) (s : App.State) :
  App.isRunning s = true ->
  App.isProcessing s = false ->
  App.MIN_FRAME_INTERVAL <= now - App.lastProcessedTime s ->
  App.capture_throws env = false ->
  let s' := App.processFrame env now s in
  s' = App.on_elements (App.set_canvas_size (App.videoWidth env, App.videoHeight env))
         (App.set_isProcessing true s)
  /\ App.fetched s' = App.fetched s
  /\ App.handlerCalls s' = App.handlerCalls s
  /\ App.framesCollected s' = App.framesCollected s
  /\ App.currentState s' = App.currentState s
  /\ App.lastProcessedTime s' = App.lastProcessedTime s
  /\ App.scheduled s' = App.scheduled s
  /\ App.isRunning s' = true
  /\ App.isProcessing s' = true
  /\ (forall env2 now2, App.processFrame env2 now2 s' = s').
Proof.
  intros Hr Hp Hi Ht s'.
  assert (E : s' = App.on_elements
                     (App.set_canvas_size (App.videoWidth env, App.videoHeight env))
                     (App.set_isProcessing true s)).
  { subst s'. unfold App.processFrame. rewrite Hr, Hp.
    cbn [negb orb App.lastProcessedTime App.set_isProcessing].
    replace (now - App.lastProcessedTime s <? App.MIN_FRAME_INTERVAL) with false
      by (symmetry; apply Z.ltb_ge; exact Hi).
    unfold App.capture_throws in Ht. unfold App.captureFrame.
    destruct ((App.videoWidth env =? 0) || (App.videoHeight env =? 0)); [discriminate Ht |].
    destruct (App.drawImage_throws env); [discriminate Ht | reflexivity]. }
  rewrite E. cbn. rewrite Hr. repeat split.
  intros env2 now2. unfold App.processFrame. cbn. rewrite Hr. reflexivity.
Qed.

Lemma processFrame_after_capture_does_nothing_witness :
  let s' := App.processFrame app_env0 (t0 + 500) app_waiting in
  App.fetched s' = [] /\ App.scheduled s' = [] /\ App.isProcessing s' = true
  /\ App.currentState s' = App.WAITING
  /\ App.processFrame app_env0 (t0 + 1000) s' = s'.
Proof.
  pose proof (processFrame_after_capture_does_nothing app_env0 (t0 + 500) app_waiting
                eq_refl eq_refl ltac:(vm_compute; discriminate) eq_refl) as H.
  cbv zeta in H. destruct H as (_ & Hf & _ & _ & Hc & _ & Hq & _ & Hp & Hhalt).
  exact (conj Hf (conj Hq (conj Hp (conj Hc (Hhalt app_env0 (t0 + 1000)))))).
Defined.

End LoopClaims.

(** * More of the two scripts *)

(** ** The loop of [Part000]: what stops it and what it keeps *)

Section LoopOfPart000.
Import Part000.

Variable cfg : Config.

Lemma startAuthentication_keeps (env : Env) (now : Z) (s : State) :
  let s' := startAuthentication cfg env now s in
  liveFrameCount s' = liveFrameCount s /\ currentState s' = currentState s
  /\ isRunning s' = isRunning s /\ sessionTimer s' = sessionTimer s
  /\ successes s' = successes s.
Proof.
  cbv zeta.
  unfold startAuthentication, captureFrame, catch_block, schedule_if_running,
    schedule_next, resetUI, notifyFlutter, on_dom, when, successes.
  by_branches; rewrite ?filter_app, ?length_app; cbn; rewrite ?Nat.add_0_r;
    repeat split; reflexivity.
Qed.

(** A request leaves only while the loop runs and is not authenticated. *)
Lemma startAuthentication_fetched (env : Env) (now : Z) (s : State) :
  isRunning s = false \/ currentState s = AUTHENTICATED ->
  fetched (startAuthentication cfg env now s) = fetched s.
Proof.
  intros [H | H]; unfold startAuthentication; rewrite H; cbn [negb].
  - reflexivity.
  - destruct (negb (isRunning s)); [reflexivity |].
    destruct (negb (video_ready env)); reflexivity.
Qed.

Lemma updateFacePosition_keeps (now : Z) (r : Result) (s : State) :
  let s' := updateFacePosition cfg now r s in
  isRunning s' = isRunning s /\ fetched s' = fetched s
  /\ sessionTimer s' = sessionTimer s /\ awaiting s' = awaiting s.
Proof.
  cbv zeta.
  unfold updateFacePosition, resetUI_inner, authenticate, updateProgress,
    notifyFlutter, on_dom, when.
  by_branches; repeat split; reflexivity.
Qed.

(** The host hears of a success exactly when the threshold is reached. *)
Lemma updateFacePosition_notified (now : Z) (r : Result) (s : State) :
  notified (updateFacePosition cfg now r s) =
    if String.eqb (error r) "" && verdict_live r
       && (STATUS_DEBOUNCE_TIME cfg <=? 2 * (now - lastStatusUpdate s))
       && negb (AUTH_STATE_eqb (currentState s) AUTHENTICATED)
       && (REQUIRED_LIVE_FRAMES cfg <=? liveFrameCount s + 1)
    then notified s ++ [{| status := "success"; text := "Authentication successful";
                           timestamp := now |}]
    else notified s.
Proof.
  unfold updateFacePosition, verdict_live, resetUI_inner, authenticate,
    updateProgress, notifyFlutter, on_dom, when.
  destruct (String.eqb (error r) "");
  destruct (is_live r);
  destruct (String.eqb (liveness_message r) multiple_faces);
  destruct (negb (String.eqb (processed_image r) ""));
  cbn -[Z.add Z.mul Z.sub Z.leb Z.min]; try reflexivity;
  destruct (STATUS_DEBOUNCE_TIME cfg <=? now - lastStatusUpdate s);
  cbn -[Z.add Z.mul Z.sub Z.leb Z.min]; try reflexivity;
  destruct (STATUS_DEBOUNCE_TIME cfg <=? 2 * (now - lastStatusUpdate s));
  cbn -[Z.add Z.mul Z.sub Z.leb Z.min]; try reflexivity;
  destruct (AUTH_STATE_eqb (currentState s) AUTHENTICATED);
  cbn -[Z.add Z.mul Z.sub Z.leb Z.min]; try reflexivity;
  destruct (REQUIRED_LIVE_FRAMES cfg <=? liveFrameCount s + 1);
  cbn -[Z.add Z.mul Z.sub Z.leb Z.min]; try reflexivity;
  destruct (authenticationLoop s); reflexivity.
Qed.

Lemma resume_keeps (o : FetchOutcome) (now : Z) (s : State) :
  let s' := startAuthentication_resume cfg o now s in
  isRunning s' = isRunning s /\ fetched s' = fetched s
  /\ sessionTimer s' = sessionTimer s.
Proof.
  cbv zeta. unfold startAuthentication_resume.
  destruct (awaiting s) as [| n]; [repeat split |].
  destruct o as [msg | st | r].
  - unfold catch_block, schedule_if_running, schedule_next, resetUI, notifyFlutter,
      on_dom, when.
    by_branches; repeat split; reflexivity.
  - unfold catch_block, schedule_if_running, schedule_next, resetUI, notifyFlutter,
      on_dom, when.
    by_branches; repeat split; reflexivity.
  - destruct (negb (String.eqb (error r) "")); [repeat split |].
    destruct (updateFacePosition_keeps now r (set_awaiting n s)) as (H1 & H2 & H3 & _).
    unfold schedule_if_running, schedule_next, when.
    destruct (_ && _); cbn; rewrite ?H1, ?H2, ?H3; repeat split.
Qed.

(** A failed request changes neither the counter nor [currentState], and
    the host is told of no success. *)
Lemma resume_failed (o : FetchOutcome) (now : Z) (s : State) :
  failed o = true \/ awaiting s = 0%nat ->
  let s' := startAuthentication_resume cfg o now s in
  liveFrameCount s' = liveFrameCount s /\ currentState s' = currentState s
  /\ successes s' = successes s.
Proof.
  intros H. cbv zeta. unfold startAuthentication_resume.
  destruct (awaiting s) as [| n]; [repeat split |].
  destruct H as [H | H]; [| discriminate H].
  destruct o as [msg | st | r]; cbn in H.
  - unfold catch_block, schedule_if_running, schedule_next, resetUI, notifyFlutter,
      on_dom, when, successes.
    by_branches; rewrite ?filter_app, ?length_app; cbn; rewrite ?Nat.add_0_r;
      repeat split; reflexivity.
  - unfold catch_block, schedule_if_running, schedule_next, resetUI, notifyFlutter,
      on_dom, when, successes.
    by_branches; rewrite ?filter_app, ?length_app; cbn; rewrite ?Nat.add_0_r;
      repeat split; reflexivity.
  - rewrite H. unfold schedule_next, notifyFlutter, successes. cbn.
    rewrite filter_app, length_app. cbn. rewrite Nat.add_0_r. repeat split.
Qed.

(** An answer with a verdict is handed to [updateFacePosition]; what
    follows only arms the next cycle. *)
Lemma resume_verdict (r : Result) (now : Z) (s : State) :
  error r = "" -> awaiting s <> 0%nat ->
  let s' := startAuthentication_resume cfg (Json r) now s in
  let u := updateFacePosition cfg now r s in
  liveFrameCount s' = liveFrameCount u /\ currentState s' = currentState u
  /\ notified s' = notified u /\ lastStatusUpdate s' = lastStatusUpdate u
  /\ status_area s' = status_area u.
Proof.
  intros He Ha. cbv zeta. unfold startAuthentication_resume.
  destruct (awaiting s) as [| n]; [contradiction |].
  rewrite He. cbn [String.eqb negb].
  set (u := updateFacePosition cfg now r (set_awaiting n s)).
  assert (E : liveFrameCount u = liveFrameCount (updateFacePosition cfg now r s)
              /\ currentState u = currentState (updateFacePosition cfg now r s)
              /\ notified u = notified (updateFacePosition cfg now r s)
              /\ lastStatusUpdate u = lastStatusUpdate (updateFacePosition cfg now r s)
              /\ status_area u = status_area (updateFacePosition cfg now r s)).
  { subst u. unfold status_area.
    unfold updateFacePosition, resetUI_inner, authenticate, updateProgress,
      notifyFlutter, on_dom, when.
    by_branches; repeat split; reflexivity. }
  destruct E as (E1 & E2 & E3 & E4 & E5).
  unfold schedule_if_running, schedule_next, when, status_area in *.
  destruct (_ && _); cbn; repeat split; assumption.
Qed.

Lemma AUTH_STATE_eqb_true (a : AUTH_STATE) :
  AUTH_STATE_eqb a AUTHENTICATED = true <-> a = AUTHENTICATED.
Proof.
  destruct a; cbn; split; intros H; try reflexivity; discriminate H.
Qed.

(** *** While [isRunning] is false *)

Lemma step_halted (ev : Event) (s : State) :
  from_loop ev = true -> isRunning s = false ->
  isRunning (step cfg ev s) = false /\ fetched (step cfg ev s) = fetched s.
Proof.
  intros Hev Hr. destruct ev as [? ? ? | h env now | o now | ? ?]; try discriminate Hev.
  - unfold step. destruct (timer_due h now (timers s)) as [[|] |]; [| | split; trivial].
    + unfold startAuthentication. cbn. rewrite Hr. cbn. split; trivial.
    + unfold sessionTimeout_callback, handleTimeout, notifyFlutter, on_dom.
      by_branches; split; trivial.
  - unfold step. destruct (resume_keeps o now s) as (H1 & H2 & _).
    rewrite H1, H2. split; trivial.
Qed.

(** X3: once [isRunning] is false (as after the session timeout), no timer
    and no answer makes the script send another frame or restart the loop. *)
Theorem halted_loop_sends_nothing (evs : list Event) (s : State) :
  forallb from_loop evs = true ->
  isRunning s = false ->
  isRunning (run cfg evs s) = false /\ fetched (run cfg evs s) = fetched s.
Proof.
  unfold run. revert s. induction evs as [| ev evs IH]; intros s Hev Hr.
  - split; trivial.
  - cbn in Hev. apply andb_true_iff in Hev as [Hev Hevs]. cbn [fold_left].
    destruct (step_halted ev s Hev Hr) as (Hr' & Hf').
    destruct (IH (step cfg ev s) Hevs Hr') as (Hr2 & Hf2).
    split; [exact Hr2 | rewrite Hf2; exact Hf'].
Qed.

(** *** Once [currentState] is [AUTHENTICATED] *)

Lemma step_authenticated (ev : Event) (s : State) :
  from_loop ev = true -> currentState s = AUTHENTICATED ->
  currentState (step cfg ev s) = AUTHENTICATED
  /\ fetched (step cfg ev s) = fetched s
  /\ successes (step cfg ev s) = successes s.
Proof.
  intros Hev Hc. destruct ev as [? ? ? | h env now | o now | ? ?]; try discriminate Hev.
  - unfold step. destruct (timer_due h now (timers s)) as [[|] |];
      [| | repeat split; trivial].
    + set (s1 := set_timers _ s).
      destruct (startAuthentication_keeps env now s1) as (_ & H2 & _ & _ & H5).
      rewrite H2, H5, startAuthentication_fetched by (right; exact Hc).
      repeat split; trivial.
    + unfold sessionTimeout_callback. cbn. rewrite Hc. cbn. repeat split; trivial.
  - unfold step. destruct (resume_keeps o now s) as (_ & Hf & _). rewrite Hf.
    destruct (failed o) eqn:Ef.
    + destruct (resume_failed o now s (or_introl Ef)) as (_ & H2 & H3).
      rewrite H2, H3. repeat split; trivial.
    + destruct (awaiting s) as [| n] eqn:Ea.
      * destruct (resume_failed o now s (or_intror Ea)) as (_ & H2 & H3).
        rewrite H2, H3. repeat split; trivial.
      * destruct o as [? | ? | r]; try discriminate Ef. cbn in Ef.
        apply negb_false_iff, String.eqb_eq in Ef.
        destruct (resume_verdict r now s Ef) as (_ & H2 & H3 & _);
          [rewrite Ea; discriminate |].
        unfold successes. rewrite H2, H3, updateFacePosition_currentState,
          updateFacePosition_notified, Hc.
        cbn. rewrite !andb_false_r. repeat split; trivial.
Qed.

(** X2: the authenticated state is terminal for the loop: whatever timers
    fire and whatever answers arrive, [currentState] stays [AUTHENTICATED], no
    further frame is sent and the host is told of no further success. *)
Theorem authenticated_is_terminal (evs : list Event) (s : State) :
  forallb from_loop evs = true ->
  currentState s = AUTHENTICATED ->
  currentState (run cfg evs s) = AUTHENTICATED
  /\ fetched (run cfg evs s) = fetched s
  /\ successes (run cfg evs s) = successes s.
Proof.
  unfold run. revert s. induction evs as [| ev evs IH]; intros s Hev Hc.
  - repeat split; trivial.
  - cbn in Hev. apply andb_true_iff in Hev as [Hev Hevs]. cbn [fold_left].
    destruct (step_authenticated ev s Hev Hc) as (Hc' & Hf' & Hs').
    destruct (IH (step cfg ev s) Hevs Hc') as (Hc2 & Hf2 & Hs2).
    repeat split; [exact Hc2 | rewrite Hf2; exact Hf' | rewrite Hs2; exact Hs'].
Qed.

(** *** The success message *)

Lemma step_success (ev : Event) (s : State) :
  from_loop ev = true ->
  successes (step cfg ev s) = successes s
  \/ (successes (step cfg ev s) = S (successes s)
      /\ currentState (step cfg ev s) = AUTHENTICATED).
Proof.
  intros Hev. destruct ev as [? ? ? | h env now | o now | ? ?]; try discriminate Hev.
  - left. unfold step. destruct (timer_due h now (timers s)) as [[|] |]; [| | trivial].
    + set (s1 := set_timers _ s).
      destruct (startAuthentication_keeps env now s1) as (_ & _ & _ & _ & H5).
      rewrite H5. reflexivity.
    + unfold sessionTimeout_callback, handleTimeout, notifyFlutter, on_dom, successes.
      by_branches; rewrite ?filter_app, ?length_app; cbn; rewrite ?Nat.add_0_r;
        reflexivity.
  - unfold step. destruct (failed o) eqn:Ef.
    + left. apply (resume_failed o now s (or_introl Ef)).
    + destruct (awaiting s) as [| n] eqn:Ea.
      * left. apply (resume_failed o now s (or_intror Ea)).
      * destruct o as [? | ? | r]; try discriminate Ef. cbn in Ef.
        apply negb_false_iff, String.eqb_eq in Ef.
        destruct (resume_verdict r now s Ef) as (_ & H2 & H3 & _);
          [rewrite Ea; discriminate |].
        unfold successes. rewrite H2, H3, updateFacePosition_currentState,
          updateFacePosition_notified.
        destruct (_ && _ && _ && _ && _).
        -- right. rewrite filter_app, length_app. cbn. split; [lia | reflexivity].
        -- left. reflexivity.
Qed.

(** X4: over any sequence of timers and answers the host receives at most
    one success message, and when it receives one the session ends
    authenticated. *)
Theorem success_is_notified_at_most_once (evs : list Event) (s : State) :
  forallb from_loop evs = true ->
  (successes (run cfg evs s) <= S (successes s))%nat
  /\ (successes (run cfg evs s) = S (successes s) ->
      currentState (run cfg evs s) = AUTHENTICATED).
Proof.
  revert s. induction evs as [| ev evs IH]; intros s Hev.
  - cbn. split; [lia | intros H; lia].
  - cbn in Hev. apply andb_true_iff in Hev as [Hev Hevs].
    change (run cfg (ev :: evs) s) with (run cfg evs (step cfg ev s)).
    destruct (step_success ev s Hev) as [E | [E Hc]].
    + destruct (IH (step cfg ev s) Hevs) as (H1 & H2). rewrite E in H1, H2.
      split; assumption.
    + destruct (authenticated_is_terminal evs (step cfg ev s) Hevs Hc) as (Hc2 & _ & Hs2).
      rewrite Hs2, E. split; [lia | intros _; exact Hc2].
Qed.

End LoopOfPart000.

Section CounterAndDebounce.
Import Part000.

Variable cfg : Config.

Lemma counter_ok_same (s s' : State) :
  liveFrameCount s' = liveFrameCount s -> currentState s' = currentState s ->
  counter_ok cfg s -> counter_ok cfg s'.
Proof.
  unfold counter_ok. intros -> ->. trivial.
Qed.

Lemma counter_ok_fresh (s : State) :
  1 <= REQUIRED_LIVE_FRAMES cfg ->
  liveFrameCount s = 0 -> currentState s = MONITORING -> counter_ok cfg s.
Proof.
  unfold counter_ok. intros Hq -> ->. split; [lia | intros _; lia].
Qed.

Lemma counter_ok_on_dom (f : Dom -> Dom) (s : State) :
  counter_ok cfg s -> counter_ok cfg (on_dom f s).
Proof.
  intros H. exact H.
Qed.

Lemma counter_ok_updateFacePosition (now : Z) (r : Result) (s : State) :
  1 <= REQUIRED_LIVE_FRAMES cfg ->
  counter_ok cfg s -> counter_ok cfg (updateFacePosition cfg now r s).
Proof.
  intros Hq [Hb Hlt]. unfold counter_ok.
  rewrite updateFacePosition_liveFrameCount, updateFacePosition_currentState.
  destruct (AUTH_STATE_eqb (currentState s) AUTHENTICATED) eqn:Ea.
  - cbn [negb]. rewrite !andb_false_r. cbn [andb].
    apply AUTH_STATE_eqb_true in Ea.
    destruct (String.eqb (error r) ""), (verdict_live r),
      (STATUS_DEBOUNCE_TIME cfg <=? now - lastStatusUpdate s);
      cbn [negb]; split; try lia; intros H; contradiction.
  - assert (Hn : currentState s <> AUTHENTICATED)
      by (intros E; apply AUTH_STATE_eqb_true in E; congruence).
    specialize (Hlt Hn).
    destruct (String.eqb (error r) ""), (verdict_live r),
      (STATUS_DEBOUNCE_TIME cfg <=? now - lastStatusUpdate s),
      (STATUS_DEBOUNCE_TIME cfg <=? 2 * (now - lastStatusUpdate s)),
      (REQUIRED_LIVE_FRAMES cfg <=? liveFrameCount s + 1) eqn:Er;
      cbn [negb andb]; try apply Z.leb_le in Er; try apply Z.leb_gt in Er;
      split; try lia; intros H; try lia; try (exfalso; apply H; reflexivity).
Qed.

Lemma counter_ok_CameraReady (stream : MediaStream) (env : Env) (now : Z) (s : State) :
  1 <= REQUIRED_LIVE_FRAMES cfg ->
  counter_ok cfg (initializeCamera_ready cfg stream env now s).
Proof.
  intros Hq. unfold initializeCamera_ready.
  match goal with |- counter_ok cfg (startAuthentication cfg env now ?t) =>
    destruct (startAuthentication_keeps cfg env now t) as (H1 & H2 & _);
    apply (counter_ok_same t); [exact H1 | exact H2 |] end.
  apply counter_ok_fresh; [exact Hq | |];
    unfold startSession; destruct (sessionTimer _); reflexivity.
Qed.

Lemma counter_ok_resetSession (env : Env) (now : Z) (s : State) :
  1 <= REQUIRED_LIVE_FRAMES cfg ->
  counter_ok cfg (resetSession cfg env now s).
Proof.
  intros Hq. unfold resetSession.
  match goal with |- counter_ok cfg (startAuthentication cfg env now ?t) =>
    destruct (startAuthentication_keeps cfg env now t) as (H1 & H2 & _);
    apply (counter_ok_same t); [exact H1 | exact H2 |] end.
  apply counter_ok_fresh; [exact Hq | |];
    unfold startSession; destruct (sessionTimer _); reflexivity.
Qed.

Lemma counter_ok_sessionTimeout (now : Z) (s : State) :
  counter_ok cfg s -> counter_ok cfg (sessionTimeout_callback now s).
Proof.
  intros Hs. unfold sessionTimeout_callback.
  destruct (AUTH_STATE_eqb (currentState s) AUTHENTICATED) eqn:Ea; cbn [negb].
  - exact Hs.
  - destruct Hs as [Hb Hlt]. unfold counter_ok, handleTimeout, notifyFlutter, on_dom.
    destruct (authenticationLoop _); cbn; (split; [exact Hb |]); intros _;
      apply Hlt; intros E; apply AUTH_STATE_eqb_true in E; congruence.
Qed.

Lemma counter_ok_resume (o : FetchOutcome) (now : Z) (s : State) :
  1 <= REQUIRED_LIVE_FRAMES cfg ->
  counter_ok cfg s -> counter_ok cfg (startAuthentication_resume cfg o now s).
Proof.
  intros Hq Hs. destruct (failed o) eqn:Ef.
  - destruct (resume_failed cfg o now s (or_introl Ef)) as (H1 & H2 & _).
    apply (counter_ok_same s); trivial.
  - destruct (awaiting s) as [| n] eqn:Ea.
    + destruct (resume_failed cfg o now s (or_intror Ea)) as (H1 & H2 & _).
      apply (counter_ok_same s); trivial.
    + destruct o as [? | ? | r]; try discriminate Ef. cbn in Ef.
      apply negb_false_iff, String.eqb_eq in Ef.
      destruct (resume_verdict cfg r now s Ef) as (H1 & H2 & _);
        [rewrite Ea; discriminate |].
      apply (counter_ok_same (updateFacePosition cfg now r s)); trivial.
      apply counter_ok_updateFacePosition; assumption.
Qed.

Lemma step_counter_ok (ev : Event) (s : State) :
  1 <= REQUIRED_LIVE_FRAMES cfg ->
  counter_ok cfg s -> counter_ok cfg (step cfg ev s).
Proof.
  intros Hq Hs. destruct ev as [stream env now | h env now | o now | env now]; unfold step.
  - apply counter_ok_CameraReady, Hq.
  - destruct (timer_due h now (timers s)) as [[|] |]; [| | exact Hs].
    + match goal with |- counter_ok cfg (startAuthentication cfg env now ?t) =>
        destruct (startAuthentication_keeps cfg env now t) as (H1 & H2 & _);
        apply (counter_ok_same t); [exact H1 | exact H2 |] end.
      exact Hs.
    + apply counter_ok_sessionTimeout. exact Hs.
  - apply counter_ok_resume; assumption.
  - apply counter_ok_on_dom, counter_ok_resetSession, Hq.
Qed.

(** X1: in every run the counter stays between 0 and the required number of
    live frames, and it is below that number in every state that is not
    authenticated. *)
Theorem counter_stays_in_range (evs : list Event) (s : State) :
  1 <= REQUIRED_LIVE_FRAMES cfg ->
  counter_ok cfg s ->
  counter_ok cfg (run cfg evs s).
Proof.
  intros Hq. unfold run. revert s.
  induction evs as [| ev evs IH]; intros s Hs; [exact Hs |].
  cbn [fold_left]. apply IH, step_counter_ok; assumption.
Qed.

End CounterAndDebounce.

Section DebounceAndFailures.
Import Part000.

Variable cfg : Config.

(** X5: [updateFacePosition] is rate limited: a live verdict that arrives
    less than [STATUS_DEBOUNCE_TIME / 2] after the last applied change, or
    any other verdict that arrives less than [STATUS_DEBOUNCE_TIME] after it,
    changes neither the status area nor the counter, the state, the time
    stamp or what the host was told. *)
Theorem status_changes_are_rate_limited (now : Z) (r : Result) (s : State) :
  (if verdict_live r then 2 * (now - lastStatusUpdate s) < STATUS_DEBOUNCE_TIME cfg
   else now - lastStatusUpdate s < STATUS_DEBOUNCE_TIME cfg) ->
  let s' := updateFacePosition cfg now r s in
  status_area s' = status_area s
  /\ liveFrameCount s' = liveFrameCount s
  /\ currentState s' = currentState s
  /\ lastStatusUpdate s' = lastStatusUpdate s
  /\ notified s' = notified s.
Proof.
  intros Hw s'. subst s'.
  rewrite updateFacePosition_liveFrameCount, updateFacePosition_currentState,
    updateFacePosition_lastStatusUpdate, updateFacePosition_notified.
  assert (Ha : status_area (updateFacePosition cfg now r s) = status_area s).
  { unfold updateFacePosition, status_area, when, on_dom.
    destruct (negb (String.eqb (error r) "")); [reflexivity |].
    unfold verdict_live in Hw.
    destruct (is_live r), (String.eqb (liveness_message r) multiple_faces);
      cbn [negb andb orb] in Hw |- *.
    all: try (replace (STATUS_DEBOUNCE_TIME cfg <=? now - lastStatusUpdate s) with false
                by (symmetry; apply Z.leb_gt; exact Hw)).
    all: try (replace (STATUS_DEBOUNCE_TIME cfg <=? 2 * (now - lastStatusUpdate s))
                with false by (symmetry; apply Z.leb_gt; exact Hw)).
    all: destruct (negb (String.eqb (processed_image r) "")); reflexivity. }
  split; [exact Ha |].
  destruct (verdict_live r); cbn [negb].
  - replace (STATUS_DEBOUNCE_TIME cfg <=? 2 * (now - lastStatusUpdate s)) with false
      by (symmetry; apply Z.leb_gt; exact Hw).
    rewrite !andb_false_r. cbn [andb].
    destruct (negb (String.eqb (error r) "")); repeat split.
  - replace (STATUS_DEBOUNCE_TIME cfg <=? now - lastStatusUpdate s) with false
      by (symmetry; apply Z.leb_gt; exact Hw).
    rewrite !andb_false_r. cbn [andb].
    destruct (negb (String.eqb (error r) "")); repeat split.
Qed.

Lemma includes_server_error (st : string) :
  includes "Server error:" (String.append "Server error: " st) = true.
Proof. reflexivity. Qed.

(** X6: a request that fails (rejected, answered with a status that is
    not a success, or answered with an [error] field) consumes the pending
    answer, leaves the counter, [currentState] and the requests sent as they
    are, tells the host an error and no success, and, while the loop runs and
    is not authenticated, arms the next cycle [FRAME_INTERVAL] later. *)
Theorem failed_request_keeps_the_session (o : FetchOutcome) (now : Z) (s : State) (n : nat) :
  failed o = true ->
  awaiting s = S n ->
  let s' := startAuthentication_resume cfg o now s in
  liveFrameCount s' = liveFrameCount s
  /\ currentState s' = currentState s
  /\ fetched s' = fetched s
  /\ successes s' = successes s
  /\ awaiting s' = n
  /\ last_status s' = "error"
  /\ (isRunning s = true -> currentState s <> AUTHENTICATED ->
      pending (timers s') =
        pending (timers s)
        ++ [{| handle := nextHandle (timers s); callback := CbStartAuthentication;
               delay := FRAME_INTERVAL cfg; armedAt := now |}]).
Proof.
  intros Hf Ha s'.
  destruct (resume_failed cfg o now s (or_introl Hf)) as (H1 & H2 & H3).
  destruct (resume_keeps cfg o now s) as (_ & H4 & _).
  fold s' in H1, H2, H3, H4.
  split; [exact H1 |]. split; [exact H2 |]. split; [exact H4 |]. split; [exact H3 |].
  subst s'. unfold startAuthentication_resume. rewrite Ha.
  assert (Hrun : isRunning s = true -> currentState s <> AUTHENTICATED ->
                 isRunning s && negb (AUTH_STATE_eqb (currentState s) AUTHENTICATED) = true).
  { intros -> Hc. destruct (currentState s); [reflexivity | contradiction | reflexivity]. }
  destruct o as [msg | st | r]; cbn in Hf.
  - unfold catch_block, schedule_if_running, schedule_next, notifyFlutter, when, last_status.
    destruct (includes "Server error:" msg);
      cbn -[last]; (destruct (_ && _) eqn:Ec;
        cbn -[last]; rewrite last_last; repeat split; try reflexivity;
        intros Hr Hc; try reflexivity; discriminate (Hrun Hr Hc)).
  - unfold catch_block, when. rewrite includes_server_error.
    unfold schedule_if_running, schedule_next, resetUI, notifyFlutter, on_dom, when,
      last_status.
    cbn -[last String.append]. destruct (_ && _) eqn:Ec;
      cbn -[last String.append]; rewrite last_last; repeat split;
      try reflexivity; intros Hr Hc; try reflexivity; discriminate (Hrun Hr Hc).
  - rewrite Hf. unfold schedule_next, notifyFlutter, last_status.
    cbn -[last]. rewrite last_last. repeat split; reflexivity.
Qed.

End DebounceAndFailures.

(** ** The timers of [Part000] *)

(** Reduces projections of assignments only. *)
Ltac fields :=
  cbn [Part000.isRunning Part000.authenticationLoop Part000.liveFrameCount
       Part000.sessionTimer Part000.currentState Part000.lastStatusUpdate
       Part000.dom Part000.timers Part000.notified Part000.fetched
       Part000.awaiting Part000.srcObject
       Part000.set_isRunning Part000.set_authenticationLoop
       Part000.set_liveFrameCount Part000.set_sessionTimer
       Part000.set_currentState Part000.set_lastStatusUpdate Part000.set_dom
       Part000.set_timers Part000.set_notified Part000.set_fetched
       Part000.set_awaiting Part000.set_srcObject Part000.on_dom when
       fst snd negb andb orb].

Ltac field_branches :=
  repeat (fields;
          match goal with
          | |- context [if ?c then _ else _] => destruct c
          | |- context [match ?x with _ => _ end] => destruct x
          end);
  fields.

Section TimersOfPart000.
Import Part000.

Variable cfg : Config.

Lemma queue_wf_clear (h : nat) (q : TimerQueue Callback) (st : option nat) :
  queue_wf q st -> queue_wf (clearTimeout h q) st.
Proof.
  intros (Hd & Hf & Hs). unfold queue_wf, clearTimeout. cbn [pending nextHandle].
  repeat split.
  - clear Hf Hs. induction (pending q) as [| e l IH]; [constructor |].
    cbn in Hd |- *. inversion Hd as [| ? ? Hn Hd']; subst.
    destruct (negb (Nat.eqb (handle e) h)); [| apply IH, Hd'].
    cbn. constructor; [| apply IH, Hd'].
    intros Hin. apply Hn. apply in_map_iff in Hin as (e' & He' & Hin).
    apply filter_In in Hin as [Hin _]. apply in_map_iff. exists e'. split; assumption.
  - apply Forall_forall. intros e He. apply filter_In in He as [He _].
    rewrite Forall_forall in Hf. apply Hf, He.
  - apply Forall_forall. intros e He. apply filter_In in He as [He _].
    rewrite Forall_forall in Hs. apply Hs, He.
Qed.

Lemma queue_wf_arm (cb : Callback) (d now : Z) (q : TimerQueue Callback) (st : option nat) :
  (is_session_timer {| handle := nextHandle q; callback := cb; delay := d;
                       armedAt := now |} = true -> st = Some (nextHandle q)) ->
  queue_wf q st ->
  queue_wf (snd (setTimeout cb d now q)) st.
Proof.
  intros Hcb (Hd & Hf & Hs). unfold queue_wf, setTimeout. cbn [snd pending nextHandle].
  rewrite Forall_forall in Hf, Hs. repeat split.
  - rewrite map_app. cbn. apply NoDup_app; [exact Hd | repeat constructor; intros [] |].
    intros a Ha [<- | []]. apply in_map_iff in Ha as (e & He & Hin).
    specialize (Hf e Hin). lia.
  - apply Forall_forall. intros e He. apply in_app_iff in He as [He | [<- | []]].
    + specialize (Hf e He). lia.
    + cbn. lia.
  - apply Forall_forall. intros e He. apply in_app_iff in He as [He | [<- | []]].
    + apply Hs, He.
    + exact Hcb.
Qed.

(** Clearing the timer that [sessionTimer] names leaves no session timer. *)
Lemma queue_wf_no_session (q : TimerQueue Callback) (st : option nat) :
  queue_wf q st ->
  let q1 := match st with Some h => clearTimeout h q | None => q end in
  forall st', queue_wf q1 st'.
Proof.
  intros Hq q1 st'. subst q1. destruct st as [h |].
  - pose proof (queue_wf_clear h q (Some h) Hq) as (Hd & Hf & _).
    repeat split; [exact Hd | exact Hf |].
    apply Forall_forall. intros e He Hse. exfalso.
    unfold clearTimeout in He. cbn [pending] in He. apply filter_In in He as [He Hne].
    destruct Hq as (_ & _ & Hs). rewrite Forall_forall in Hs.
    specialize (Hs e He Hse). injection Hs as ->.
    rewrite Nat.eqb_refl in Hne. discriminate Hne.
  - destruct Hq as (Hd & Hf & Hs). repeat split; [exact Hd | exact Hf |].
    apply Forall_forall. intros e He Hse. exfalso.
    rewrite Forall_forall in Hs. specialize (Hs e He Hse). discriminate Hs.
Qed.

Lemma timers_wf_schedule_next (now : Z) (s : State) :
  timers_wf s -> timers_wf (schedule_next cfg now s).
Proof.
  intros H. unfold timers_wf, schedule_next. cbn.
  apply (queue_wf_arm CbStartAuthentication (FRAME_INTERVAL cfg) now (timers s));
    [discriminate | exact H].
Qed.

Lemma timers_wf_clear (h : nat) (s : State) :
  timers_wf s -> timers_wf (set_timers (clearTimeout h (timers s)) s).
Proof.
  intros H. apply queue_wf_clear. exact H.
Qed.

Lemma timers_wf_same (s s' : State) :
  timers s' = timers s -> sessionTimer s' = sessionTimer s ->
  timers_wf s -> timers_wf s'.
Proof.
  unfold timers_wf. intros -> ->. trivial.
Qed.

Lemma timers_wf_on_dom (f : Dom -> Dom) (s : State) :
  timers_wf s -> timers_wf (on_dom f s).
Proof.
  intros H. exact H.
Qed.

Lemma timers_wf_startSession (now : Z) (s : State) :
  timers_wf s -> timers_wf (startSession cfg now s).
Proof.
  intros H. unfold timers_wf, startSession.
  pose proof (queue_wf_no_session (timers s) (sessionTimer s) H) as Hn. cbv zeta in Hn.
  destruct (sessionTimer s) as [h |].
  - change (queue_wf
              (snd (setTimeout CbSessionTimeout (SESSION_TIMEOUT cfg) now
                      (clearTimeout h (timers s))))
              (Some (nextHandle (clearTimeout h (timers s))))).
    apply queue_wf_arm; [reflexivity | apply Hn].
  - change (queue_wf
              (snd (setTimeout CbSessionTimeout (SESSION_TIMEOUT cfg) now (timers s)))
              (Some (nextHandle (timers s)))).
    apply queue_wf_arm; [reflexivity | apply Hn].
Qed.

Lemma timers_wf_updateFacePosition (now : Z) (r : Result) (s : State) :
  timers_wf s -> timers_wf (updateFacePosition cfg now r s).
Proof.
  intros H.
  assert (E : sessionTimer (updateFacePosition cfg now r s) = sessionTimer s
              /\ (timers (updateFacePosition cfg now r s) = timers s
                  \/ exists h, timers (updateFacePosition cfg now r s)
                               = clearTimeout h (timers s))).
  { unfold updateFacePosition, resetUI_inner, authenticate, updateProgress,
      notifyFlutter, when, on_dom.
    field_branches; split; try reflexivity; try (left; reflexivity);
      right; eexists; reflexivity. }
  destruct E as (E1 & [E2 | [h E2]]); unfold timers_wf; rewrite E1, E2;
    [exact H | apply queue_wf_clear, H].
Qed.

Lemma timers_wf_schedule_if_running (now : Z) (s : State) :
  timers_wf s -> timers_wf (schedule_if_running cfg now s).
Proof.
  intros H. unfold schedule_if_running, when.
  destruct (_ && _); [apply timers_wf_schedule_next, H | exact H].
Qed.

Lemma timers_wf_catch_block (now : Z) (msg : string) (s : State) :
  timers_wf s -> timers_wf (catch_block now msg s).
Proof.
  intros H. unfold catch_block, when, resetUI, notifyFlutter, on_dom.
  destruct (includes _ _); exact H.
Qed.

Lemma timers_wf_startAuthentication (env : Env) (now : Z) (s : State) :
  timers_wf s -> timers_wf (startAuthentication cfg env now s).
Proof.
  intros H. unfold startAuthentication.
  destruct (negb (isRunning s)); [exact H |].
  destruct (negb (video_ready env)); [apply timers_wf_schedule_next, H |].
  destruct (AUTH_STATE_eqb (currentState s) AUTHENTICATED); [exact H |].
  unfold captureFrame.
  destruct ((videoWidth env =? 0) || (videoHeight env =? 0)).
  - apply timers_wf_schedule_if_running, timers_wf_catch_block, H.
  - destruct (drawImage_throws env); [apply timers_wf_schedule_next; exact H |].
    destruct (negb (startsWith "data:image/jpeg" (dataUrl env)));
      [apply timers_wf_schedule_next; exact H | exact H].
Qed.

Lemma timers_wf_resume (o : FetchOutcome) (now : Z) (s : State) :
  timers_wf s -> timers_wf (startAuthentication_resume cfg o now s).
Proof.
  intros H. unfold startAuthentication_resume.
  destruct (awaiting s) as [| n]; [exact H |].
  assert (H' : timers_wf (set_awaiting n s)) by exact H.
  destruct o as [msg | st | r].
  - apply timers_wf_schedule_if_running, timers_wf_catch_block, H'.
  - apply timers_wf_schedule_if_running, timers_wf_catch_block.
    unfold notifyFlutter. exact H'.
  - destruct (negb (String.eqb (error r) "")).
    + apply timers_wf_schedule_next. unfold notifyFlutter. exact H'.
    + apply timers_wf_schedule_if_running, timers_wf_updateFacePosition, H'.
Qed.

Lemma timers_wf_sessionTimeout (now : Z) (s : State) :
  timers_wf s -> timers_wf (sessionTimeout_callback now s).
Proof.
  intros H. unfold sessionTimeout_callback, handleTimeout, notifyFlutter, on_dom.
  destruct (negb _); [| exact H].
  cbn [authenticationLoop set_isRunning set_currentState].
  destruct (authenticationLoop s) as [h |]; [| exact H].
  fields. apply queue_wf_clear, H.
Qed.

Lemma timers_wf_step (ev : Event) (s : State) :
  timers_wf s -> timers_wf (step cfg ev s).
Proof.
  intros H. destruct ev as [stream env now | h env now | o now | env now]; unfold step.
  - unfold initializeCamera_ready.
    apply timers_wf_startAuthentication, timers_wf_startSession. exact H.
  - destruct (timer_due h now (timers s)) as [[|] |]; [| | exact H].
    + apply timers_wf_startAuthentication, timers_wf_clear, H.
    + apply timers_wf_sessionTimeout, timers_wf_clear, H.
  - apply timers_wf_resume, H.
  - unfold resetSession.
    apply timers_wf_on_dom.
    apply timers_wf_startAuthentication, timers_wf_startSession. exact H.
Qed.

(** With distinct handles, all session timers named by one variable are
    at most one. *)
Lemma one_session_timer (q : TimerQueue Callback) (st : option nat) :
  queue_wf q st -> (List.length (filter is_session_timer (pending q)) <= 1)%nat.
Proof.
  intros (Hd & _ & Hs). induction (pending q) as [| e l IH]; [cbn; lia |].
  cbn in Hd. inversion Hd as [| ? ? Hn Hd']; subst.
  inversion Hs as [| ? ? He Hs']; subst.
  cbn [filter]. destruct (is_session_timer e) eqn:Ee; [| apply IH; assumption].
  assert (Hnil : filter is_session_timer l = []).
  { destruct (filter is_session_timer l) as [| e' l'] eqn:Ef; [reflexivity |].
    exfalso. assert (Hin : In e' (filter is_session_timer l)) by (rewrite Ef; left; reflexivity).
    apply filter_In in Hin as [Hin He'].
    rewrite Forall_forall in Hs'. specialize (Hs' e' Hin He'). specialize (He eq_refl).
    rewrite He in Hs'. injection Hs' as Hh.
    apply Hn. rewrite Hh. apply in_map, Hin. }
  rewrite Hnil. cbn. lia.
Qed.

(** X7: whatever happens (camera ready, timers, answers, retries), the
    timer queue stays as the browser keeps it and at most one session timer is
    pending: [startSession] clears the timer it replaces, so that no stale
    session timer can fire in a fresh session. *)
Theorem one_session_timer_at_a_time (evs : list Event) (s : State) :
  timers_wf s ->
  timers_wf (run cfg evs s)
  /\ (List.length (session_timers (run cfg evs s)) <= 1)%nat.
Proof.
  intros H.
  assert (Hw : timers_wf (run cfg evs s)).
  { unfold run. revert s H. induction evs as [| ev evs IH]; intros s H; [exact H |].
    cbn [fold_left]. apply IH, timers_wf_step, H. }
  split; [exact Hw |]. unfold session_timers. apply (one_session_timer _ _ Hw).
Qed.

End TimersOfPart000.

Section TimeoutOnce.
Import Part000.

Variable cfg : Config.

Lemma timer_due_pending (h : nat) (now : Z) (q : TimerQueue Callback) (cb : Callback) :
  timer_due h now q = Some cb ->
  exists e, In e (pending q) /\ handle e = h /\ callback e = cb.
Proof.
  unfold timer_due. destruct (find _ (pending q)) as [e |] eqn:Ef; [| discriminate].
  apply find_some in Ef as [Hin He]. apply Nat.eqb_eq in He.
  destruct (_ <=? now); [| discriminate]. intros [= <-]. exists e. repeat split; assumption.
Qed.

Lemma no_session_timer_after_clear (h : nat) (q : TimerQueue Callback) :
  queue_wf q (Some h) -> filter is_session_timer (pending (clearTimeout h q)) = [].
Proof.
  intros (_ & _ & Hs). unfold clearTimeout. cbn [pending].
  rewrite Forall_forall in Hs.
  induction (pending q) as [| e l IH]; [reflexivity |].
  cbn [filter]. destruct (negb (Nat.eqb (handle e) h)) eqn:Ee.
  - cbn [filter]. destruct (is_session_timer e) eqn:Es.
    + exfalso. specialize (Hs e (or_introl eq_refl) Es). injection Hs as Hs.
      rewrite Hs, Nat.eqb_refl in Ee. discriminate Ee.
    + apply IH. intros x Hx. apply Hs. right. exact Hx.
  - apply IH. intros x Hx. apply Hs. right. exact Hx.
Qed.

Lemma filter_clear_nil (h : nat) (q : TimerQueue Callback) :
  filter is_session_timer (pending q) = [] ->
  filter is_session_timer (pending (clearTimeout h q)) = [].
Proof.
  unfold clearTimeout. cbn [pending]. induction (pending q) as [| e l IH]; [reflexivity |].
  cbn [filter]. destruct (is_session_timer e) eqn:Es; [discriminate |]. intros H.
  destruct (negb _); [cbn [filter]; rewrite Es |]; apply IH, H.
Qed.

(** X8: when the session timer fires in a session that is not
    authenticated, the script moves to [TIMEOUT], stops the loop, shows the
    overlay and tells the host once; no session timer is left pending, so the
    timeout cannot fire again before a new session is started. *)
Theorem session_timeout_fires_once (h : nat) (env : Env) (now : Z) (s : State) :
  timers_wf s ->
  timer_due h now (timers s) = Some CbSessionTimeout ->
  currentState s <> AUTHENTICATED ->
  let s' := step cfg (TimerFires h env now) s in
  currentState s' = TIMEOUT
  /\ isRunning s' = false
  /\ authenticationLoop s' = None
  /\ overlay_active (dom s') = true
  /\ notified s' = notified s ++ [{| status := "timeout";
                                     text := "Face verification timeout";
                                     timestamp := now |}]
  /\ session_timers s' = []
  /\ fetched s' = fetched s.
Proof.
  intros Hwf Hdue Hc s'. subst s'. unfold step. rewrite Hdue.
  destruct (timer_due_pending h now (timers s) _ Hdue) as (e & Hin & Hh & Hcb).
  assert (Hst : sessionTimer s = Some h).
  { destruct Hwf as (_ & _ & Hs). rewrite Forall_forall in Hs. rewrite <- Hh.
    apply (Hs e Hin). unfold is_session_timer. rewrite Hcb. reflexivity. }
  assert (Hnone : filter is_session_timer (pending (clearTimeout h (timers s))) = []).
  { apply no_session_timer_after_clear. unfold timers_wf in Hwf. rewrite Hst in Hwf.
    exact Hwf. }
  unfold sessionTimeout_callback. cbn [currentState set_timers].
  assert (Hne : AUTH_STATE_eqb (currentState s) AUTHENTICATED = false)
    by (destruct (currentState s); [reflexivity | contradiction | reflexivity]).
  rewrite Hne. cbn [negb].
  unfold handleTimeout, notifyFlutter, on_dom, session_timers.
  cbn [authenticationLoop set_isRunning set_currentState set_timers].
  destruct (authenticationLoop s) as [l |] eqn:El; cbn -[clearTimeout]; rewrite ?El;
    repeat split; try reflexivity;
    first [exact Hnone | apply filter_clear_nil; exact Hnone].
Qed.

End TimeoutOnce.

Section WitnessesOfPart000.
Import Part000 Session.

Lemma counter_stays_in_range_witness :
  counter_ok source_config (run source_config late_answer_events (initial_state 4)).
Proof.
  apply counter_stays_in_range; [discriminate |].
  split; [split; discriminate | intros _; reflexivity].
Defined.

Lemma authenticated_is_terminal_witness :
  let evs := [TimerFires 1 env0 (t0 + 10000);
              FetchSettles (Json (Live (9 # 10))) (t0 + 10100)] in
  currentState (run source_config evs plainly_authenticated) = AUTHENTICATED
  /\ fetched (run source_config evs plainly_authenticated) = fetched plainly_authenticated
  /\ successes (run source_config evs plainly_authenticated)
     = successes plainly_authenticated.
Proof.
  apply authenticated_is_terminal; reflexivity.
Defined.

Lemma halted_loop_sends_nothing_witness :
  let evs := [FetchSettles (Json (Live (8 # 10))) (t0 + 10100);
              TimerFires 3 env0 (t0 + 10400)] in
  isRunning (run source_config evs timed_out) = false
  /\ fetched (run source_config evs timed_out) = fetched timed_out.
Proof.
  apply halted_loop_sends_nothing; reflexivity.
Defined.

Lemma success_is_notified_at_most_once_witness :
  let evs := tl plain_authentication_events in
  (successes (run source_config evs (started source_config))
   <= S (successes (started source_config)))%nat
  /\ (successes (run source_config evs (started source_config))
      = S (successes (started source_config)) ->
      currentState (run source_config evs (started source_config)) = AUTHENTICATED).
Proof.
  apply success_is_notified_at_most_once. reflexivity.
Defined.

Lemma status_changes_are_rate_limited_witness :
  let s' := updateFacePosition source_config (t0 + 400) (Live (7 # 10)) cycle1 in
  status_area s' = status_area cycle1
  /\ liveFrameCount s' = liveFrameCount cycle1
  /\ currentState s' = currentState cycle1
  /\ lastStatusUpdate s' = lastStatusUpdate cycle1
  /\ notified s' = notified cycle1.
Proof.
  apply status_changes_are_rate_limited. reflexivity.
Defined.

Lemma failed_request_keeps_the_session_witness :
  let s := started source_config in
  let s' := startAuthentication_resume source_config (HttpStatus "500") (t0 + 150) s in
  liveFrameCount s' = liveFrameCount s
  /\ currentState s' = currentState s
  /\ fetched s' = fetched s
  /\ successes s' = successes s
  /\ awaiting s' = 0%nat
  /\ last_status s' = "error"
  /\ (isRunning s = true -> currentState s <> AUTHENTICATED ->
      pending (timers s') =
        pending (timers s)
        ++ [{| handle := nextHandle (timers s); callback := CbStartAuthentication;
               delay := FRAME_INTERVAL source_config; armedAt := t0 + 150 |}]).
Proof.
  apply failed_request_keeps_the_session; reflexivity.
Defined.

Lemma one_session_timer_at_a_time_witness :
  timers_wf (run source_config late_answer_events (initial_state 4))
  /\ (List.length (session_timers (run source_config late_answer_events (initial_state 4)))
      <= 1)%nat.
Proof.
  apply one_session_timer_at_a_time.
  repeat split; constructor.
Defined.

Lemma session_timeout_fires_once_witness :
  let s := run source_config [CameraReady camera env0 t0;
                              FetchSettles (Json NoFace) (t0 + 4800);
                              TimerFires 2 env0 (t0 + 5000)] (initial_state 4) in
  let s' := step source_config (TimerFires 1 env0 (t0 + 10000)) s in
  currentState s' = TIMEOUT
  /\ isRunning s' = false
  /\ authenticationLoop s' = None
  /\ overlay_active (dom s') = true
  /\ notified s' = notified s ++ [{| status := "timeout";
                                     text := "Face verification timeout";
                                     timestamp := t0 + 10000 |}]
  /\ session_timers s' = []
  /\ fetched s' = fetched s.
Proof.
  apply session_timeout_fires_once; [| reflexivity | discriminate].
  apply one_session_timer_at_a_time. repeat split; constructor.
Defined.

End WitnessesOfPart000.

(** ** The guide of [updateOvalGuide] *)

Section OvalGuide.

Lemma round_half_up_bounds (q : Q) :
  (inject_Z (round_half_up q) <= q + (1 # 2))%Q
  /\ (q - (1 # 2) < inject_Z (round_half_up q))%Q.
Proof.
  unfold round_half_up. split; [apply Qfloor_le |].
  pose proof (Qlt_floor (q + (1 # 2))) as H.
  rewrite inject_Z_plus in H. change (inject_Z 1) with 1%Q in H. lra.
Qed.

(** The target size [updateOvalGuide] rounds: between 0 and 80% of the
    video in both directions. *)
Lemma updateOvalGuide_targets (videoWidth videoHeight : Z) :
  0 < videoWidth -> 0 < videoHeight ->
  exists w h : Q,
    (0 <= w <= inject_Z videoWidth * (80 # 100))%Q
    /\ (0 <= h <= inject_Z videoHeight * (80 # 100))%Q
    /\ Part000.updateOvalGuide videoWidth videoHeight =
         {| Oval.x := round_half_up ((inject_Z videoWidth - w) / 2);
            Oval.y := round_half_up ((inject_Z videoHeight - h) / 2);
            Oval.width := round_half_up w;
            Oval.height := round_half_up h |}.
Proof.
  intros Hw Hh.
  assert (Hqw : (0 < inject_Z videoWidth)%Q)
    by (change 0%Q with (inject_Z 0); rewrite <- Zlt_Qlt; exact Hw).
  assert (Hqh : (0 < inject_Z videoHeight)%Q)
    by (change 0%Q with (inject_Z 0); rewrite <- Zlt_Qlt; exact Hh).
  unfold Part000.updateOvalGuide.
  destruct (Qle_bool 1 _); destruct (Qlt_bool _ _);
    (eexists _, _; split; [| split; [| reflexivity]];
     (split; [apply Qmin_nonneg | apply Qmin_le_r])); try nra.
  all: unfold Qdiv; change (/ (75 # 100))%Q with (100 # 75)%Q; nra.
Qed.

(** X9: for a video of at least 10x10 pixels the guide stored by
    [updateOvalGuide] lies inside the video, is centred up to one pixel, and
    is at most 80% of the video (plus the rounding) in each direction. *)
Theorem oval_guide_is_inside_the_video (videoWidth videoHeight : Z) :
  10 <= videoWidth -> 10 <= videoHeight ->
  let g := Part000.updateOvalGuide videoWidth videoHeight in
  0 <= Oval.x g /\ 0 <= Oval.y g
  /\ 0 <= Oval.width g /\ 0 <= Oval.height g
  /\ Oval.x g + Oval.width g <= videoWidth
  /\ Oval.y g + Oval.height g <= videoHeight
  /\ 10 * Oval.width g <= 8 * videoWidth + 5
  /\ 10 * Oval.height g <= 8 * videoHeight + 5
  /\ Z.abs (2 * Oval.x g + Oval.width g - videoWidth) <= 1
  /\ Z.abs (2 * Oval.y g + Oval.height g - videoHeight) <= 1.
Proof.
  intros Hw Hh g.
  destruct (updateOvalGuide_targets videoWidth videoHeight) as (w & h & Bw & Bh & E);
    [lia | lia |].
  subst g. rewrite E. cbn [Oval.x Oval.y Oval.width Oval.height].
  destruct (round_half_up_bounds w) as (W1 & W2).
  destruct (round_half_up_bounds h) as (H1 & H2).
  destruct (round_half_up_bounds ((inject_Z videoWidth - w) / 2)) as (X1 & X2).
  destruct (round_half_up_bounds ((inject_Z videoHeight - h) / 2)) as (Y1 & Y2).
  set (rw := round_half_up w) in *. set (rh := round_half_up h) in *.
  set (rx := round_half_up ((inject_Z videoWidth - w) / 2)) in *.
  set (ry := round_half_up ((inject_Z videoHeight - h) / 2)) in *.
  clearbody rw rh rx ry.
  unfold Qdiv in X1, X2, Y1, Y2. change (/ 2)%Q with (1 # 2)%Q in X1, X2, Y1, Y2.
  assert (Qw : (10 <= inject_Z videoWidth)%Q)
    by (change 10%Q with (inject_Z 10); rewrite <- Zle_Qle; exact Hw).
  assert (Qh : (10 <= inject_Z videoHeight)%Q)
    by (change 10%Q with (inject_Z 10); rewrite <- Zle_Qle; exact Hh).
  assert (Z1 : (-1 < inject_Z rx)%Q) by lra.
  assert (Z2 : (-1 < inject_Z ry)%Q) by lra.
  assert (Z3 : (-1 < inject_Z rw)%Q) by lra.
  assert (Z4 : (-1 < inject_Z rh)%Q) by lra.
  assert (Z5 : (inject_Z (rx + rw) < inject_Z (videoWidth + 1))%Q)
    by (rewrite !inject_Z_plus; change (inject_Z 1) with 1%Q; lra).
  assert (Z6 : (inject_Z (ry + rh) < inject_Z (videoHeight + 1))%Q)
    by (rewrite !inject_Z_plus; change (inject_Z 1) with 1%Q; lra).
  assert (Z7 : (inject_Z (10 * rw) < inject_Z (8 * videoWidth + 5 + 1))%Q)
    by (rewrite !inject_Z_plus, !inject_Z_mult; change (inject_Z 1) with 1%Q;
        change (inject_Z 10) with 10%Q; change (inject_Z 8) with 8%Q;
        change (inject_Z 5) with 5%Q; lra).
  assert (Z8 : (inject_Z (10 * rh) < inject_Z (8 * videoHeight + 5 + 1))%Q)
    by (rewrite !inject_Z_plus, !inject_Z_mult; change (inject_Z 1) with 1%Q;
        change (inject_Z 10) with 10%Q; change (inject_Z 8) with 8%Q;
        change (inject_Z 5) with 5%Q; lra).
  assert (Z9 : (inject_Z (-2) < inject_Z (2 * rx + rw - videoWidth) < inject_Z 2)%Q)
    by (unfold Z.sub; rewrite !inject_Z_plus, !inject_Z_mult, inject_Z_opp;
        change (inject_Z 2) with 2%Q; change (inject_Z (-2)) with (-2)%Q; lra).
  assert (Z10 : (inject_Z (-2) < inject_Z (2 * ry + rh - videoHeight) < inject_Z 2)%Q)
    by (unfold Z.sub; rewrite !inject_Z_plus, !inject_Z_mult, inject_Z_opp;
        change (inject_Z 2) with 2%Q; change (inject_Z (-2)) with (-2)%Q; lra).
  change (-1)%Q with (inject_Z (-1)) in Z1, Z2, Z3, Z4.
  rewrite <- Zlt_Qlt in Z1, Z2, Z3, Z4, Z5, Z6, Z7, Z8.
  destruct Z9 as [Z9a Z9b]. destruct Z10 as [Z10a Z10b].
  rewrite <- Zlt_Qlt in Z9a, Z9b, Z10a, Z10b.
  lia.
Qed.

Lemma oval_guide_is_inside_the_video_witness :
  let g := Part000.updateOvalGuide 640 480 in
  0 <= Oval.x g /\ 0 <= Oval.y g
  /\ 0 <= Oval.width g /\ 0 <= Oval.height g
  /\ Oval.x g + Oval.width g <= 640
  /\ Oval.y g + Oval.height g <= 480
  /\ 10 * Oval.width g <= 8 * 640 + 5
  /\ 10 * Oval.height g <= 8 * 480 + 5
  /\ Z.abs (2 * Oval.x g + Oval.width g - 640) <= 1
  /\ Z.abs (2 * Oval.y g + Oval.height g - 480) <= 1.
Proof.
  apply oval_guide_is_inside_the_video; vm_compute; discriminate.
Defined.

End OvalGuide.

(** ** The evaluator of [app.js] *)

Section Evaluator.
Import App.

Lemma Qlt_bool_false (a b : Q) : Qlt_bool a b = false <-> (b <= a)%Q.
Proof.
  unfold Qlt_bool. rewrite negb_false_iff. apply Qle_bool_iff.
Qed.

(** The distance test, without the quotient. *)
Lemma distance_within_tolerance (a d : Q) :
  (0 < d)%Q ->
  Qlt_bool 50 (a / (d / 2) * 100) = false <-> (4 * a <= d)%Q.
Proof.
  intros Hd. rewrite Qlt_bool_false.
  assert (Hne : ~ (d / 2 == 0)%Q) by (intros E; unfold Qdiv in E; change (/ 2)%Q with (1 # 2)%Q in E; lra).
  pose proof (Qmult_div_r a (d / 2) Hne) as E.
  set (y := (a / (d / 2))%Q) in *. clearbody y.
  unfold Qdiv in E. change (/ 2)%Q with (1 # 2)%Q in E.
  assert (E2 : (y * d == 2 * a)%Q) by (rewrite <- E; ring).
  split; intros H.
  - assert (H1 : (y * d <= (1 # 2) * d)%Q) by (apply Qmult_le_compat_r; lra).
    lra.
  - destruct (Qlt_le_dec (1 # 2) y) as [Hlt | Hle]; [| lra].
    assert (H1 : ((1 # 2) * d < y * d)%Q) by (apply Qmult_lt_compat_r; assumption).
    lra.
Qed.

(** Arithmetic on finite numbers is the arithmetic of their values. *)
Lemma Qlt_bool_comp (a b c d : Q) :
  (a == c)%Q -> (b == d)%Q -> Qlt_bool a b = Qlt_bool c d.
Proof.
  intros E1 E2. unfold Qlt_bool. f_equal.
  destruct (Qle_bool b a) eqn:L1, (Qle_bool d c) eqn:L2; try reflexivity.
  - apply Qle_bool_iff in L1. rewrite E1, E2 in L1. apply Qle_bool_iff in L1. congruence.
  - apply Qle_bool_iff in L2. rewrite <- E1, <- E2 in L2. apply Qle_bool_iff in L2.
    congruence.
Qed.

Lemma represents_Num (q : Q) : JsNumber.represents (JsNumber.Num q) q.
Proof.
  split; [reflexivity | apply Qeq_refl].
Qed.

Lemma represents_finite (a : JsNumber.t) :
  JsNumber.is_finite a = true -> JsNumber.represents a (JsNumber.value a).
Proof.
  intros H. split; [exact H | apply Qeq_refl].
Qed.

Lemma represents_signed (negative : bool) (p q : Q) :
  (p == q)%Q -> JsNumber.represents (JsNumber.signed negative p) q.
Proof.
  intros E. unfold JsNumber.signed. destruct (Qeq_bool p 0) eqn:Z0.
  - apply Qeq_bool_iff in Z0. destruct negative; split; try reflexivity; cbn;
      rewrite <- E, Z0; reflexivity.
  - split; [reflexivity | exact E].
Qed.

Lemma represents_add (a b : JsNumber.t) (p q : Q) :
  JsNumber.represents a p -> JsNumber.represents b q ->
  JsNumber.represents (JsNumber.add a b) (p + q).
Proof.
  intros [Fa Va] [Fb Vb].
  destruct a, b; try discriminate; split; try reflexivity; cbn in *;
    rewrite <- ?Va, <- ?Vb; ring.
Qed.

Lemma represents_neg (a : JsNumber.t) (p : Q) :
  JsNumber.represents a p -> JsNumber.represents (JsNumber.neg a) (- p).
Proof.
  intros [Fa Va]. destruct a; try discriminate; cbn in Va; cbn [JsNumber.neg].
  - destruct (Qeq_bool q 0) eqn:Z0; split; try reflexivity; cbn.
    + apply Qeq_bool_iff in Z0. rewrite <- Va, Z0. reflexivity.
    + rewrite Va. reflexivity.
  - split; [reflexivity |]. cbn. rewrite <- Va. reflexivity.
Qed.

Lemma represents_sub (a b : JsNumber.t) (p q : Q) :
  JsNumber.represents a p -> JsNumber.represents b q ->
  JsNumber.represents (JsNumber.sub a b) (p - q).
Proof.
  intros Ha Hb. unfold JsNumber.sub, Qminus.
  apply represents_add; [exact Ha | apply represents_neg; exact Hb].
Qed.

Lemma represents_abs (a : JsNumber.t) (p : Q) :
  JsNumber.represents a p -> JsNumber.represents (JsNumber.abs a) (Qabs p).
Proof.
  intros [Fa Va]. destruct a; try discriminate; split; try reflexivity; cbn in *.
  - rewrite Va. reflexivity.
  - rewrite <- Va. reflexivity.
Qed.

Lemma represents_mul (a b : JsNumber.t) (p q : Q) :
  JsNumber.represents a p -> JsNumber.represents b q ->
  JsNumber.represents (JsNumber.mul a b) (p * q).
Proof.
  intros [Fa Va] [Fb Vb].
  destruct a, b; try discriminate; cbn [JsNumber.mul]; apply represents_signed;
    cbn in *; rewrite <- ?Va, <- ?Vb; reflexivity.
Qed.

Lemma represents_div (a b : JsNumber.t) (p q : Q) :
  JsNumber.represents a p -> JsNumber.represents b q -> ~ (q == 0)%Q ->
  JsNumber.represents (JsNumber.div a b) (p / q).
Proof.
  intros [Fa Va] [Fb Vb] Hq.
  assert (Zb : JsNumber.is_zero b = false).
  { destruct b; try discriminate; cbn in *.
    - destruct (Qeq_bool q0 0) eqn:Z0; [| reflexivity].
      apply Qeq_bool_iff in Z0. exfalso. apply Hq. rewrite <- Vb. exact Z0.
    - exfalso. apply Hq. rewrite <- Vb. reflexivity. }
  destruct a, b; try discriminate; cbn [JsNumber.div]; rewrite Zb;
    apply represents_signed; cbn in *; rewrite <- ?Va, <- ?Vb; reflexivity.
Qed.

Lemma lt_represents (a b : JsNumber.t) (p q : Q) :
  JsNumber.represents a p -> JsNumber.represents b q ->
  JsNumber.lt a b = Qlt_bool p q.
Proof.
  intros [Fa Va] [Fb Vb].
  destruct a, b; try discriminate; cbn [JsNumber.lt]; apply Qlt_bool_comp; assumption.
Qed.

Lemma half_not_zero (d : Q) : (0 < d)%Q -> ~ (d / 2 == 0)%Q.
Proof.
  intros Hd E. unfold Qdiv in E. change (/ 2)%Q with (1 # 2)%Q in E. lra.
Qed.

(** The area of an oval of positive size is not zero. *)
Lemma ovalArea_not_zero (w h : Q) :
  (0 < w)%Q -> (0 < h)%Q -> ~ (Math_PI * (w / 2) * (h / 2) == 0)%Q.
Proof.
  intros Hw Hh E.
  assert (Hp : (0 < Math_PI)%Q) by reflexivity.
  assert (H1 : (0 < w / 2)%Q)
    by (unfold Qdiv; change (/ 2)%Q with (1 # 2)%Q; lra).
  assert (H2 : (0 < h / 2)%Q)
    by (unfold Qdiv; change (/ 2)%Q with (1 # 2)%Q; lra).
  assert (H3 : (0 < Math_PI * (w / 2))%Q) by (apply Qmult_lt_0_compat; assumption).
  assert (H4 : (0 < Math_PI * (w / 2) * (h / 2))%Q)
    by (apply Qmult_lt_0_compat; assumption).
  rewrite E in H4. apply (Qlt_irrefl 0). exact H4.
Qed.

(** X13: for an oval of positive size, [checkFacePosition] accepts a face
    rectangle whose four fields are numbers exactly when the centres are no
    further apart than a quarter of the oval's width and height and the ratio
    that [calculateHeadSizeRatio] returns lies between 0.15 and 0.85; a face
    rectangle without a numeric [width] and [height] is accepted wherever it
    is, every comparison with [NaN] being false. *)
Theorem position_is_valid_iff (o : Oval.t) (f : FaceRect.t) :
  0 < Oval.width o -> 0 < Oval.height o ->
  exists (check : PositionCheck) (ratio : JsNumber.t),
    checkFacePosition (js_object o) (js_object f) = Returned check
    /\ calculateHeadSizeRatio (js_object o) (js_object f) = Returned ratio
    /\ (forall x y w h : Q,
          JsNumber.represents (FaceRect.x f) x ->
          JsNumber.represents (FaceRect.y f) y ->
          JsNumber.represents (FaceRect.width f) w ->
          JsNumber.represents (FaceRect.height f) h ->
          JsNumber.is_finite ratio = true
          /\ (isValid check = true <->
              (4 * Qabs ((x + w / 2)
                         - (inject_Z (Oval.x o) + inject_Z (Oval.width o) / 2))
                 <= inject_Z (Oval.width o))%Q
              /\ (4 * Qabs ((y + h / 2)
                            - (inject_Z (Oval.y o) + inject_Z (Oval.height o) / 2))
                    <= inject_Z (Oval.height o))%Q
              /\ ((15 # 100) <= JsNumber.value ratio <= (85 # 100))%Q))
    /\ (FaceRect.width f = JsNumber.NaN ->
        FaceRect.height f = JsNumber.NaN ->
        check = {| isValid := true; message := "Face position is good" |}
        /\ ratio = JsNumber.NaN).
Proof.
  intros Hw Hh.
  assert (Qw : (0 < inject_Z (Oval.width o))%Q)
    by (change 0%Q with (inject_Z 0); rewrite <- Zlt_Qlt; exact Hw).
  assert (Qh : (0 < inject_Z (Oval.height o))%Q)
    by (change 0%Q with (inject_Z 0); rewrite <- Zlt_Qlt; exact Hh).
  unfold checkFacePosition, calculateHeadSizeRatio, JsNumber.gt, JsNumber.of_Z.
  cbv zeta.
  set (ow := inject_Z (Oval.width o)) in *. set (oh := inject_Z (Oval.height o)) in *.
  set (ovalArea := JsNumber.mul (JsNumber.mul _ _) _).
  set (ratio := JsNumber.div _ ovalArea).
  set (xd := JsNumber.mul (JsNumber.div (JsNumber.abs _) _) _).
  set (yd := JsNumber.mul (JsNumber.div (JsNumber.abs _) _) _).
  assert (Ra : JsNumber.represents ovalArea (Math_PI * (ow / 2) * (oh / 2))).
  { subst ovalArea. repeat apply represents_mul; try apply represents_Num;
      apply represents_div; try apply represents_Num; discriminate. }
  assert (Numbers : forall x y w h : Q,
            JsNumber.represents (FaceRect.x f) x ->
            JsNumber.represents (FaceRect.y f) y ->
            JsNumber.represents (FaceRect.width f) w ->
            JsNumber.represents (FaceRect.height f) h ->
            JsNumber.represents ratio (w * h / (Math_PI * (ow / 2) * (oh / 2)))
            /\ JsNumber.lt 50%Q xd
               = Qlt_bool 50 (Qabs ((x + w / 2) - (inject_Z (Oval.x o) + ow / 2))
                              / (ow / 2) * 100)
            /\ JsNumber.lt 50%Q yd
               = Qlt_bool 50 (Qabs ((y + h / 2) - (inject_Z (Oval.y o) + oh / 2))
                              / (oh / 2) * 100)).
  { intros x y w h Rx Ry Rw Rh.
    assert (R2 : forall (a : JsNumber.t) (q : Q),
              JsNumber.represents a q ->
              JsNumber.represents (JsNumber.div a 2%Q) (q / 2))
      by (intros a q Ha; apply represents_div;
          [exact Ha | apply represents_Num | discriminate]).
    split; [| split].
    - subst ratio. apply represents_div;
        [apply represents_mul; assumption | exact Ra | apply ovalArea_not_zero; assumption].
    - apply lt_represents; [apply represents_Num |]. subst xd.
      apply represents_mul; [| apply represents_Num].
      apply represents_div; [| apply R2, represents_Num | apply half_not_zero; exact Qw].
      apply represents_abs, represents_sub; apply represents_add;
        try assumption; try apply represents_Num; apply R2;
        try assumption; apply represents_Num.
    - apply lt_represents; [apply represents_Num |]. subst yd.
      apply represents_mul; [| apply represents_Num].
      apply represents_div; [| apply R2, represents_Num | apply half_not_zero; exact Qh].
      apply represents_abs, represents_sub; apply represents_add;
        try assumption; try apply represents_Num; apply R2;
        try assumption; apply represents_Num. }
  assert (Missing : FaceRect.width f = JsNumber.NaN ->
                    FaceRect.height f = JsNumber.NaN ->
                    ratio = JsNumber.NaN
                    /\ JsNumber.lt 50%Q xd = false /\ JsNumber.lt 50%Q yd = false).
  { intros Ew Eh. subst ratio xd yd. rewrite Ew, Eh.
    destruct (FaceRect.x f), (FaceRect.y f); repeat split; reflexivity. }
  clearbody ratio xd yd.
  exists (match JsNumber.lt 50%Q xd, JsNumber.lt 50%Q yd,
                JsNumber.lt ratio (15 # 100)%Q, JsNumber.lt (85 # 100)%Q ratio with
          | true, _, _, _ =>
              {| isValid := false;
                 message := String.append "Move your face "
                   (if JsNumber.lt
                         (JsNumber.add (FaceRect.x f)
                            (JsNumber.div (FaceRect.width f) 2%Q))
                         (JsNumber.add (JsNumber.Num (inject_Z (Oval.x o)))
                            (JsNumber.div (JsNumber.Num ow) 2%Q))
                    then "right" else "left") |}
          | false, true, _, _ =>
              {| isValid := false;
                 message := String.append "Move your face "
                   (if JsNumber.lt
                         (JsNumber.add (FaceRect.y f)
                            (JsNumber.div (FaceRect.height f) 2%Q))
                         (JsNumber.add (JsNumber.Num (inject_Z (Oval.y o)))
                            (JsNumber.div (JsNumber.Num oh) 2%Q))
                    then "down" else "up") |}
          | false, false, true, _ =>
              {| isValid := false; message := "Move closer to the camera" |}
          | false, false, false, true =>
              {| isValid := false; message := "Move back from the camera" |}
          | false, false, false, false =>
              {| isValid := true; message := "Face position is good" |}
          end), ratio.
  split; [| split; [reflexivity |]].
  { destruct (JsNumber.lt 50%Q xd), (JsNumber.lt 50%Q yd),
      (JsNumber.lt ratio (15 # 100)%Q), (JsNumber.lt (85 # 100)%Q ratio); reflexivity. }
  split.
  - intros x y w h Rx Ry Rw Rh.
    destruct (Numbers x y w h Rx Ry Rw Rh) as (Rr & Ex & Ey).
    split; [exact (proj1 Rr) |].
    rewrite Ex, Ey.
    rewrite (lt_represents _ _ _ _ (represents_finite ratio (proj1 Rr))
               (represents_Num (15 # 100))).
    rewrite (lt_represents _ _ _ _ (represents_Num (85 # 100))
               (represents_finite ratio (proj1 Rr))).
    pose proof (distance_within_tolerance
                  (Qabs ((x + w / 2) - (inject_Z (Oval.x o) + ow / 2))) _ Qw) as Tx.
    pose proof (distance_within_tolerance
                  (Qabs ((y + h / 2) - (inject_Z (Oval.y o) + oh / 2))) _ Qh) as Ty.
    destruct (Qlt_bool 50 _) eqn:E1 in |- *.
    { cbn [isValid]. split; [discriminate |]. intros (H & _).
      apply Tx in H. rewrite H in E1. discriminate E1. }
    destruct (Qlt_bool 50 _) eqn:E2 in |- *.
    { cbn [isValid]. split; [discriminate |]. intros (_ & H & _).
      apply Ty in H. rewrite H in E2. discriminate E2. }
    destruct (Qlt_bool (JsNumber.value ratio) (15 # 100)) eqn:E3.
    { cbn [isValid]. split; [discriminate |]. intros (_ & _ & H & _).
      apply Qlt_bool_false in H. rewrite H in E3. discriminate E3. }
    destruct (Qlt_bool (85 # 100) (JsNumber.value ratio)) eqn:E4.
    { cbn [isValid]. split; [discriminate |]. intros (_ & _ & _ & H).
      apply Qlt_bool_false in H. rewrite H in E4. discriminate E4. }
    cbn [isValid]. split; [intros _ | reflexivity].
    repeat split; [apply Tx; exact E1 | apply Ty; exact E2
                  | apply Qlt_bool_false, E3 | apply Qlt_bool_false, E4].
  - intros Ew Eh. destruct (Missing Ew Eh) as (-> & -> & ->).
    split; reflexivity.
Qed.

Lemma position_is_valid_iff_witness :
  exists (check : PositionCheck) (ratio : JsNumber.t),
    checkFacePosition (js_object (Oval.make 185 60 270 360))
      (js_object (FaceRect.make 245 165 150 150)) = Returned check
    /\ calculateHeadSizeRatio (js_object (Oval.make 185 60 270 360))
         (js_object (FaceRect.make 245 165 150 150)) = Returned ratio
    /\ JsNumber.is_finite ratio = true
    /\ (isValid check = true <->
        (4 * Qabs ((245 + 150 / 2) - (inject_Z 185 + inject_Z 270 / 2)) <= inject_Z 270)%Q
        /\ (4 * Qabs ((165 + 150 / 2) - (inject_Z 60 + inject_Z 360 / 2)) <= inject_Z 360)%Q
        /\ ((15 # 100) <= JsNumber.value ratio <= (85 # 100))%Q).
Proof.
  destruct (position_is_valid_iff (Oval.make 185 60 270 360)
              (FaceRect.make 245 165 150 150) eq_refl eq_refl)
    as (check & ratio & Hc & Hr & Hn & _).
  exists check, ratio.
  exact (conj Hc (conj Hr
           (Hn 245%Q 165%Q 150%Q 150%Q (represents_Num 245) (represents_Num 165)
               (represents_Num 150) (represents_Num 150)))).
Defined.

End Evaluator.

Section ScreenToVideo.

Lemma round_half_up_comp (a b : Q) : (a == b)%Q -> round_half_up a = round_half_up b.
Proof.
  intros H. unfold round_half_up. apply Qfloor_comp. rewrite H. reflexivity.
Qed.

Lemma Qmin_same (a b c : Q) : (a == c)%Q -> (b == c)%Q -> (Qmin a b == c)%Q.
Proof.
  intros Ha Hb. unfold Qmin. destruct (Qle_bool a b); assumption.
Qed.

(** Rounding gives one of the two neighbouring integers. *)
Lemma round_half_up_between (q : Q) : Qfloor q <= round_half_up q <= Qceiling q.
Proof.
  unfold round_half_up. split.
  - apply Qfloor_resp_le. lra.
  - pose proof (Qfloor_le (q + (1 # 2))) as H1.
    pose proof (Qle_ceiling q) as H2.
    assert (H3 : (inject_Z (Qfloor (q + (1 # 2))) < inject_Z (Qceiling q + 1))%Q).
    { rewrite inject_Z_plus. change (inject_Z 1) with 1%Q. lra. }
    rewrite <- Zlt_Qlt in H3. lia.
Qed.

(** When the video fills its box, the letterbox offsets vanish and the
    scale is [1 / k]: the fraction that is rounded is the guide's offset
    inside the box divided by [k]. *)
Lemma ovalData_offset (vw vh : Z) (vRect oRect : DOMRect.t) (k : Q) :
  0 < vw -> 0 < vh -> (0 < k)%Q ->
  (DOMRect.width vRect == k * inject_Z vw)%Q ->
  (DOMRect.height vRect == k * inject_Z vh)%Q ->
  let r := Part000.ovalData vw vh vRect oRect in
  Oval.x r = Z.max 0 (round_half_up ((DOMRect.left oRect - DOMRect.left vRect) / k))
  /\ Oval.y r = Z.max 0 (round_half_up ((DOMRect.top oRect - DOMRect.top vRect) / k)).
Proof.
  intros Hw Hh Hk Ew Eh r. subst r.
  assert (Qw : (0 < inject_Z vw)%Q)
    by (change 0%Q with (inject_Z 0); rewrite <- Zlt_Qlt; exact Hw).
  assert (Qh : (0 < inject_Z vh)%Q)
    by (change 0%Q with (inject_Z 0); rewrite <- Zlt_Qlt; exact Hh).
  set (W := inject_Z vw) in *. set (H := inject_Z vh) in *.
  assert (Nk : ~ (k == 0)%Q) by lra.
  assert (NW : ~ (W == 0)%Q) by lra.
  assert (NH : ~ (H == 0)%Q) by lra.
  assert (Easp : (DOMRect.width vRect / DOMRect.height vRect == W / H)%Q)
    by (rewrite Ew, Eh; field; split; assumption).
  assert (Esx : (W / DOMRect.width vRect == 1 / k)%Q)
    by (rewrite Ew; field; split; assumption).
  assert (Esy : (H / DOMRect.height vRect == 1 / k)%Q)
    by (rewrite Eh; field; split; assumption).
  pose proof (Qmin_same _ _ _ Esx Esy) as Escale.
  unfold Part000.ovalData. fold W H.
  set (scale := Qmin _ _) in *.
  assert (Enot : Qlt_bool (W / H) (DOMRect.width vRect / DOMRect.height vRect) = false)
    by (apply Qlt_bool_false; rewrite Easp; apply Qle_refl).
  rewrite Enot.
  assert (Ey : ((DOMRect.height vRect - DOMRect.width vRect / (W / H)) / 2 == 0)%Q)
    by (rewrite Ew, Eh; field; split; assumption).
  destruct (Qle_bool 1 (W / H)); cbn [Oval.x Oval.y]; split; f_equal;
    apply round_half_up_comp; rewrite ?Ey, Escale; field; assumption.
Qed.

(** X10: when the video fills its box (the box is the video scaled by
    [k]), [captureFrame] places the region within one pixel of the guide's
    offset inside the box divided by [k], and never left of or above the
    video: [x] lies between the offset rounded down and the offset rounded
    up, both taken to 0 when negative, and so does [y]. *)
Theorem region_follows_the_guide (vw vh : Z) (vRect oRect : DOMRect.t) (k : Q) :
  0 < vw -> 0 < vh -> (0 < k)%Q ->
  (DOMRect.width vRect == k * inject_Z vw)%Q ->
  (DOMRect.height vRect == k * inject_Z vh)%Q ->
  let r := Part000.ovalData vw vh vRect oRect in
  let offsetX := ((DOMRect.left oRect - DOMRect.left vRect) / k)%Q in
  let offsetY := ((DOMRect.top oRect - DOMRect.top vRect) / k)%Q in
  Z.max 0 (Qfloor offsetX) <= Oval.x r <= Z.max 0 (Qceiling offsetX)
  /\ Z.max 0 (Qfloor offsetY) <= Oval.y r <= Z.max 0 (Qceiling offsetY).
Proof.
  intros Hw Hh Hk Ew Eh r offsetX offsetY.
  destruct (ovalData_offset vw vh vRect oRect k Hw Hh Hk Ew Eh) as (Ex & Ey).
  fold r in Ex, Ey. fold offsetX in Ex. fold offsetY in Ey. rewrite Ex, Ey.
  pose proof (round_half_up_between offsetX) as Bx.
  pose proof (round_half_up_between offsetY) as By.
  lia.
Qed.

Lemma region_follows_the_guide_witness :
  let r := Part000.ovalData 640 480 (DOMRect.make 10 20 320 240)
             (DOMRect.make 110 50 135 180) in
  Z.max 0 (Qfloor ((110 - 10) / (1 # 2))) <= Oval.x r
    <= Z.max 0 (Qceiling ((110 - 10) / (1 # 2)))
  /\ Z.max 0 (Qfloor ((50 - 20) / (1 # 2))) <= Oval.y r
       <= Z.max 0 (Qceiling ((50 - 20) / (1 # 2))).
Proof.
  apply (region_follows_the_guide 640 480 (DOMRect.make 10 20 320 240)
           (DOMRect.make 110 50 135 180) (1 # 2)); reflexivity.
Defined.

End ScreenToVideo.

(** ** The presenter of [app.js] *)

Section Presenter.
Import App.

(** Removing several classes is one filter. *)
Lemma classList_remove_all_filter (cs : list string) (l : classList) :
  classList_remove_all cs l = filter (fun x => negb (existsb (String.eqb x) cs)) l.
Proof.
  unfold classList_remove_all. revert l.
  induction cs as [| c cs IH]; intros l; cbn [fold_left existsb].
  - induction l as [| x l IHl]; [reflexivity | cbn; f_equal; exact IHl].
  - rewrite IH. unfold classList_remove.
    induction l as [| x l IHl]; [reflexivity |].
    cbn [filter]. rewrite (String.eqb_sym c x).
    destruct (String.eqb x c); cbn [negb orb filter]; [exact IHl |].
    destruct (negb (existsb (String.eqb x) cs)); [f_equal |]; exact IHl.
Qed.

Lemma classList_contains_filter (P : string -> bool) (k : string) (l : classList) :
  classList_contains k (filter P l) = P k && classList_contains k l.
Proof.
  unfold classList_contains. induction l as [| x l IH].
  - cbn. rewrite andb_false_r. reflexivity.
  - cbn [filter existsb]. destruct (String.eqb k x) eqn:E.
    + apply String.eqb_eq in E. subst x. destruct (P k); cbn.
      * rewrite String.eqb_refl. reflexivity.
      * rewrite IH. reflexivity.
    + destruct (P x); cbn [existsb]; rewrite ?E; cbn [orb]; exact IH.
Qed.

Lemma classList_contains_add (c k : string) (l : classList) :
  classList_contains k (classList_add c l) = String.eqb k c || classList_contains k l.
Proof.
  unfold classList_add. destruct (classList_contains c l) eqn:E.
  - destruct (String.eqb k c) eqn:Ek; [| reflexivity].
    apply String.eqb_eq in Ek. subst k. rewrite E. reflexivity.
  - unfold classList_contains. rewrite existsb_app. cbn.
    rewrite orb_false_r. apply orb_comm.
Qed.

(** Adding classes that the filter rejects does not show through it. *)
Lemma filter_add_rejected (P : string -> bool) (cs : list string) (l : classList) :
  forallb (fun c => negb (P c)) cs = true ->
  filter P (fold_left (fun acc c => classList_add c acc) cs l) = filter P l.
Proof.
  revert l. induction cs as [| c cs IH]; intros l Hcs; [reflexivity |].
  cbn in Hcs. apply andb_true_iff in Hcs as [Hc Hcs]. cbn [fold_left].
  rewrite (IH _ Hcs). unfold classList_add.
  destruct (classList_contains c l); [reflexivity |].
  rewrite filter_app. cbn. apply negb_true_iff in Hc. rewrite Hc. apply app_nil_r.
Qed.

Lemma filter_twice (P : string -> bool) (l : classList) :
  filter P (filter P l) = filter P l.
Proof.
  induction l as [| x l IH]; [reflexivity |].
  cbn. destruct (P x) eqn:E; [cbn; rewrite E; f_equal |]; exact IH.
Qed.

(** Remove [removed], then add [added]: doing it twice is doing it once, as
    long as what is added is among what is removed. *)
Lemma repaint_twice (removed added : list string) (l : classList) :
  forallb (fun c => existsb (String.eqb c) removed) added = true ->
  let repaint l := fold_left (fun acc c => classList_add c acc) added
                     (classList_remove_all removed l) in
  repaint (repaint l) = repaint l.
Proof.
  intros Ha repaint. subst repaint. cbv beta.
  rewrite !classList_remove_all_filter, filter_add_rejected, filter_twice; [reflexivity |].
  rewrite forallb_forall in Ha |- *. intros c Hc. rewrite negb_involutive. apply Ha, Hc.
Qed.

(** An applied [updateUI], element by element. *)
Lemma updateUI_elements (now : Z) (n : AUTH_STATE) (m h : string) (s : State) :
  currentState s <> AUTHENTICATED ->
  300 <= now - lastUIUpdate s ->
  let s' := updateUI now n m h s in
  current (ovalState s') = fst (painted n m)
  /\ elements s' =
       {| ovalBorder :=
            fold_left (fun acc k => classList_add k acc) [fst (painted n m)]
              (classList_remove_all oval_state_classes (ovalBorder (elements s)));
          statusDisplay_classList :=
            fold_left (fun acc k => classList_add k acc) (snd (painted n m))
              (classList_remove_all status_state_classes
                 (statusDisplay_classList (elements s)));
          statusDisplay_textContent := str_or m "Position your face in the oval";
          statusHint_textContent := str_or h "";
          canvas_size := canvas_size (elements s) |}.
Proof.
  intros Hc Hw s'. subst s'. unfold updateUI, updateUI_enter.
  rewrite (AUTH_STATE_eqb_neq _ _ Hc).
  replace (now - lastUIUpdate s <? 300) with false by (symmetry; apply Z.ltb_ge; exact Hw).
  unfold updateUI_finish, painted.
  destruct n; [destruct (includes "Processing" m) | | |]; split; reflexivity.
Qed.

Lemma painted_among_state_classes (n : AUTH_STATE) (m : string) :
  forallb (fun c => existsb (String.eqb c) oval_state_classes) [fst (painted n m)] = true
  /\ forallb (fun c => existsb (String.eqb c) status_state_classes) (snd (painted n m))
     = true.
Proof.
  unfold painted.
  destruct n; [destruct (includes "Processing" m) | | |]; split; reflexivity.
Qed.

(** X11: the presenter is idempotent: asking [updateUI] again for the same
    state, message and hint, at whatever later time, leaves the elements and
    the state as the first call painted them. *)
Theorem updateUI_is_idempotent (now1 now2 : Z) (n : AUTH_STATE) (m h : string) (s : State) :
  currentState s <> AUTHENTICATED ->
  300 <= now1 - lastUIUpdate s ->
  let s1 := updateUI now1 n m h s in
  let s2 := updateUI now2 n m h s1 in
  elements s2 = elements s1
  /\ currentState s2 = currentState s1
  /\ current (ovalState s2) = current (ovalState s1).
Proof.
  intros Hc Hw s1 s2.
  destruct (updateUI_applied now1 n m h s Hc Hw) as (Hn & Hl & _). fold s1 in Hn, Hl.
  destruct (AUTH_STATE_eqb n AUTHENTICATED) eqn:En.
  { apply AUTH_STATE_eqb_eq in En. subst s2.
    rewrite updateUI_authenticated by (rewrite Hn; exact En). repeat split. }
  destruct (now2 - now1 <? 300) eqn:Ew.
  { subst s2. rewrite updateUI_suppressed by (rewrite Hl; apply Z.ltb_lt; exact Ew).
    repeat split. }
  assert (Hc1 : currentState s1 <> AUTHENTICATED)
    by (rewrite Hn; intros E; rewrite E in En; discriminate En).
  assert (Hw1 : 300 <= now2 - lastUIUpdate s1) by (rewrite Hl; apply Z.ltb_ge; exact Ew).
  destruct (updateUI_elements now1 n m h s Hc Hw) as (C1 & E1). fold s1 in C1, E1.
  destruct (updateUI_elements now2 n m h s1 Hc1 Hw1) as (C2 & E2). fold s2 in C2, E2.
  destruct (updateUI_applied now2 n m h s1 Hc1 Hw1) as (Hn2 & _). fold s2 in Hn2.
  destruct (painted_among_state_classes n m) as (P1 & P2).
  split; [| split; congruence].
  rewrite E2, E1. cbn [ovalBorder statusDisplay_classList canvas_size].
  f_equal.
  - apply (repaint_twice oval_state_classes [fst (painted n m)]). exact P1.
  - apply (repaint_twice status_state_classes (snd (painted n m))). exact P2.
Qed.

Lemma updateUI_is_idempotent_witness :
  let s1 := updateUI (Session.t0 + 1000) ANALYZING "Verifying..." "Keep still (1/3)"
              Session.app_waiting in
  let s2 := updateUI (Session.t0 + 2000) ANALYZING "Verifying..." "Keep still (1/3)" s1 in
  elements s2 = elements s1
  /\ currentState s2 = currentState s1
  /\ current (ovalState s2) = current (ovalState s1).
Proof.
  apply updateUI_is_idempotent; [discriminate | vm_compute; discriminate].
Defined.

(** *** The oval over the turns of the event loop *)

Lemma state_classes_removed (l : classList) :
  state_classes (classList_remove_all oval_state_classes l) = [].
Proof.
  unfold state_classes. rewrite classList_remove_all_filter.
  induction l as [| x l IH]; [reflexivity |].
  cbn [filter]. destruct (existsb (String.eqb x) oval_state_classes) eqn:E;
    cbn [negb filter]; [| rewrite E]; exact IH.
Qed.

Lemma other_classes_removed (l : classList) :
  other_classes (classList_remove_all oval_state_classes l) = other_classes l.
Proof.
  unfold other_classes. rewrite classList_remove_all_filter. apply filter_twice.
Qed.

Lemma state_classes_added (c : string) (l : classList) :
  existsb (String.eqb c) oval_state_classes = true ->
  state_classes l = [] ->
  state_classes (classList_add c l) = [c].
Proof.
  intros Hc Hl. unfold classList_add. destruct (classList_contains c l) eqn:E.
  - exfalso.
    pose proof (classList_contains_filter
                  (fun k => existsb (String.eqb k) oval_state_classes) c l) as H.
    cbv beta in H. rewrite Hc, E in H. fold (state_classes l) in H.
    rewrite Hl in H. discriminate H.
  - unfold state_classes in *. rewrite filter_app, Hl. cbn [filter app].
    rewrite Hc. reflexivity.
Qed.

Lemma other_classes_added (c : string) (l : classList) :
  existsb (String.eqb c) oval_state_classes = true ->
  other_classes (classList_add c l) = other_classes l.
Proof.
  intros Hc. unfold classList_add. destruct (classList_contains c l); [reflexivity |].
  unfold other_classes. rewrite filter_app. cbn [filter]. rewrite Hc. apply app_nil_r.
Qed.

Lemma painted_is_state_class (n : AUTH_STATE) (m : string) :
  existsb (String.eqb (fst (painted n m))) oval_state_classes = true.
Proof.
  unfold painted. destruct n; [destruct (includes "Processing" m) | | |]; reflexivity.
Qed.

(** What the caller does when [updateUI] has returned leaves the oval. *)
Lemma returned_oval (caller : Caller) (now : Z) (s : State) :
  ovalBorder (elements (returned caller now s)) = ovalBorder (elements s)
  /\ ovalState (returned caller now s) = ovalState s.
Proof.
  destruct caller as [| flutter name |]; unfold returned; [split; reflexivity | |].
  - unfold handleSuccessfulAuthentication_resume, when.
    destruct (stream s), flutter; split; reflexivity.
  - unfold processFrame_resume, when.
    destruct (_ && _); split; reflexivity.
Qed.

(** A call up to its first wait: the oval has lost its state classes when
    the call waits between removal and paint, and is as it was otherwise. *)
Lemma updateUI_call_oval (now : Z) (n : AUTH_STATE) (m h : string) (caller : Caller)
  (later : Z) (s s' : State) (w : option Waiting) :
  updateUI_call now n m h caller later s = (s', w) ->
  current (ovalState s') = current (ovalState s)
  /\ ovalBorder (elements s') =
       if existsb in_transition (option_list w)
       then classList_remove_all oval_state_classes (ovalBorder (elements s))
       else ovalBorder (elements s).
Proof.
  unfold updateUI_call, updateUI_enter.
  destruct (AUTH_STATE_eqb (currentState s) AUTHENTICATED).
  { intros E. injection E as <- <-. destruct (returned_oval caller later s) as (H1 & H2).
    rewrite H1, H2. split; reflexivity. }
  destruct (now - lastUIUpdate s <? 300).
  { intros E. injection E as <- <-. destruct (returned_oval caller later s) as (H1 & H2).
    rewrite H1, H2. split; reflexivity. }
  cbn [ovalState set_lastUIUpdate].
  destruct (transitioning (ovalState s)); intros E; injection E as <- <-;
    split; reflexivity.
Qed.

Lemma start_oval (c : Call) (s s' : State) (w : option Waiting) :
  start c s = (s', w) ->
  current (ovalState s') = current (ovalState s)
  /\ ovalBorder (elements s') =
       if existsb in_transition (option_list w)
       then classList_remove_all oval_state_classes (ovalBorder (elements s))
       else ovalBorder (elements s).
Proof.
  destruct c as [now n m h | env now | flutter now later name]; unfold start.
  - apply updateUI_call_oval.
  - unfold processFrame_call.
    destruct (negb (isRunning s) || isProcessing s);
      [intros E; injection E as <- <-; split; reflexivity |].
    cbn [lastProcessedTime set_isProcessing].
    destruct (now - lastProcessedTime s <? MIN_FRAME_INTERVAL).
    { unfold when. destruct (isRunning _); intros E; injection E as <- <-;
        split; reflexivity. }
    unfold captureFrame.
    destruct ((videoWidth env =? 0) || (videoHeight env =? 0));
      [intros E; apply updateUI_call_oval in E; exact E |].
    destruct (drawImage_throws env);
      [intros E; apply updateUI_call_oval in E; exact E |].
    intros E; injection E as <- <-; split; reflexivity.
  - unfold handleSuccessfulAuthentication_call.
    destruct (String.eqb name "");
      [intros E; injection E as <- <-; split; reflexivity |].
    intros E; apply updateUI_call_oval in E; exact E.
Qed.

(** The waiting call at place [i], and the ones before and after it. *)
Lemma waiting_split (ws : list Waiting) (i : nat) (w : Waiting) :
  nth_error ws i = Some w ->
  ws = firstn i ws ++ w :: skipn (S i) ws.
Proof.
  revert i. induction ws as [| x ws IH]; intros [| i] H; try discriminate H.
  - injection H as ->. reflexivity.
  - cbn [firstn skipn app]. f_equal. apply IH. exact H.
Qed.

Lemma no_transition (ws : list Waiting) :
  List.length (filter in_transition ws) = 0%nat -> existsb in_transition ws = false.
Proof.
  induction ws as [| x ws IH]; [reflexivity |].
  cbn [filter existsb]. destruct (in_transition x); [discriminate | exact IH].
Qed.

(** One turn keeps the oval in step with [state.ovalState.current], and
    never touches the other classes. *)
Lemma turn_oval (t : Turn) (l : EventLoop) :
  one_transition_at_a_time l = true ->
  oval_shows_current l ->
  oval_shows_current (turn t l)
  /\ other_classes (ovalBorder (elements (state (turn t l))))
     = other_classes (ovalBorder (elements (state l))).
Proof.
  intros Hone Hinv. unfold oval_shows_current in *.
  destruct t as [c | i now]; unfold turn.
  - destruct (start c (state l)) as [s' w] eqn:E.
    apply start_oval in E as (Ec & Eo). cbn [state waiting].
    rewrite existsb_app, Eo, Ec.
    destruct (existsb in_transition (option_list w)).
    + rewrite orb_true_r. split; [apply state_classes_removed | apply other_classes_removed].
    + rewrite orb_false_r. split; [exact Hinv | reflexivity].
  - destruct (nth_error (waiting l) i) as [w |] eqn:Hn; [| split; [exact Hinv | reflexivity]].
    destruct (due w <=? now); [| split; [exact Hinv | reflexivity]].
    pose proof (waiting_split _ _ _ Hn) as Hs.
    set (before := firstn i (waiting l)) in *. set (after := skipn (S i) (waiting l)) in *.
    rewrite Hs in Hinv. rewrite existsb_app in Hinv. cbn [existsb] in Hinv.
    unfold one_transition_at_a_time in Hone. rewrite Hs in Hone.
    rewrite filter_app, length_app in Hone. cbn [filter] in Hone.
    apply Nat.leb_le in Hone.
    unfold in_transition at 2 in Hinv. unfold in_transition at 2 in Hone.
    destruct (suspended w) as [now0 n m h caller | now0 n m h caller | caller];
      cbn [resume state waiting option_list app]; rewrite !existsb_app; cbn [existsb].
    + unfold in_transition at 2. cbn [suspended]. rewrite orb_true_r.
      split; [apply state_classes_removed | apply other_classes_removed].
    + unfold in_transition at 2. cbn [suspended orb].
      cbn [List.length] in Hone.
      assert (H1 : existsb in_transition before = false) by (apply no_transition; lia).
      assert (H2 : existsb in_transition after = false) by (apply no_transition; lia).
      rewrite H1, H2. rewrite orb_true_r in Hinv. cbn [orb].
      assert (Ep : ovalBorder (elements (updateUI_paint now0 n m h (state l)))
                   = classList_add (fst (painted n m)) (ovalBorder (elements (state l)))
                   /\ current (ovalState (updateUI_paint now0 n m h (state l)))
                      = fst (painted n m)).
      { unfold updateUI_paint. destruct (painted n m). split; reflexivity. }
      destruct Ep as (-> & ->).
      split; [apply state_classes_added; [apply painted_is_state_class | exact Hinv]
             | apply other_classes_added, painted_is_state_class].
    + destruct (returned_oval caller now (updateUI_finally (state l))) as (R1 & R2).
      rewrite R1, R2. cbn [orb] in Hinv |- *. split; [exact Hinv | reflexivity].
Qed.

(** An applied call with nothing running between its pieces leaves the
    oval in step, whatever classes it carried before. *)
Lemma applied_call_shows_current (now : Z) (n : AUTH_STATE) (m h : string) (s : State) :
  currentState s <> AUTHENTICATED ->
  300 <= now - lastUIUpdate s ->
  oval_shows_current {| state := updateUI now n m h s; waiting := [] |}.
Proof.
  intros Hc Hw. unfold oval_shows_current. cbn [state waiting existsb].
  destruct (updateUI_elements now n m h s Hc Hw) as (C & E).
  rewrite C, E. cbn [ovalBorder fold_left].
  apply state_classes_added; [apply painted_is_state_class | apply state_classes_removed].
Qed.

(** Two calls between removal and paint at once: the run of
    [Session.overlapping_turns] ends with two state classes on the oval,
    of which [state.ovalState.current] names the one painted last, and in the
    analyzing phase although the greeting was painted and the host told. *)
Lemma overlapping_calls_leave_two_classes :
  let l := turns Session.overlapping_turns Session.loop_waiting in
  forallb one_transition_at_a_time
    (visited Session.overlapping_turns Session.loop_waiting) = false
  /\ ovalBorder (elements (state l)) = ["oval-border"; "success"; "analyzing"]
  /\ current (ovalState (state l)) = "analyzing"
  /\ currentState (state l) = ANALYZING
  /\ statusDisplay_textContent (elements (state l)) = "Verifying..."
  /\ handlerCalls (state l)
     = [{| status := "success"; name := "Ann Lee"; timestamp := Session.t0 + 1950 |}]
  /\ waiting l = [].
Proof.
  vm_compute. repeat split; reflexivity.
Qed.

(** X12: over the turns of the event loop (calls of the entry points and
    timers of waiting calls of [updateUI]), as long as no two calls are
    between the removal of the classes and their paint at the same time, the
    oval carries no state class while a call is between removal and paint
    and exactly one otherwise: the one recorded in [state.ovalState.current],
    which is one of the five.  The other classes of the oval are never
    touched. *)
Theorem oval_carries_one_state_class (ts : list Turn) (l : EventLoop) :
  oval_shows_current l ->
  Forall (fun l' => one_transition_at_a_time l' = true) (visited ts l) ->
  let l' := turns ts l in
  oval_shows_current l'
  /\ (existsb in_transition (waiting l') = false ->
      state_classes (ovalBorder (elements (state l'))) = [current (ovalState (state l'))]
      /\ In (current (ovalState (state l'))) oval_state_classes)
  /\ other_classes (ovalBorder (elements (state l')))
     = other_classes (ovalBorder (elements (state l))).
Proof.
  intros Hinv Hone l'. subst l'.
  assert (H : oval_shows_current (turns ts l)
              /\ other_classes (ovalBorder (elements (state (turns ts l))))
                 = other_classes (ovalBorder (elements (state l)))).
  { revert l Hinv Hone. unfold turns.
    induction ts as [| t ts IH]; intros l Hinv Hone; [split; [exact Hinv | reflexivity] |].
    cbn [visited] in Hone. inversion Hone as [| ? ? H1 H2]; subst.
    destruct (turn_oval t l H1 Hinv) as (Hi & Ho).
    cbn [fold_left]. destruct (IH (turn t l) Hi H2) as (IHi & IHo).
    split; [exact IHi | rewrite IHo; exact Ho]. }
  destruct H as (Hi & Ho). split; [exact Hi |]. split; [| exact Ho].
  intros Hq. unfold oval_shows_current in Hi. rewrite Hq in Hi.
  split; [exact Hi |].
  assert (Hin : In (current (ovalState (state (turns ts l))))
                  (state_classes (ovalBorder (elements (state (turns ts l))))))
    by (rewrite Hi; left; reflexivity).
  unfold state_classes in Hin. apply filter_In in Hin as (_ & Hin).
  apply existsb_exists in Hin as (k & Hk & Ek).
  apply String.eqb_eq in Ek. subst k. exact Hk.
Qed.

Lemma oval_carries_one_state_class_witness :
  let l' := turns Session.greeting_turns Session.loop_waiting in
  state_classes (ovalBorder (elements (state l'))) = [current (ovalState (state l'))]
  /\ In (current (ovalState (state l'))) oval_state_classes.
Proof.
  assert (Hone : Forall (fun l' => one_transition_at_a_time l' = true)
                   (visited Session.greeting_turns Session.loop_waiting))
    by (repeat constructor).
  destruct (oval_carries_one_state_class Session.greeting_turns Session.loop_waiting
              eq_refl Hone) as (_ & H & _).
  exact (H eq_refl).
Defined.

End Presenter.

(** ** The rest of [app.js]: log panel, start-up check, success, terminal state *)

Section RestOfApp.
Import App.

(** The loop of [debug.log] keeps the five newest entries. *)
Lemma trim_panel_firstn (children : list string) :
  trim_panel children = firstn 5 children.
Proof.
  functional induction (trim_panel children) as [children Hlt IH | children Hge].
  - rewrite IH. apply firstn_removelast. apply Nat.ltb_lt. exact Hlt.
  - symmetry. apply firstn_all2. apply Nat.ltb_ge. exact Hge.
Qed.

(** X17: [debug.log] puts the new entry first and keeps the panel at five
    entries at most: what it leaves are the new entry and the four newest of
    the old ones. *)
Theorem debug_log_keeps_five (message : string) (data : option string)
  (children : list string) :
  exists logEntry rest,
    debug_log message data (Some children) = Some (logEntry :: rest)
    /\ logEntry = String.append message
                    (String.append " " (match data with Some json => json | None => "" end))
    /\ rest = firstn 4 children
    /\ (List.length (logEntry :: rest) <= 5)%nat.
Proof.
  eexists _, _. unfold debug_log. cbn [DEBUG negb].
  rewrite trim_panel_firstn, firstn_cons.
  split; [reflexivity |]. split; [reflexivity |]. split; [reflexivity |].
  cbn [List.length]. pose proof (firstn_le_length 4 children) as H. lia.
Qed.

(** X18: [initializeElements] returns [true] exactly when the five elements
    are in the page and the canvas gives a context; otherwise it returns
    [false] and shows an error, which for missing elements names exactly the
    missing ones ([ctx] is never reported). *)
Theorem initializeElements_succeeds_iff (p : Page) :
  (fst (initializeElements p) = true <->
   has_video p = true /\ has_canvas p = true /\ has_status p = true
   /\ has_statusHint p = true /\ has_ovalBorder p = true /\ has_context p = true)
  /\ (fst (initializeElements p) = false <-> snd (initializeElements p) <> None)
  /\ (forall key, In key (missingElements p) <->
                  In (key, false) (entries p) /\ key <> "ctx").
Proof.
  destruct p as [v c st sh ob cx]. split; [| split].
  - destruct v, c, st, sh, ob, cx; cbn; intuition congruence.
  - destruct v, c, st, sh, ob, cx; cbn; intuition congruence.
  - intros key. unfold missingElements. rewrite in_map_iff. split.
    + intros ([k b] & <- & Hin). apply filter_In in Hin as [Hin Hf].
      cbn [fst snd] in *. apply andb_true_iff in Hf as [Hb Hk].
      apply negb_true_iff in Hb, Hk. subst b. split; [exact Hin |].
      apply String.eqb_neq. exact Hk.
    + intros [Hin Hk]. exists (key, false). split; [reflexivity |].
      apply filter_In. split; [exact Hin |]. cbn [fst snd negb andb].
      apply negb_true_iff, String.eqb_neq. exact Hk.
Qed.

(** [name.split(' ')[0]]: the text before the first space. *)
Lemma first_word_prefix (name : string) :
  exists rest,
    name = String.append (first_word name) rest
    /\ (rest = "" \/ exists r, rest = String " "%char r)
    /\ ~ In " "%char (list_ascii_of_string (first_word name)).
Proof.
  induction name as [| c name (rest & E & Hr & Hn)].
  - exists "". cbn. repeat split; [left; reflexivity | intros []].
  - cbn [first_word]. destruct (Ascii.eqb c " ") eqn:Ec.
    + apply Ascii.eqb_eq in Ec. subst c. exists (String " " name).
      cbn. repeat split; [right; eexists; reflexivity | intros []].
    + exists rest. cbn. repeat split.
      * f_equal. exact E.
      * exact Hr.
      * intros [H | H]; [| exact (Hn H)]. subst c. rewrite Ascii.eqb_refl in Ec.
        discriminate Ec.
Qed.

End RestOfApp.

Section SuccessAndTerminal.
Import App.

(** *** A call with nothing running between its pieces *)

Lemma updateUI_finish_pieces (now : Z) (n : AUTH_STATE) (m h : string) (s : State) :
  updateUI_finish now n m h s = updateUI_finally (updateUI_paint now n m h s).
Proof.
  unfold updateUI_finish, updateUI_paint, updateUI_finally, painted.
  destruct n; [destruct (includes "Processing" m) | | |]; reflexivity.
Qed.

(** A call of [updateUI] that finds no other call in its transition, its two
    timers firing with nothing else in between: the state at its end is the
    one [updateUI] gives, and its caller goes on at the time of the second
    timer, or at once when the call returned at a guard. *)
Lemma uninterrupted_updateUI_call (now later t1 t2 : Z) (n : AUTH_STATE) (m h : string)
  (caller : Caller) (s s1 : State) (w : option Waiting) :
  transitioning (ovalState s) = false ->
  now + 50 <= t1 -> t1 + 300 <= t2 ->
  updateUI_call now n m h caller later s = (s1, w) ->
  turns [Wakes 0 t1; Wakes 0 t2] {| state := s1; waiting := option_list w |}
  = {| state := returned caller
                  (match updateUI_enter now s with Some _ => t2 | None => later end)
                  (updateUI now n m h s);
       waiting := [] |}.
Proof.
  intros Ht H1 H2. unfold updateUI_call, updateUI.
  destruct (updateUI_enter now s) as [s0 |] eqn:E.
  - assert (Ht0 : transitioning (ovalState s0) = false).
    { unfold updateUI_enter in E.
      destruct (AUTH_STATE_eqb (currentState s) AUTHENTICATED); [discriminate |].
      destruct (now - lastUIUpdate s <? 300); [discriminate |].
      injection E as <-. exact Ht. }
    rewrite Ht0. intros Ew. injection Ew as <- <-.
    unfold turns. cbn [fold_left turn option_list waiting state nth_error due suspended].
    replace (now + 50 <=? t1) with true by (symmetry; apply Z.leb_le; exact H1).
    cbn [resume firstn skipn app option_list waiting state nth_error due suspended].
    replace (t1 + 300 <=? t2) with true by (symmetry; apply Z.leb_le; exact H2).
    cbn [resume firstn skipn app option_list]. rewrite updateUI_finish_pieces. reflexivity.
  - intros Ew. injection Ew as <- <-. reflexivity.
Qed.

Lemma uninterrupted_updateUI (now t1 t2 : Z) (n : AUTH_STATE) (m h : string)
  (l : EventLoop) :
  waiting l = [] ->
  transitioning (ovalState (state l)) = false ->
  now + 50 <= t1 -> t1 + 300 <= t2 ->
  turns [Calls (UpdateUI now n m h); Wakes 0 t1; Wakes 0 t2] l
  = {| state := updateUI now n m h (state l); waiting := [] |}.
Proof.
  intros Hw Ht H1 H2.
  change (turns [Calls (UpdateUI now n m h); Wakes 0 t1; Wakes 0 t2] l)
    with (turns [Wakes 0 t1; Wakes 0 t2] (turn (Calls (UpdateUI now n m h)) l)).
  unfold turn at 1. unfold start. rewrite Hw.
  destruct (updateUI_call now n m h Detached now (state l)) as [s1 w] eqn:E.
  cbn [app]. rewrite (uninterrupted_updateUI_call _ _ _ _ _ _ _ _ _ _ _ Ht H1 H2 E).
  reflexivity.
Qed.

Lemma uninterrupted_processFrame (env : Env) (now t1 t2 : Z) (l : EventLoop) :
  waiting l = [] ->
  transitioning (ovalState (state l)) = false ->
  now + 50 <= t1 -> t1 + 300 <= t2 ->
  turns [Calls (ProcessFrame env now); Wakes 0 t1; Wakes 0 t2] l
  = {| state := processFrame env now (state l); waiting := [] |}.
Proof.
  intros Hw Ht H1 H2.
  change (turns [Calls (ProcessFrame env now); Wakes 0 t1; Wakes 0 t2] l)
    with (turns [Wakes 0 t1; Wakes 0 t2] (turn (Calls (ProcessFrame env now)) l)).
  unfold turn at 1. unfold start, processFrame_call, processFrame. rewrite Hw.
  destruct (negb (isRunning (state l)) || isProcessing (state l)); [reflexivity |].
  cbn [lastProcessedTime set_isProcessing].
  destruct (now - lastProcessedTime (state l) <? MIN_FRAME_INTERVAL); [reflexivity |].
  destruct (captureFrame env (set_isProcessing true (state l))) as [s0 [frame | msg]] eqn:Ec;
    [reflexivity |].
  assert (Ht0 : transitioning (ovalState (set_framesCollected 0 s0)) = false).
  { unfold captureFrame in Ec.
    destruct ((videoWidth env =? 0) || (videoHeight env =? 0));
      [injection Ec as <- _; exact Ht |].
    destruct (drawImage_throws env); [injection Ec as <- _; exact Ht | discriminate Ec]. }
  destruct (updateUI_call now ERROR "Error processing frame" "" CaptureFailed now
              (set_framesCollected 0 s0)) as [s1 w] eqn:E.
  cbn [app]. rewrite (uninterrupted_updateUI_call _ _ _ _ _ _ _ _ _ _ _ Ht0 H1 H2 E).
  reflexivity.
Qed.

Lemma uninterrupted_handleSuccessfulAuthentication (flutter : bool) (now later t1 t2 : Z)
  (name : string) (l : EventLoop) :
  waiting l = [] ->
  transitioning (ovalState (state l)) = false ->
  now + 50 <= t1 -> t1 + 300 <= t2 ->
  turns [Calls (SuccessfulAuthentication flutter now later name);
         Wakes 0 t1; Wakes 0 t2] l
  = {| state :=
         handleSuccessfulAuthentication flutter now
           (match updateUI_enter now (state l) with Some _ => t2 | None => later end)
           name (state l);
       waiting := [] |}.
Proof.
  intros Hw Ht H1 H2.
  change (turns [Calls (SuccessfulAuthentication flutter now later name);
                 Wakes 0 t1; Wakes 0 t2] l)
    with (turns [Wakes 0 t1; Wakes 0 t2]
            (turn (Calls (SuccessfulAuthentication flutter now later name)) l)).
  unfold turn at 1.
  unfold start, handleSuccessfulAuthentication_call, handleSuccessfulAuthentication.
  rewrite Hw. destruct (String.eqb name ""); [reflexivity |].
  set (s0 := set_isProcessing false (set_isRunning false (state l))).
  destruct (updateUI_call now AUTHENTICATED _ "" (Greeting flutter name) later s0)
    as [s1 w] eqn:E.
  cbn [app].
  rewrite (uninterrupted_updateUI_call _ _ _ _ _ _ _ _ _ _ _
             (Ht : transitioning (ovalState s0) = false) H1 H2 E).
  unfold returned.
  replace (match updateUI_enter now s0 with Some _ => t2 | None => later end)
    with (match updateUI_enter now (state l) with Some _ => t2 | None => later end);
    [reflexivity |].
  unfold updateUI_enter. change (currentState s0) with (currentState (state l)).
  change (lastUIUpdate s0) with (lastUIUpdate (state l)).
  destruct (AUTH_STATE_eqb (currentState (state l)) AUTHENTICATED); [reflexivity |].
  destruct (now - lastUIUpdate (state l) <? 300); reflexivity.
Qed.

(** A request inside the debounce window returns at its guard, whatever
    calls are waiting. *)
Lemma suppressed_call_changes_nothing (now : Z) (n : AUTH_STATE) (m h : string)
  (l : EventLoop) :
  now - lastUIUpdate (state l) < 300 ->
  turn (Calls (UpdateUI now n m h)) l = l.
Proof.
  intros Hw. unfold turn, start, updateUI_call, updateUI_enter.
  replace (now - lastUIUpdate (state l) <? 300) with true
    by (symmetry; apply Z.ltb_lt; exact Hw).
  destruct (AUTH_STATE_eqb (currentState (state l)) AUTHENTICATED);
    destruct l as [st ws]; cbn; rewrite app_nil_r; reflexivity.
Qed.

(** Once authenticated, a call changes neither the state nor what is
    shown. *)
Lemma call_authenticated (c : Call) (s : State) :
  currentState s = AUTHENTICATED ->
  currentState (call c s) = AUTHENTICATED /\ shown (call c s) = shown s.
Proof.
  intros Hc. destruct c as [now n m h | env now | flutter now later name]; unfold call.
  - rewrite updateUI_authenticated by exact Hc. split; [exact Hc | reflexivity].
  - unfold processFrame.
    destruct (negb (isRunning s) || isProcessing s); [split; [exact Hc | reflexivity] |].
    cbn [lastProcessedTime set_isProcessing].
    destruct (now - lastProcessedTime s <? MIN_FRAME_INTERVAL).
    + unfold when. destruct (isRunning _); cbn; split; (exact Hc || reflexivity).
    + unfold captureFrame.
      destruct ((videoWidth env =? 0) || (videoHeight env =? 0)).
      * rewrite updateUI_authenticated by exact Hc.
        unfold when. destruct (_ && _); cbn; split; (exact Hc || reflexivity).
      * destruct (drawImage_throws env).
        -- rewrite updateUI_authenticated by exact Hc.
           unfold when. destruct (_ && _); cbn; split; (exact Hc || reflexivity).
        -- cbn. split; [exact Hc | reflexivity].
  - unfold handleSuccessfulAuthentication, handleSuccessfulAuthentication_resume.
    destruct (String.eqb name ""); [split; [exact Hc | reflexivity] |].
    rewrite updateUI_authenticated by exact Hc.
    unfold when. destruct flutter; cbn [stream set_isProcessing set_isRunning];
      destruct (stream s); cbn; split; (exact Hc || reflexivity).
Qed.

(** Once authenticated, a call returns before any wait. *)
Lemma start_authenticated (c : Call) (s : State) :
  currentState s = AUTHENTICATED -> start c s = (call c s, None).
Proof.
  intros Hc.
  assert (U : forall now n m h caller later s0,
            currentState s0 = AUTHENTICATED ->
            updateUI_call now n m h caller later s0 = (returned caller later s0, None)
            /\ updateUI now n m h s0 = s0).
  { intros now n m h caller later s0 H0.
    unfold updateUI_call, updateUI, updateUI_enter. rewrite H0. split; reflexivity. }
  destruct c as [now n m h | env now | flutter now later name]; unfold start, call.
  - destruct (U now n m h Detached now s Hc) as (-> & ->). reflexivity.
  - unfold processFrame_call, processFrame.
    destruct (negb (isRunning s) || isProcessing s); [reflexivity |].
    cbn [lastProcessedTime set_isProcessing].
    destruct (now - lastProcessedTime s <? MIN_FRAME_INTERVAL); [reflexivity |].
    destruct (captureFrame env (set_isProcessing true s)) as [s0 [frame | msg]] eqn:Ec;
      [reflexivity |].
    assert (H0 : currentState (set_framesCollected 0 s0) = AUTHENTICATED).
    { unfold captureFrame in Ec.
      destruct ((videoWidth env =? 0) || (videoHeight env =? 0));
        [injection Ec as <- _; exact Hc |].
      destruct (drawImage_throws env); [injection Ec as <- _; exact Hc | discriminate Ec]. }
    destruct (U now ERROR "Error processing frame" "" CaptureFailed now _ H0) as (-> & ->).
    reflexivity.
  - unfold handleSuccessfulAuthentication_call, handleSuccessfulAuthentication.
    destruct (String.eqb name ""); [reflexivity |].
    destruct (U now AUTHENTICATED
                (String.append "Welcome, " (String.append (first_word name) "!")) ""
                (Greeting flutter name) later
                (set_isProcessing false (set_isRunning false s)) Hc) as (-> & ->).
    reflexivity.
Qed.

(** With no call waiting, the authenticated state is terminal for the event
    loop: no turn changes [currentState] or what is shown, and no call comes
    to wait. *)
Lemma authenticated_loop_is_terminal (ts : list Turn) (l : EventLoop) :
  waiting l = [] ->
  currentState (state l) = AUTHENTICATED ->
  waiting (turns ts l) = []
  /\ currentState (state (turns ts l)) = AUTHENTICATED
  /\ shown (state (turns ts l)) = shown (state l).
Proof.
  unfold turns. revert l. induction ts as [| t ts IH]; intros l Hw Hc.
  - repeat split; assumption.
  - cbn [fold_left].
    assert (H : waiting (turn t l) = []
                /\ currentState (state (turn t l)) = AUTHENTICATED
                /\ shown (state (turn t l)) = shown (state l)).
    { destruct t as [c | i now]; unfold turn.
      - rewrite (start_authenticated c _ Hc), Hw. cbn [state waiting app option_list].
        destruct (call_authenticated c (state l) Hc) as (H1 & H2).
        repeat split; assumption.
      - rewrite Hw. destruct i; cbn [nth_error]; repeat split; assumption. }
    destruct H as (H1 & H2 & H3).
    destruct (IH (turn t l) H1 H2) as (I1 & I2 & I3).
    repeat split; [exact I1 | exact I2 | rewrite I3; exact H3].
Qed.

(** X15: [handleSuccessfulAuthentication] with a name, called while no call
    of [updateUI] waits, in a state that is not yet authenticated and outside
    the debounce window.  At once it stops the loop; its repaint, 50 ms later
    at the earliest, moves to [AUTHENTICATED] and greets with the text before
    the first space of the name; 300 ms after the repaint at the earliest it
    tells the host, when the bridge is there, with the time read then.  No
    timer fires before it is due, so that the host is told no sooner than
    350 ms after the call.  From then on every [processFrame] returns at
    once and no turn of the event loop changes [currentState] or what is
    shown.  Without a name the call does nothing. *)
Theorem successful_authentication_greets (flutter : bool) (now later t1 t2 : Z)
  (name : string) (l : EventLoop) :
  name <> "" ->
  waiting l = [] ->
  transitioning (ovalState (state l)) = false ->
  currentState (state l) <> AUTHENTICATED ->
  300 <= now - lastUIUpdate (state l) ->
  now + 50 <= t1 ->
  t1 + 300 <= t2 ->
  let l1 := turn (Calls (SuccessfulAuthentication flutter now later name)) l in
  let l2 := turn (Wakes 0 t1) l1 in
  let l3 := turn (Wakes 0 t2) l2 in
  (isRunning (state l1) = false /\ isProcessing (state l1) = false
   /\ handlerCalls (state l1) = handlerCalls (state l)
   /\ forall t, t < now + 50 -> turn (Wakes 0 t) l1 = l1)
  /\ (currentState (state l2) = AUTHENTICATED
      /\ statusDisplay_textContent (elements (state l2))
         = String.append "Welcome, " (String.append (first_word name) "!")
      /\ (exists rest, name = String.append (first_word name) rest
                       /\ (rest = "" \/ exists r, rest = String " "%char r))
      /\ handlerCalls (state l2) = handlerCalls (state l)
      /\ forall t, t < t1 + 300 -> turn (Wakes 0 t) l2 = l2)
  /\ (l3 = {| state := handleSuccessfulAuthentication flutter now t2 name (state l);
              waiting := [] |}
      /\ currentState (state l3) = AUTHENTICATED
      /\ statusDisplay_textContent (elements (state l3))
         = String.append "Welcome, " (String.append (first_word name) "!")
      /\ isRunning (state l3) = false /\ isProcessing (state l3) = false
      /\ handlerCalls (state l3) =
           handlerCalls (state l)
           ++ (if flutter
               then [{| status := "success"; name := name; timestamp := t2 |}]
               else [])
      /\ now + 350 <= t2
      /\ (forall env now', turn (Calls (ProcessFrame env now')) l3 = l3)
      /\ forall ts, currentState (state (turns ts l3)) = AUTHENTICATED
                     /\ shown (state (turns ts l3)) = shown (state l3))
  /\ turn (Calls (SuccessfulAuthentication flutter now later "")) l = l.
Proof.
  intros Hn Hw Ht Hc Hd H1 H2 l1 l2 l3.
  set (m := String.append "Welcome, " (String.append (first_word name) "!")).
  set (s0 := set_isProcessing false (set_isRunning false (state l))).
  set (s1 := updateUI_begin (set_lastUIUpdate now s0)).
  set (s2 := updateUI_paint now AUTHENTICATED m "" s1).
  set (s3 := handleSuccessfulAuthentication_resume flutter t2 name (updateUI_finally s2)).
  assert (Enter : updateUI_enter now s0 = Some (set_lastUIUpdate now s0)).
  { unfold updateUI_enter. change (currentState s0) with (currentState (state l)).
    change (lastUIUpdate s0) with (lastUIUpdate (state l)).
    rewrite (AUTH_STATE_eqb_neq _ _ Hc).
    replace (now - lastUIUpdate (state l) <? 300) with false
      by (symmetry; apply Z.ltb_ge; exact Hd).
    reflexivity. }
  assert (E1 : l1 = {| state := s1;
                       waiting := [{| due := now + 50;
                                      suspended := Stripped now AUTHENTICATED m ""
                                                     (Greeting flutter name) |}] |}).
  { subst l1. unfold turn, start, handleSuccessfulAuthentication_call.
    apply String.eqb_neq in Hn. rewrite Hn. fold s0 m.
    unfold updateUI_call. rewrite Enter.
    change (transitioning (ovalState (set_lastUIUpdate now s0)))
      with (transitioning (ovalState (state l))).
    rewrite Ht, Hw. reflexivity. }
  assert (E2 : l2 = {| state := s2;
                       waiting := [{| due := t1 + 300;
                                      suspended := Painted (Greeting flutter name) |}] |}).
  { subst l2. rewrite E1. unfold turn. cbn [waiting nth_error due].
    replace (now + 50 <=? t1) with true by (symmetry; apply Z.leb_le; exact H1).
    reflexivity. }
  assert (E3 : l3 = {| state := s3; waiting := [] |}).
  { subst l3. rewrite E2. unfold turn. cbn [waiting nth_error due].
    replace (t1 + 300 <=? t2) with true by (symmetry; apply Z.leb_le; exact H2).
    reflexivity. }
  assert (Eatomic : s3 = handleSuccessfulAuthentication flutter now t2 name (state l)).
  { unfold handleSuccessfulAuthentication.
    apply String.eqb_neq in Hn. rewrite Hn. fold s0 m.
    unfold updateUI. rewrite Enter. fold s1. rewrite updateUI_finish_pieces. reflexivity. }
  destruct (first_word_prefix name) as (rest & Er & Hr & _).
  assert (Hm : str_or m "Position your face in the oval" = m) by reflexivity.
  split; [| split; [| split]].
  - rewrite E1. cbn [state]. repeat split.
    intros t Hearly. unfold turn. cbn [waiting nth_error due].
    replace (now + 50 <=? t) with false by (symmetry; apply Z.leb_gt; exact Hearly).
    reflexivity.
  - rewrite E2. cbn [state]. split; [reflexivity |]. split; [exact Hm |].
    split; [exists rest; split; assumption |]. split; [reflexivity |].
    intros t Hearly. unfold turn. cbn [waiting nth_error due].
    replace (t1 + 300 <=? t) with false by (symmetry; apply Z.leb_gt; exact Hearly).
    reflexivity.
  - assert (R : isRunning s3 = false /\ isProcessing s3 = false
                /\ currentState s3 = AUTHENTICATED
                /\ statusDisplay_textContent (elements s3) = m
                /\ handlerCalls s3 =
                     handlerCalls (state l)
                     ++ (if flutter
                         then [{| status := "success"; name := name; timestamp := t2 |}]
                         else [])).
    { subst s3. unfold handleSuccessfulAuthentication_resume, when.
      destruct flutter, (stream (updateUI_finally s2)); cbn; rewrite ?app_nil_r;
        repeat split; exact Hm. }
    destruct R as (R1 & R2 & R3 & R4 & R5).
    rewrite E3. cbn [state]. split; [rewrite Eatomic; reflexivity |].
    split; [exact R3 |]. split; [exact R4 |]. split; [exact R1 |].
    split; [exact R2 |]. split; [exact R5 |]. split; [lia |].
    split.
    + intros env now'. unfold turn, start, processFrame_call. cbn [state waiting].
      rewrite R1. reflexivity.
    + intros ts.
      destruct (authenticated_loop_is_terminal ts {| state := s3; waiting := [] |}
                  eq_refl R3) as (_ & T1 & T2).
      split; assumption.
  - unfold turn, start, handleSuccessfulAuthentication_call. cbn [String.eqb].
    clear - Hw. destruct l as [st ws]. cbn in Hw. subst ws. reflexivity.
Qed.

Lemma successful_authentication_greets_witness :
  let l3 := turns [Calls (SuccessfulAuthentication true (Session.t0 + 1400)
                            (Session.t0 + 1400) "Ann Lee");
                   Wakes 0 (Session.t0 + 1450); Wakes 0 (Session.t0 + 1750)]
              Session.loop_analyzing in
  currentState (state l3) = AUTHENTICATED
  /\ statusDisplay_textContent (elements (state l3)) = "Welcome, Ann!"
  /\ handlerCalls (state l3)
     = [{| status := "success"; name := "Ann Lee"; timestamp := Session.t0 + 1750 |}].
Proof.
  destruct (successful_authentication_greets true (Session.t0 + 1400) (Session.t0 + 1400)
              (Session.t0 + 1450) (Session.t0 + 1750) "Ann Lee" Session.loop_analyzing
              ltac:(discriminate) eq_refl eq_refl ltac:(discriminate)
              ltac:(vm_compute; discriminate) ltac:(vm_compute; discriminate)
              ltac:(vm_compute; discriminate))
    as (_ & _ & (_ & H1 & H2 & _ & _ & H3 & _) & _).
  exact (conj H1 (conj H2 H3)).
Defined.

(** *** Once [app.js] is authenticated *)

(** X16: once [app.js] is authenticated, no sequence of calls of
    [updateUI], [processFrame] and [handleSuccessfulAuthentication] changes the
    state or what the presenter shows. *)
Theorem app_authenticated_is_terminal (cs : list Call) (s : State) :
  currentState s = AUTHENTICATED ->
  currentState (calls cs s) = AUTHENTICATED /\ shown (calls cs s) = shown s.
Proof.
  unfold calls. revert s. induction cs as [| c cs IH]; intros s Hc.
  - split; [exact Hc | reflexivity].
  - cbn [fold_left]. destruct (call_authenticated c s Hc) as (H1 & H2).
    destruct (IH (call c s) H1) as (H3 & H4).
    split; [exact H3 | rewrite H4; exact H2].
Qed.

Lemma app_authenticated_is_terminal_witness :
  let s := handleSuccessfulAuthentication true (Session.t0 + 1500) (Session.t0 + 1850)
             "Ann Lee" Session.app_analyzing in
  let cs := [ProcessFrame Session.app_env0 (Session.t0 + 2000);
             UpdateUI (Session.t0 + 3000) ERROR "Error processing frame" ""] in
  currentState (calls cs s) = AUTHENTICATED /\ shown (calls cs s) = shown s.
Proof.
  apply app_authenticated_is_terminal. reflexivity.
Defined.

End SuccessAndTerminal.

Section PaddedRegion.
Import App.

Lemma round_half_up_monotone (a b : Q) : (a <= b)%Q -> round_half_up a <= round_half_up b.
Proof.
  intros H. unfold round_half_up. apply Qfloor_resp_le. lra.
Qed.

Lemma Qdiv_pos (a b : Q) : (0 < a)%Q -> (0 < b)%Q -> (0 < a / b)%Q.
Proof.
  intros Ha Hb. unfold Qdiv. apply Qmult_lt_0_compat; [exact Ha |].
  apply Qinv_lt_0_compat. exact Hb.
Qed.

(** X14: the region [captureFrame] of [app.js] sends is the guide's box in
    video pixels, widened and heightened by a padding between 0 and 10
    percent. *)
Theorem region_is_padded_by_at_most_a_tenth (env : Env) :
  0 < innerWidth env -> 0 < innerHeight env ->
  0 < videoWidth env -> 0 < videoHeight env ->
  (0 < DOMRect.width (videoRect env))%Q -> (0 < DOMRect.height (videoRect env))%Q ->
  (0 <= DOMRect.width (ovalRect env))%Q -> (0 <= DOMRect.height (ovalRect env))%Q ->
  let w := (DOMRect.width (ovalRect env)
            * (inject_Z (videoWidth env) / DOMRect.width (videoRect env)))%Q in
  let h := (DOMRect.height (ovalRect env)
            * (inject_Z (videoHeight env) / DOMRect.height (videoRect env)))%Q in
  round_half_up w <= Oval.width (ovalData env) <= round_half_up (w * (11 # 10))
  /\ round_half_up h <= Oval.height (ovalData env) <= round_half_up (h * (11 # 10)).
Proof.
  intros Hsw Hsh Hvw Hvh Hrw Hrh How Hoh w h.
  assert (Qsw : (0 < inject_Z (innerWidth env))%Q)
    by (change 0%Q with (inject_Z 0); rewrite <- Zlt_Qlt; exact Hsw).
  assert (Qsh : (0 < inject_Z (innerHeight env))%Q)
    by (change 0%Q with (inject_Z 0); rewrite <- Zlt_Qlt; exact Hsh).
  assert (Qvw : (0 < inject_Z (videoWidth env))%Q)
    by (change 0%Q with (inject_Z 0); rewrite <- Zlt_Qlt; exact Hvw).
  assert (Qvh : (0 < inject_Z (videoHeight env))%Q)
    by (change 0%Q with (inject_Z 0); rewrite <- Zlt_Qlt; exact Hvh).
  pose proof (Qdiv_pos _ _ Qsw Qsh) as Ha.
  pose proof (Qdiv_pos _ _ Qvw Hrw) as Hx.
  pose proof (Qdiv_pos _ _ Qvh Hrh) as Hy.
  unfold ovalData. cbn [Oval.width Oval.height].
  set (asp := (inject_Z (innerWidth env) / inject_Z (innerHeight env))%Q) in *.
  set (sx := (inject_Z (videoWidth env) / DOMRect.width (videoRect env))%Q) in *.
  set (sy := (inject_Z (videoHeight env) / DOMRect.height (videoRect env))%Q) in *.
  set (d := ((if Z.min (innerWidth env) (innerHeight env) <? 768 then 5 # 100 else 1 # 10)
             * (if Qlt_bool 1 asp then 1 else asp))%Q).
  assert (Hd : (0 <= d <= 1 # 10)%Q).
  { subst d. destruct (Qlt_bool 1 asp) eqn:E1.
    - destruct (_ <? 768); lra.
    - apply Qlt_bool_false in E1. destruct (_ <? 768); nra. }
  clearbody d asp sx sy. subst w h.
  assert (W0 : (0 <= DOMRect.width (ovalRect env) * sx)%Q) by nra.
  assert (H0 : (0 <= DOMRect.height (ovalRect env) * sy)%Q) by nra.
  repeat split; apply round_half_up_monotone; nra.
Qed.

Lemma region_is_padded_by_at_most_a_tenth_witness :
  round_half_up (270 * (inject_Z 640 / 640)) <= Oval.width (ovalData Session.app_env0)
    <= round_half_up (270 * (inject_Z 640 / 640) * (11 # 10))
  /\ round_half_up (360 * (inject_Z 480 / 480)) <= Oval.height (ovalData Session.app_env0)
    <= round_half_up (360 * (inject_Z 480 / 480) * (11 # 10)).
Proof.
  apply (region_is_padded_by_at_most_a_tenth Session.app_env0);
    try reflexivity; vm_compute; discriminate.
Defined.

End PaddedRegion.
